(** * MAT (Metadata Anonymisation Toolkit): the archive engines

    A shallow embedding of [libmat/parser.py] and [libmat/archive.py]
    (with the two terminal-ZIP subclasses of [libmat/office.py]) and the
    properties of the ZIP and TAR rebuilds and inspections.

    The Python code works on the file system through [os], [shutil],
    [zipfile] and [tarfile].  These are modelled as Python 2.7 documents
    them, on a small POSIX file system: a finite map from normalised paths
    to inodes, with paths resolved lexically and without symbolic links.
    Effects are state and exception passing: a computation takes a [world]
    and either returns a value or raises, in both cases with the world it
    left.

    The bytes of files are abstract: a file holds plain bytes or a
    well-formed container, so that reading an archive back gives the
    entries that were written.  The factory [libmat.mat.create_class_file]
    and the leaf strippers are not part of these sources; they are a
    parameter of the engines. *)

From Stdlib Require Import ZArith Ascii Bool Lia.
From Stdlib Require String.
From stdpp Require Import base option list strings gmap fin_maps.

Local Open Scope Z_scope.

(** ** Strings and POSIX paths ([str], [posixpath]) *)

Module Path.

Definition SEP : ascii := "/"%char.
Definition EXTSEP : ascii := "."%char.

(** [s.startswith(f)] and [s.endswith(f)]. *)
Definition startswith (s f : string) : bool := String.prefix f s.
Definition endswith (s f : string) : bool :=
  String.prefix (String.rev f) (String.rev s).

(** [s.rfind(c)] for a one-character [c]: the last index, or [-1]. *)
Fixpoint rfind_from (s : string) (c : ascii) (i last : Z) : Z :=
  match s with
  | EmptyString => last
  | String a s' => rfind_from s' c (i + 1) (if Ascii.eqb a c then i else last)
  end.
Definition rfind (s : string) (c : ascii) : Z := rfind_from s c 0 (-1).

(** Slices [s[:i]] and [s[i:]] for [0 <= i]. *)
Definition take_str (i : Z) (s : string) : string :=
  String.substring 0 (Z.to_nat i) s.
Definition drop_str (i : Z) (s : string) : string :=
  String.substring (Z.to_nat i) (String.length s - Z.to_nat i) s.

(** [s.lstrip('/')] and [s.rstrip('/')]. *)
Fixpoint lstrip_sep (s : string) : string :=
  match s with
  | String a s' => if Ascii.eqb a SEP then lstrip_sep s' else s
  | EmptyString => EmptyString
  end.
Definition rstrip_sep (s : string) : string :=
  String.rev (lstrip_sep (String.rev s)).

(** [s.split('/')] and ['/'.join(l)]. *)
Fixpoint split_go (cur s : string) : list string :=
  match s with
  | EmptyString => [String.rev cur]
  | String a s' =>
      if Ascii.eqb a SEP then String.rev cur :: split_go EmptyString s'
      else split_go (String a cur) s'
  end.
Definition split (s : string) : list string := split_go EmptyString s.

Fixpoint join_sep (l : list string) : string :=
  match l with
  | [] => ""
  | [x] => x
  | x :: l' => x +:+ "/" +:+ join_sep l'
  end.

(** [posixpath.join(a, b)]. *)
Definition join (a b : string) : string :=
  if startswith b "/" then b
  else if bool_decide (a = "") || endswith a "/" then a +:+ b
  else a +:+ "/" +:+ b.

(** [posixpath.splitext(p)] (that is [genericpath._splitext]): the
    extension starts at the last dot of the last component, unless that
    component has only dots before it. *)
Definition splitext (p : string) : string * string :=
  let sepIndex := rfind p SEP in
  let dotIndex := rfind p EXTSEP in
  if bool_decide (sepIndex < dotIndex)
     && negb (forallb (Ascii.eqb EXTSEP)
                (String.list_ascii_of_string
                   (String.substring (Z.to_nat (sepIndex + 1))
                      (Z.to_nat (dotIndex - (sepIndex + 1))) p)))
  then (take_str dotIndex p, drop_str dotIndex p)
  else (p, "").

(** [posixpath.basename(p)] and [posixpath.dirname(p)]. *)
Definition basename (p : string) : string := drop_str (rfind p SEP + 1) p.
Definition dirname (p : string) : string :=
  let head := take_str (rfind p SEP + 1) p in
  if bool_decide (head <> "") && negb (bool_decide (lstrip_sep head = ""))
  then rstrip_sep head else head.

(** [posixpath.normpath(path)]. [new_comps] is kept reversed. *)
Definition norm_step (initial_slashes : Z) (new_comps : list string)
    (comp : string) : list string :=
  if bool_decide (comp = "") || bool_decide (comp = ".") then new_comps
  else
    if negb (bool_decide (comp = ".."))
       || (bool_decide (initial_slashes = 0) && bool_decide (new_comps = []))
       || match new_comps with l :: _ => bool_decide (l = "..") | [] => false end
    then comp :: new_comps
    else tl new_comps.

Definition normpath (path : string) : string :=
  if bool_decide (path = "") then "."
  else
    let initial_slashes :=
      if startswith path "/" then
        if startswith path "//" && negb (startswith path "///") then 2 else 1
      else 0 in
    let comps := rev (fold_left (norm_step initial_slashes) (split path) []) in
    let p := join_sep comps in
    let p := if bool_decide (initial_slashes = 2) then "//" +:+ p
             else if bool_decide (initial_slashes = 1) then "/" +:+ p else p in
    if bool_decide (p = "") then "." else p.

End Path.

(** ** Archives as data

    The bytes of a file are kept abstract: a file holds either plain
    bytes or a well-formed ZIP or TAR container, given by the headers and
    payloads that [zipfile] and [tarfile] read from it.  A payload is
    again a file content, so containers nest. *)

(** [zipfile.ZipInfo]: the envelope of a ZIP entry. *)
Record ZipInfo := {
  zi_filename : string;
  zi_date_time : Z * Z * Z * Z * Z * Z;
  zi_compress_type : Z;
  zi_create_system : Z;
  zi_comment : string
}.

Definition ZIP_EPOCH : Z * Z * Z * Z * Z * Z := (1980, 1, 1, 0, 0, 0).
Definition ZIP_STORED : Z := 0.
Definition ZIP_DEFLATED : Z := 8.

(** [zipfile.ZipInfo(filename, date_time=...)]: a fresh envelope is
    stored, made on this system (3 on POSIX), without comment. *)
Definition new_ZipInfo (filename : string) (date_time : Z * Z * Z * Z * Z * Z) : ZipInfo :=
  {| zi_filename := filename; zi_date_time := date_time;
     zi_compress_type := ZIP_STORED; zi_create_system := 3; zi_comment := "" |}.

(** [tarfile.TarInfo]: the envelope of a TAR member. *)
Inductive tartype := REGTYPE | DIRTYPE | SYMTYPE | LNKTYPE | FIFOTYPE | CHRTYPE | BLKTYPE.

Record TarInfo := {
  ti_name : string;
  ti_mode : Z;
  ti_uid : Z;
  ti_gid : Z;
  ti_mtime : Z;
  ti_type : tartype;
  ti_uname : string;
  ti_gname : string
}.

Definition ti_isfile (t : TarInfo) : bool :=
  match ti_type t with REGTYPE => true | _ => false end.

(** The stream compression of a TAR file. *)
Inductive tarcomp := TarPlain | TarGz | TarBz2.

#[warnings="-register-all"]
Inductive content :=
| Raw (bytes : string)
| ZipData (comment : string) (infolist : list (ZipInfo * content))
| TarData (comp : tarcomp) (members : list (TarInfo * content)).

(** ** The file system and the world *)

Inductive body :=
| Reg (data : content)
| Directory
| Special (kind : tartype).

Record inode := {
  i_body : body;
  st_mode : Z;
  st_uid : Z;
  st_gid : Z;
  st_mtime : Z
}.

Inductive loglevel := DEBUG | INFO | ERROR.

(** The file system maps normalised paths to inodes; [w_log] is what
    [logging] received, latest last; the remaining fields are the process
    environment the libraries read. *)
Record world := {
  w_fs : gmap string inode;
  w_log : list (loglevel * string);
  w_umask : Z;
  w_euid : Z;
  w_egid : Z;
  w_clock : Z;
  w_passwd : gmap Z string;
  w_group : gmap Z string
}.

Definition with_fs (w : world) (fs : gmap string inode) : world :=
  {| w_fs := fs; w_log := w_log w; w_umask := w_umask w; w_euid := w_euid w;
     w_egid := w_egid w; w_clock := w_clock w; w_passwd := w_passwd w;
     w_group := w_group w |}.

Definition with_log (w : world) (l : list (loglevel * string)) : world :=
  {| w_fs := w_fs w; w_log := l; w_umask := w_umask w; w_euid := w_euid w;
     w_egid := w_egid w; w_clock := w_clock w; w_passwd := w_passwd w;
     w_group := w_group w |}.

(** ** Computations: state and exceptions *)

Inductive exn :=
| BadZipfile | ReadError | IOError | OSError | ShutilError | ValueError
| UnicodeDecodeError | StripperError (what : string).

Inductive result (A : Type) :=
| Ok (a : A) (w : world)
| Raise (e : exn) (w : world).
Arguments Ok {A} a w.
Arguments Raise {A} e w.

Definition M (A : Type) : Type := world -> result A.

Definition ret {A} (a : A) : M A := fun w => Ok a w.
Definition bind {A B} (m : M A) (f : A -> M B) : M B := fun w =>
  match m w with
  | Ok a w' => f a w'
  | Raise e w' => Raise e w'
  end.

Notation "'let*' x ':=' m 'in' k" := (bind m (fun x => k))
  (at level 10, x name, m at level 100, k at level 200).
Notation "m1 '>>' m2" := (bind m1 (fun _ => m2))
  (at level 100, m2 at level 200, right associativity).

Definition raise {A} (e : exn) : M A := fun w => Raise e w.
Definition get_world : M world := fun w => Ok w w.
Definition put_fs (fs : gmap string inode) : M unit := fun w => Ok tt (with_fs w fs).

(** [try: m except: h] for an error the library swallows. *)
Definition try_catch {A} (m : M A) (h : exn -> M A) : M A := fun w =>
  match m w with
  | Ok a w' => Ok a w'
  | Raise e w' => h e w'
  end.

(** The world a computation leaves, however it ends. *)
Definition world_of {A} (r : result A) : world :=
  match r with Ok _ w => w | Raise _ w => w end.

Definition logging (lvl : loglevel) (msg : string) : M unit := fun w =>
  Ok tt (with_log w (w_log w ++ [(lvl, msg)])).

(** ** [os] and [shutil] *)

Module OS.

Definition S_IWUSR : Z := 128.  (* 0o200 *)

(** Path resolution: lexical ([..] is resolved without looking at the
    file system); the root and the working directory always exist; a
    path with a trailing slash names a directory or nothing. *)
Definition root_inode : inode :=
  {| i_body := Directory; st_mode := 493; st_uid := 0; st_gid := 0; st_mtime := 0 |}.

Definition implicit_dir (k : string) : bool :=
  bool_decide (k = ".") || bool_decide (k = "/") || bool_decide (k = "//").

Definition lookup_key (w : world) (k : string) : option inode :=
  if implicit_dir k then Some root_inode else w_fs w !! k.

Definition node_at (w : world) (p : string) : option inode :=
  if bool_decide (p = "") then None
  else
    match lookup_key w (Path.normpath p) with
    | Some i =>
        match i_body i with
        | Directory => Some i
        | _ => if Path.endswith p "/" then None else Some i
        end
    | None => None
    end.

Definition is_dir_key (w : world) (k : string) : bool :=
  bool_decide (k = "")
  || match lookup_key w k with
     | Some i => match i_body i with Directory => true | _ => false end
     | None => false
     end.

Definition isfile (w : world) (p : string) : bool :=
  match node_at w p with
  | Some i => match i_body i with Reg _ => true | _ => false end
  | None => false
  end.
Definition isdir (w : world) (p : string) : bool :=
  match node_at w p with
  | Some i => match i_body i with Directory => true | _ => false end
  | None => false
  end.
Definition exists_ (w : world) (p : string) : bool :=
  bool_decide (is_Some (node_at w p)).

Definition path_isfile (p : string) : M bool := fun w => Ok (isfile w p) w.
Definition path_isdir (p : string) : M bool := fun w => Ok (isdir w p) w.
Definition path_exists (p : string) : M bool := fun w => Ok (exists_ w p) w.

(** Where a new directory entry may be made: the parent is a directory. *)
Definition parent_ok (w : world) (k : string) : bool :=
  is_dir_key w (Path.dirname k).

Definition new_inode (w : world) (b : body) (mode : Z) : inode :=
  {| i_body := b; st_mode := Z.land mode (Z.lnot (w_umask w));
     st_uid := w_euid w; st_gid := w_egid w; st_mtime := w_clock w |}.

(** [os.mkdir(p, mode)]. *)
Definition mkdir (p : string) (mode : Z) : M unit := fun w =>
  let k := Path.normpath p in
  if exists_ w p || negb (parent_ok w k) || bool_decide (p = "") then Raise OSError w
  else Ok tt (with_fs w (<[k := new_inode w Directory mode]> (w_fs w))).

(** [os.makedirs(name)]: make the missing ancestors, then [name]. The
    recursion is on the path, which [dirname] shortens. *)
Fixpoint makedirs_go (fuel : nat) (name : string) : M unit :=
  match fuel with
  | O => mkdir name 511
  | S fuel' =>
      let head := Path.dirname (Path.rstrip_sep name) in
      let tail := Path.basename (Path.rstrip_sep name) in
      let* ex := path_exists head in
      if bool_decide (head <> "") && bool_decide (tail <> "") && negb ex
      then
        try_catch (makedirs_go fuel' head)
          (fun e w => if exists_ w head then Ok tt w else Raise e w) >>
        if bool_decide (tail = ".") then ret tt else mkdir name 511
      else mkdir name 511
  end.
Definition makedirs (name : string) : M unit :=
  makedirs_go (String.length name) name.

(** [open(p, 'wb').write(data)]: create or truncate a regular file. *)
Definition write_file (p : string) (data : content) : M unit := fun w =>
  let k := Path.normpath p in
  if bool_decide (p = "") || Path.endswith p "/" then Raise IOError w
  else
    match lookup_key w k with
    | Some i =>
        match i_body i with
        | Reg _ =>
            Ok tt (with_fs w (<[k := {| i_body := Reg data; st_mode := st_mode i;
                                         st_uid := st_uid i; st_gid := st_gid i;
                                         st_mtime := w_clock w |}]> (w_fs w)))
        | _ => Raise IOError w
        end
    | None =>
        if is_dir_key w k || negb (parent_ok w k) then Raise IOError w
        else Ok tt (with_fs w (<[k := new_inode w (Reg data) 438]> (w_fs w)))
    end.

(** [open(p, 'r').read()]. *)
Definition read_file (p : string) : M content := fun w =>
  match node_at w p with
  | Some i => match i_body i with Reg d => Ok d w | _ => Raise IOError w end
  | None => Raise IOError w
  end.

(** [os.stat(p).st_mode] and [os.chmod(p, mode)]. *)
Definition stat_mode (p : string) : M Z := fun w =>
  match node_at w p with
  | Some i => Ok (st_mode i) w
  | None => Raise OSError w
  end.

Definition chmod (p : string) (mode : Z) : M unit := fun w =>
  match node_at w p with
  | Some i =>
      Ok tt (with_fs w (<[Path.normpath p := {| i_body := i_body i; st_mode := mode;
                                                 st_uid := st_uid i; st_gid := st_gid i;
                                                 st_mtime := st_mtime i |}]> (w_fs w)))
  | None => Raise OSError w
  end.

(** [os.unlink(p)]. *)
Definition unlink (p : string) : M unit := fun w =>
  match node_at w p with
  | Some i =>
      match i_body i with
      | Directory => Raise OSError w
      | _ => Ok tt (with_fs w (delete (Path.normpath p) (w_fs w)))
      end
  | None => Raise OSError w
  end.

(** [os.rename(src, dst)]. A directory takes its tree with it. *)
Definition rekey (ks kd k : string) : string :=
  if bool_decide (k = ks) then kd
  else if Path.startswith k (ks +:+ "/")
       then kd +:+ Path.drop_str (Z.of_nat (String.length ks)) k
       else k.

Definition rename (src dst : string) : M unit := fun w =>
  let ks := Path.normpath src in
  let kd := Path.normpath dst in
  match node_at w src with
  | None => Raise OSError w
  | Some i =>
      if negb (parent_ok w kd) || bool_decide (dst = "") then Raise OSError w
      else
        match i_body i, lookup_key w kd with
        | Directory, Some _ => Raise OSError w
        | Directory, None =>
            if Path.startswith kd (ks +:+ "/") || is_dir_key w kd then Raise OSError w
            else Ok tt (with_fs w (list_to_map
                          (prod_map (rekey ks kd) id <$> map_to_list (w_fs w))))
        | _, Some j =>
            match i_body j with
            | Directory => Raise OSError w
            | _ => if Path.endswith dst "/" then Raise OSError w
                   else Ok tt (with_fs w (<[kd := i]> (delete ks (w_fs w))))
            end
        | _, None =>
            if Path.endswith dst "/" || is_dir_key w kd then Raise OSError w
            else Ok tt (with_fs w (<[kd := i]> (delete ks (w_fs w))))
        end
  end.

End OS.

(** [shutil.copy2] of a regular file and [shutil.move]. *)
Module Shutil.

Definition copy2 (src dst : string) : M unit :=
  let* isd := OS.path_isdir dst in
  let dst := if isd then Path.join dst (Path.basename src) else dst in
  let* w := get_world in
  match OS.node_at w src with
  | Some i =>
      match i_body i with
      | Reg d =>
          if bool_decide (Path.normpath src = Path.normpath dst) then raise ShutilError
          else
            OS.write_file dst d >>
            let* w' := get_world in
            match w_fs w' !! Path.normpath dst with
            | Some j =>
                put_fs (<[Path.normpath dst :=
                            {| i_body := i_body j; st_mode := st_mode i;
                               st_uid := st_uid j; st_gid := st_gid j;
                               st_mtime := st_mtime i |}]> (w_fs w'))
            | None => raise OSError
            end
      | _ => raise IOError
      end
  | None => raise IOError
  end.

Definition move (src dst : string) : M unit :=
  let* isd := OS.path_isdir dst in
  let* ex := OS.path_exists (Path.join dst (Path.basename (Path.rstrip_sep src))) in
  if isd && negb (bool_decide (Path.normpath src = Path.normpath dst)) && ex
  then raise ShutilError
  else
    let real_dst :=
      if isd && negb (bool_decide (Path.normpath src = Path.normpath dst))
      then Path.join dst (Path.basename (Path.rstrip_sep src)) else dst in
    try_catch (OS.rename src real_dst)
      (fun e =>
         match e with
         | OSError =>
             let* srcdir := OS.path_isdir src in
             if srcdir then raise OSError
             else copy2 src real_dst >> OS.unlink src
         | _ => raise e
         end).

End Shutil.

(** ** [zipfile] *)

Module Zipfile.

(** Where [ZipFile.extract] puts a member: the member name is made
    relative (empty, [.] and [..] components are dropped, so a leading
    slash goes too) before it is joined to the target directory. *)
Definition arcname (filename : string) : string :=
  Path.join_sep
    (filter (fun x => x <> "" /\ x <> "." /\ x <> "..") (Path.split filename)).

Definition targetpath (dir filename : string) : string :=
  Path.normpath (Path.join dir (arcname filename)).

(** [ZipFile(file, 'r')] with [infolist()]. *)
Definition open_r (file : string) : M (list (ZipInfo * content)) := fun w =>
  match OS.node_at w file with
  | Some i =>
      match i_body i with
      | Reg (ZipData _ l) => Ok l w
      | Reg _ => Raise BadZipfile w
      | _ => Raise IOError w
      end
  | None => Raise IOError w
  end.

(** [ZipFile(file, 'r')] with [comment] and [infolist()]. *)
Definition open_rc (file : string) : M (string * list (ZipInfo * content)) := fun w =>
  match OS.node_at w file with
  | Some i =>
      match i_body i with
      | Reg (ZipData c l) => Ok (c, l) w
      | Reg _ => Raise BadZipfile w
      | _ => Raise IOError w
      end
  | None => Raise IOError w
  end.

(** [namelist()], and [getinfo(name)] with [None] for its [KeyError]:
    of several entries of one name the archive's directory keeps the
    last. *)
Definition namelist (infolist : list (ZipInfo * content)) : list string :=
  (fun e => zi_filename e.1) <$> infolist.

Definition getinfo (infolist : list (ZipInfo * content)) (name : string) : option ZipInfo :=
  last (filter (fun z => zi_filename z = name) (fst <$> infolist)).

(** [ZipFile(file, 'w')]: the file is created or truncated. *)
Definition open_w (file : string) : M unit := OS.write_file file (Raw "").

(** [ZipFile.extract(item, dir)]. *)
Definition extract (item : ZipInfo * content) (dir : string) : M unit :=
  let t := targetpath dir (zi_filename item.1) in
  let upperdirs := Path.dirname t in
  let* ex := OS.path_exists upperdirs in
  (if bool_decide (upperdirs <> "") && negb ex then OS.makedirs upperdirs else ret tt) >>
  if Path.endswith (zi_filename item.1) "/" then
    let* isd := OS.path_isdir t in
    if isd then ret tt else OS.mkdir t 511
  else OS.write_file t item.2.

(** [close()] of a written archive: the entries given to [writestr],
    in order, and an empty archive comment. *)
Definition close_w (file : string) (entries : list (ZipInfo * content)) : M unit :=
  OS.write_file file (ZipData "" entries).

End Zipfile.

(** ** [tarfile] *)

Module Tarfile.

(** [tarfile.open(file, mode)] for reading, with [getmembers()]. *)
Definition open_r (file mode : string) : M (list (TarInfo * content)) := fun w =>
  match OS.node_at w file with
  | Some i =>
      match i_body i with
      | Reg (TarData c l) =>
          if bool_decide (mode = "r") || bool_decide (mode = "r:*") then Ok l w
          else if bool_decide (mode = "r:") then
            match c with TarPlain => Ok l w | _ => Raise ReadError w end
          else if bool_decide (mode = "r:gz") then
            match c with TarGz => Ok l w | _ => Raise ReadError w end
          else if bool_decide (mode = "r:bz2") then
            match c with TarBz2 => Ok l w | _ => Raise ReadError w end
          else Raise ValueError w
      | Reg _ =>
          if bool_decide (mode = "r") || bool_decide (mode = "r:*")
             || bool_decide (mode = "r:") || bool_decide (mode = "r:gz")
             || bool_decide (mode = "r:bz2")
          then Raise ReadError w else Raise ValueError w
      | _ => Raise IOError w
      end
  | None => Raise IOError w
  end.

(** [tarfile.open(file, mode)] for writing: the stream compression. *)
Definition open_w (file mode : string) : M tarcomp :=
  if bool_decide (mode = "w") || bool_decide (mode = "w:") then
    OS.write_file file (Raw "") >> ret TarPlain
  else if bool_decide (mode = "w:gz") then OS.write_file file (Raw "") >> ret TarGz
  else if bool_decide (mode = "w:bz2") then OS.write_file file (Raw "") >> ret TarBz2
  else raise ValueError.

Definition close_w (file : string) (c : tarcomp) (members : list (TarInfo * content)) : M unit :=
  OS.write_file file (TarData c members).

(** The attributes [extract] gives the extracted inode: the owner is
    changed only by the superuser (the lookup of the ids by name is
    left out), mode and time come from the member. *)
Definition set_attrs (ti : TarInfo) (k : string) : M unit := fun w =>
  match w_fs w !! k with
  | Some i =>
      let root := bool_decide (w_euid w = 0) in
      let sym := match ti_type ti with SYMTYPE => true | _ => false end in
      Ok tt (with_fs w (<[k := {| i_body := i_body i;
                                  st_mode := if sym then st_mode i else ti_mode ti;
                                  st_uid := if root then ti_uid ti else st_uid i;
                                  st_gid := if root then ti_gid ti else st_gid i;
                                  st_mtime := if sym then st_mtime i else ti_mtime ti |}]>
                             (w_fs w)))
  | None => Ok tt w
  end.

Definition make_special (t : tartype) (targetpath : string) : M unit := fun w =>
  let k := Path.normpath targetpath in
  let fresh_node := Ok tt (with_fs w (<[k := OS.new_inode w (Special t) 438]> (w_fs w))) in
  if negb (OS.parent_ok w k) || OS.is_dir_key w k || bool_decide (targetpath = "")
  then Raise OSError w
  else
    match t, OS.lookup_key w k with
    | (SYMTYPE | LNKTYPE), _ => fresh_node
    | _, None => fresh_node
    | _, Some _ => Raise OSError w
    end.

(** [TarFile.extract(item, dir)] with the default [errorlevel]. *)
Definition extract (item : TarInfo * content) (dir : string) : M unit :=
  let targetpath := Path.rstrip_sep (Path.join dir (ti_name item.1)) in
  let upperdirs := Path.dirname targetpath in
  let* ex := OS.path_exists upperdirs in
  (if bool_decide (upperdirs <> "") && negb ex then OS.makedirs upperdirs else ret tt) >>
  match ti_type item.1 with
  | REGTYPE => OS.write_file targetpath item.2
  | DIRTYPE =>
      let* ex' := OS.path_exists targetpath in
      if ex' then ret tt else OS.mkdir targetpath 448
  | t => make_special t targetpath
  end >>
  set_attrs item.1 (Path.normpath targetpath).

(** [TarFile.gettarinfo(name, arcname)] from the inode found. *)
Definition gettarinfo (w : world) (i : inode) (arcname : string) : TarInfo :=
  {| ti_name := Path.lstrip_sep arcname;
     ti_mode := st_mode i;
     ti_uid := st_uid i;
     ti_gid := st_gid i;
     ti_mtime := st_mtime i;
     ti_type := match i_body i with
                | Reg _ => REGTYPE | Directory => DIRTYPE | Special t => t
                end;
     ti_uname := default "" (w_passwd w !! st_uid i);
     ti_gname := default "" (w_group w !! st_gid i) |}.

Definition listdir (w : world) (name : string) : list string :=
  Path.basename <$>
    filter (fun k => Path.dirname k = Path.normpath name /\ k <> Path.normpath name)
      (map_to_list (w_fs w)).*1.

(** [TarFile.add(name, arcname, filter=f)]: the members it appends, or
    [None] where it raises. A directory is added with its tree; the archive
    being written is skipped. The depth of a tree is below the number of
    inodes, which bounds the recursion. *)
Fixpoint add_go (fuel : nat) (output : string) (f : TarInfo -> TarInfo)
    (name arcname : string) (w : world) : option (list (TarInfo * content)) :=
  match fuel with
  | O => None
  | S fuel' =>
      if bool_decide (Path.normpath name = Path.normpath output) then Some []
      else
        match OS.node_at w name with
        | None => None
        | Some i =>
            let ti := f (gettarinfo w i arcname) in
            match i_body i with
            | Reg d => Some [(ti, d)]
            | Special _ => Some [(ti, Raw "")]
            | Directory =>
                match mapM (fun c => add_go fuel' output f (Path.join name c)
                                     (Path.join arcname c) w) (listdir w name) with
                | Some rest => Some ((ti, Raw "") :: concat rest)
                | None => None
                end
            end
        end
  end.

Definition add (output : string) (tarout : list (TarInfo * content))
    (name arcname : string) (f : TarInfo -> TarInfo) : M (list (TarInfo * content)) :=
  fun w =>
    match add_go (S (size (w_fs w))) output f name arcname w with
    | Some l => Ok (tarout ++ l) w
    | None => Raise OSError w
    end.

End Tarfile.

(** ** [libmat/parser.py] *)

Definition NOMETA : gset string := {[ ".bmp"; ".rdf"; ".txt"; ".xml"; ".rels" ]}.

(** The attributes of a stripper that the archive engines use. [output]
    and [tempdir] are the names [tempfile.mkstemp] and [tempfile.mkdtemp]
    gave the constructor; [compression] and [add2archive] are the ones
    [GenericArchiveStripper.__init__] adds. *)
Record stripper := {
  filename : string;
  backup : bool;
  output : string;
  compression : string;
  add2archive : bool;
  tempdir : string
}.

(** Modelled from the spec: [libmat.mat.secure_remove] is not in the
    sources. It overwrites the file and unlinks it; only the unlinking
    of a regular file can be seen afterwards. *)
Definition secure_remove (path : string) : M unit :=
  let* isf := OS.path_isfile path in
  if isf then OS.unlink path else raise OSError.

(** [GenericParser.create_backup_copy]. *)
Definition create_backup_copy (self : stripper) : M unit :=
  Shutil.copy2 (filename self) (Path.join (filename self) ".bak").

(** [GenericParser.do_backup]. *)
Definition do_backup (self : stripper) : M unit :=
  (if backup self
   then Shutil.move (filename self) (Path.join (filename self) ".bak")
   else secure_remove (filename self)) >>
  Shutil.move (output self) (filename self).

(** ** Child strippers *)

(** The classes of [libmat/archive.py] and [libmat/office.py], and the
    leaf formats, which live elsewhere. *)
Inductive stripper_class :=
| ZipStripper | TarStripper | TerminalZipStripper | GzipStripper | Bzip2Stripper
| OpenDocumentStripper | OpenXmlStripper | PdfStripper
| LeafStripper (format : string).

(** [isinstance(cfile, GenericArchiveStripper)]. *)
Definition is_GenericArchiveStripper (c : stripper_class) : bool :=
  match c with
  | PdfStripper | LeafStripper _ => false
  | _ => true
  end.

(** Modelled from the spec: the factory [libmat.mat.create_class_file]
    and the leaf strippers are not in the sources. A child stripper is
    given by its class and by what its [remove_all] makes of the bytes of
    its file: sanitized bytes, which it publishes over its file and returns
    true; or it gives up and returns false; or it raises. *)
Inductive outcome :=
| Sanitized (data : content)
| Refused
| Crashed (e : exn).

Record child := {
  c_class : stripper_class;
  c_run : content -> outcome
}.

(** Modelled from the spec: a child's [remove_all] on its file [name].
    Publication with [backup] false replaces the file by the child's
    output temp file, a fresh inode made by [mkstemp]. *)
Definition child_remove_all (c : child) (name : string) : M bool := fun w =>
  match OS.node_at w name with
  | Some i =>
      match i_body i with
      | Reg d =>
          match c_run c d with
          | Sanitized d' =>
              Ok true (with_fs w (<[Path.normpath name := OS.new_inode w (Reg d') 384]> (w_fs w)))
          | Refused => Ok false w
          | Crashed e => Raise e w
          end
      | _ => Raise IOError w
      end
  | None => Raise IOError w
  end.

(** [for x in l: s = body(s, x)]. *)
Fixpoint for_each {A S : Type} (body : S -> A -> M S) (l : list A) (s : S) : M S :=
  match l with
  | [] => ret s
  | x :: l' => let* s' := body s x in for_each body l' s'
  end.

Section Engines.

(** Modelled from the spec: [create_class_file(name, backup,
    add2archive=...)] chooses the stripper from the name and the bytes of
    the file; [None] stands for an unsupported or harmless format. *)
Variable create_class_file : string -> bool -> bool -> content -> option child.

(** Whether [s.decode('utf-8')] succeeds. *)
Variable utf8_decodes : string -> bool.

Definition create_class_file_at (name : string) (bak a2a : bool) : M (option child) :=
  fun w =>
    match OS.node_at w name with
    | Some i =>
        match i_body i with
        | Reg d => Ok (create_class_file name bak a2a d) w
        | _ => Ok None w
        end
    | None => Ok None w
    end.

(** *** [libmat/archive.py]: [ZipStripper] *)

(** The envelope [remove_all] composes for an entry it writes. *)
Definition clean_zinfo (name : string) : ZipInfo :=
  let zinfo := new_ZipInfo name ZIP_EPOCH in
  {| zi_filename := zi_filename zinfo; zi_date_time := zi_date_time zinfo;
     zi_compress_type := ZIP_DEFLATED; zi_create_system := 3; zi_comment := "" |}.

(** One turn of the loop of [ZipStripper.remove_all]; [zipout] is what
    was written so far. [keep] is false where the code says [continue]. *)
Definition zip_item (self : stripper) (whitelist beginning_blacklist ending_blacklist : list string)
    (zipout : list (ZipInfo * content)) (item : ZipInfo * content)
    : M (list (ZipInfo * content)) :=
  Zipfile.extract item (tempdir self) >>
  let path := Path.join (tempdir self) (zi_filename item.1) in
  let beginning := existsb (fun f => Path.startswith (zi_filename item.1) f) beginning_blacklist in
  let ending := existsb (fun f => Path.endswith (zi_filename item.1) f) ending_blacklist in
  let* isf := OS.path_isfile path in
  if isf && negb beginning && negb ending then
    let* cfile := create_class_file_at path false (add2archive self) in
    let* keep :=
      match cfile with
      | Some c =>
          let* old_stat := OS.stat_mode path in
          OS.chmod path (Z.lor old_stat OS.S_IWUSR) >>
          let* _ := child_remove_all c path in
          OS.chmod path old_stat >>
          logging DEBUG ("Processing " +:+ zi_filename item.1 +:+ " from " +:+ filename self) >>
          ret true
      | None =>
          if negb (bool_decide (zi_filename item.1 ∈ whitelist)) then
            logging INFO (zi_filename item.1 +:+ "'s format is not supported or harmless") >>
            let ext := (Path.splitext path).2 in
            if negb (add2archive self || bool_decide (ext ∈ NOMETA)) then ret false
            else ret true
          else ret true
      end in
    if keep then
      let zinfo := clean_zinfo (zi_filename item.1) in
      let* data := OS.read_file path in
      ret (zipout ++ [(zinfo, data)])
    else ret zipout
  else ret zipout.

(** The rebuild: open both archives, loop, close. *)
Definition zip_rebuild (self : stripper) (whitelist beginning_blacklist ending_blacklist : list string)
    : M (list (ZipInfo * content)) :=
  let* infolist := Zipfile.open_r (filename self) in
  Zipfile.open_w (output self) >>
  let* zipout := for_each (zip_item self whitelist beginning_blacklist ending_blacklist)
                   infolist [] in
  Zipfile.close_w (output self) zipout >>
  ret zipout.

(** [ZipStripper.remove_all(whitelist, beginning_blacklist,
    ending_blacklist)]; an argument left out is [None]. *)
Definition ZipStripper_remove_all (self : stripper)
    (whitelist beginning_blacklist ending_blacklist : option (list string)) : M bool :=
  let ending_blacklist := default [] ending_blacklist in
  let beginning_blacklist := default [] beginning_blacklist in
  let whitelist := default [] whitelist in
  zip_rebuild self whitelist beginning_blacklist ending_blacklist >>
  logging INFO (filename self +:+ " processed") >>
  do_backup self >>
  ret true.

(** [TerminalZipStripper] has an empty body: it inherits everything. *)
Definition TerminalZipStripper_remove_all := ZipStripper_remove_all.

(** [libmat/office.py]: the two terminal ZIP formats. *)
Definition OpenDocumentStripper_remove_all (self : stripper) : M bool :=
  TerminalZipStripper_remove_all self None None (Some ["meta.xml"]).

Definition OpenXmlStripper_remove_all (self : stripper) : M bool :=
  TerminalZipStripper_remove_all self (Some [".rels"]) (Some ["docProps/"]) None.

(** *** [libmat/archive.py]: [TarStripper] *)

(** [TarStripper._remove_tar_added]. *)
Definition _remove_tar_added (current_file : TarInfo) : TarInfo :=
  {| ti_name := ti_name current_file;
     ti_mode := ti_mode current_file;
     ti_uid := 0;
     ti_gid := 0;
     ti_mtime := 0;
     ti_type := ti_type current_file;
     ti_uname := "";
     ti_gname := "" |}.

(** One turn of the loop of [TarStripper.remove_all]. *)
Definition tar_item (self : stripper) (whitelist : list string)
    (tarout : list (TarInfo * content)) (item : TarInfo * content)
    : M (list (TarInfo * content)) :=
  Tarfile.extract item (tempdir self) >>
  if ti_isfile item.1 then
    let path := Path.join (tempdir self) (ti_name item.1) in
    let* cfile := create_class_file_at path false (add2archive self) in
    let* keep :=
      match cfile with
      | Some c =>
          let* old_stat := OS.stat_mode path in
          OS.chmod path (Z.lor old_stat OS.S_IWUSR) >>
          let* _ := child_remove_all c path in
          OS.chmod path old_stat >>
          ret true
      | None =>
          if add2archive self || bool_decide ((Path.splitext (ti_name item.1)).2 ∈ NOMETA) then
            logging DEBUG (ti_name item.1 +:+ "' format is either not supported or harmless") >>
            ret true
          else if bool_decide (ti_name item.1 ∈ whitelist) then
            logging DEBUG (ti_name item.1 +:+ " is not supported, but MAT was told to add it anyway.") >>
            ret true
          else
            logging DEBUG (ti_name item.1 +:+ " will not be added") >>
            ret false
      end in
    if keep then
      if utf8_decodes path && utf8_decodes (ti_name item.1) then
        Tarfile.add (output self) tarout path (ti_name item.1) _remove_tar_added
      else raise UnicodeDecodeError
    else ret tarout
  else ret tarout.

Definition tar_rebuild (self : stripper) (whitelist : list string)
    : M (list (TarInfo * content)) :=
  let* members := Tarfile.open_r (filename self) ("r" +:+ compression self) in
  let* comp := Tarfile.open_w (output self) ("w" +:+ compression self) in
  let* tarout := for_each (tar_item self whitelist) members [] in
  Tarfile.close_w (output self) comp tarout >>
  ret tarout.

(** [TarStripper.remove_all(whitelist)]. *)
Definition TarStripper_remove_all (self : stripper) (whitelist : option (list string)) : M bool :=
  let whitelist := default [] whitelist in
  tar_rebuild self whitelist >>
  do_backup self >>
  ret true.

End Engines.

(** *** Construction and destruction of a stripper *)

(** [tempfile.mkstemp()] and [tempfile.mkdtemp()]; [name] stands for
    the unused random name the library settles on. *)
Definition mkstemp (name : string) : M string :=
  let* ex := OS.path_exists name in
  if ex then raise OSError
  else OS.write_file name (Raw "") >> OS.chmod name 384 >> ret name.

Definition mkdtemp (name : string) : M string :=
  OS.mkdir name 448 >> ret name.

(** [GenericArchiveStripper.__init__] (after [GenericParser.__init__]). *)
Definition GenericArchiveStripper_init (file : string) (bak a2a : bool)
    (tmpfile tmpdir : string) : M stripper :=
  let* out := mkstemp tmpfile in
  let* dir := mkdtemp tmpdir in
  ret {| filename := file; backup := bak; output := out; compression := "";
         add2archive := a2a; tempdir := dir |}.

(** [GzipStripper.__init__] and [Bzip2Stripper.__init__]. *)
Definition with_compression (self : stripper) (c : string) : stripper :=
  {| filename := filename self; backup := backup self; output := output self;
     compression := c; add2archive := add2archive self; tempdir := tempdir self |}.

Definition GzipStripper_init (file : string) (bak a2a : bool) (tmpfile tmpdir : string)
    : M stripper :=
  let* self := GenericArchiveStripper_init file bak a2a tmpfile tmpdir in
  ret (with_compression self ":gz").

Definition Bzip2Stripper_init (file : string) (bak a2a : bool) (tmpfile tmpdir : string)
    : M stripper :=
  let* self := GenericArchiveStripper_init file bak a2a tmpfile tmpdir in
  ret (with_compression self ":bz2").

(** [GenericArchiveStripper.__del__]: the files of the scratch directory
    are removed, then the directory tree. *)
Definition under (dir k : string) : Prop :=
  k = dir \/ Path.startswith k (dir +:+ "/") = true.

#[global] Instance under_dec dir k : Decision (under dir k).
Proof. unfold under. apply _. Defined.

Definition GenericArchiveStripper_del (self : stripper) : M unit := fun w =>
  if OS.isdir w (tempdir self)
  then Ok tt (with_fs w (filter (fun kv => ~ under (Path.normpath (tempdir self)) kv.1) (w_fs w)))
  else Raise OSError w.

(** *** The envelope checks of the source *)

(** [ZipStripper.__is_zipfile_clean]. *)
Definition is_zipfile_clean (fileinfo : ZipInfo) : bool :=
  if negb (bool_decide (zi_comment fileinfo = "")) then false
  else if negb (bool_decide (zi_date_time fileinfo = ZIP_EPOCH)) then false
  else if negb (bool_decide (zi_create_system fileinfo = 3)) then false
  else true.

(** [TarStripper.is_file_clean]. *)
Definition is_file_clean (current_file : TarInfo) : bool :=
  if negb (bool_decide (ti_mtime current_file = 0)) then false
  else if negb (bool_decide (ti_uid current_file = 0)) then false
  else if negb (bool_decide (ti_gid current_file = 0)) then false
  else if negb (bool_decide (ti_uname current_file = "")) then false
  else if negb (bool_decide (ti_gname current_file = "")) then false
  else true.

(** *** The terminal ZIP of the specification

    The specification lets a terminal ZIP treat an entry whose stripper
    is itself a container stripper as if no stripper matched. This is that
    reading, to be compared with the engine above: the factory seen
    through the terminal rule. *)
Definition spec_terminal_factory
    (create_class_file : string -> bool -> bool -> content -> option child)
    (name : string) (bak a2a : bool) (d : content) : option child :=
  match create_class_file name bak a2a d with
  | Some c => if is_GenericArchiveStripper (c_class c) then None else Some c
  | None => None
  end.

Definition spec_TerminalZipStripper_remove_all
    (create_class_file : string -> bool -> bool -> content -> option child)
    := ZipStripper_remove_all (spec_terminal_factory create_class_file).

(** *** What a file holds, and what an archive file holds *)

Definition data_at (w : world) (p : string) : option content :=
  match OS.node_at w p with
  | Some i => match i_body i with Reg d => Some d | _ => None end
  | None => None
  end.

Definition mode_at (w : world) (p : string) : option Z :=
  st_mode <$> OS.node_at w p.

Definition zip_entries_at (w : world) (p : string) : option (list (ZipInfo * content)) :=
  match data_at w p with
  | Some (ZipData _ l) => Some l
  | _ => None
  end.

Definition tar_members_at (w : world) (p : string) : option (list (TarInfo * content)) :=
  match data_at w p with
  | Some (TarData _ l) => Some l
  | _ => None
  end.

(** *** Normal envelopes *)

Definition zip_envelope_normal (zinfo : ZipInfo) : Prop :=
  zi_date_time zinfo = ZIP_EPOCH /\ zi_create_system zinfo = 3 /\
  zi_comment zinfo = "" /\ zi_compress_type zinfo = ZIP_DEFLATED.

Definition tar_envelope_normal (tinfo : TarInfo) : Prop :=
  ti_mtime tinfo = 0 /\ ti_uid tinfo = 0 /\ ti_gid tinfo = 0 /\
  ti_uname tinfo = "" /\ ti_gname tinfo = "".

(** A name that matches a blacklist of [ZipStripper.remove_all]. *)
Definition blacklisted (beginning_blacklist ending_blacklist : list string) (name : string) : Prop :=
  (exists f, f ∈ beginning_blacklist /\ Path.startswith name f = true) \/
  (exists f, f ∈ ending_blacklist /\ Path.endswith name f = true).

(** *** Worlds of a turn that runs a child *)

Definition fs_set (w : world) (p : string) (j : inode) : world :=
  with_fs w (<[Path.normpath p := j]> (w_fs w)).

Definition with_mode (i : inode) (mode : Z) : inode :=
  {| i_body := i_body i; st_mode := mode; st_uid := st_uid i; st_gid := st_gid i;
     st_mtime := st_mtime i |}.

(** The worlds of a turn that hands the file at [p], found as [i], to a
    child: with the owner-write bit set; after a child that published [d'];
    and with the mode set back, after a child that published ([Some d']) or
    gave up ([None]). *)
Definition elevated (w : world) (p : string) (i : inode) : world :=
  fs_set w p (with_mode i (Z.lor (st_mode i) OS.S_IWUSR)).

Definition published (w : world) (p : string) (i : inode) (d' : content) : world :=
  fs_set (elevated w p i) p (OS.new_inode (elevated w p i) (Reg d') 384).

Definition restored (w : world) (p : string) (i : inode) (r : option content) : world :=
  match r with
  | Some d' =>
      fs_set (published w p i d') p
        (with_mode (OS.new_inode (elevated w p i) (Reg d') 384) (st_mode i))
  | None =>
      fs_set (elevated w p i) p
        (with_mode (with_mode i (Z.lor (st_mode i) OS.S_IWUSR)) (st_mode i))
  end.

(** A computation that leaves the log as it is, however it ends. *)
Definition keeps_log {A} (m : M A) : Prop :=
  forall w, w_log (world_of (m w)) = w_log w.

(** *** Entries read back where they were extracted *)

(** The path the ZIP loop reads an entry back from names the file
    [ZipFile.extract] wrote for it. *)
Definition zip_reads_back (dir name : string) : Prop :=
  Path.normpath (Path.join dir name) = Path.normpath (Zipfile.targetpath dir name) /\
  Path.endswith (Path.join dir name) "/" = false /\
  Path.join dir name <> "".

(** The path of a member in the TAR loop is the one [TarFile.extract]
    wrote to, and is not the archive being written. *)
Definition tar_reads_back (dir name out : string) : Prop :=
  Path.rstrip_sep (Path.join dir name) = Path.join dir name /\
  Path.normpath (Path.join dir name) <> Path.normpath out.

(** ** Inspection: [is_clean], [list_unsupported], [get_meta] *)

(** A function body that may [return] from inside a loop: a turn of the
    loop either goes on with the loop state or returns a result. *)
Inductive flow (S R : Type) :=
| Next (s : S)
| Return (r : R).
Arguments Next {S R} s.
Arguments Return {S R} r.

Fixpoint for_each_return {A S R : Type} (body : S -> A -> M (flow S R)) (l : list A) (s : S)
    : M (flow S R) :=
  match l with
  | [] => ret (Next s)
  | x :: l' =>
      let* f := body s x in
      match f with
      | Next s' => for_each_return body l' s'
      | Return r => ret (Return r)
      end
  end.

(** What [is_clean(list_unsupported)] of an archive stripper returns: a
    boolean, or the list of names when [list_unsupported] is set. *)
Inductive verdict :=
| Clean (b : bool)
| Unsupported (names : list string).

(** The values the metadata reports hold, and a report: a [dict] with
    string keys. *)
Inductive pyval :=
| PyStr (s : string)
| PyInt (n : Z)
| PyTuple (l : list Z).

Definition date_tuple (t : Z * Z * Z * Z * Z * Z) : pyval :=
  let '(y, mo, d, h, mi, s) := t in PyTuple [y; mo; d; h; mi; s].

(** What a method of a child stripper gives: a value, or an exception. *)
Inductive reply (A : Type) :=
| Replies (a : A)
| Throws (e : exn).
Arguments Replies {A} a.
Arguments Throws {A} e.

(** [ZipStripper.__get_zipinfo_meta]. *)
Definition get_zipinfo_meta (zipinfo : ZipInfo) : gmap string pyval :=
  let metadata : gmap string pyval := ∅ in
  let metadata :=
    if negb (bool_decide (zi_comment zipinfo = ""))
    then <["comment" := PyStr (zi_comment zipinfo)]> metadata else metadata in
  let metadata :=
    if negb (bool_decide (zi_date_time zipinfo = ZIP_EPOCH))
    then <["modified" := date_tuple (zi_date_time zipinfo)]> metadata else metadata in
  if negb (bool_decide (zi_create_system zipinfo = 3))
  then <["system" := PyStr (if bool_decide (zi_create_system zipinfo = 2)
                            then "windows" else "unknown")]> metadata
  else metadata.

(** The fields [TarStripper.get_meta] reports of a member. *)
Definition tarinfo_meta (item : TarInfo) (current_meta : gmap string pyval)
    : gmap string pyval :=
  <["gname" := PyStr (ti_gname item)]>
    (<["uname" := PyStr (ti_uname item)]>
       (<["gid" := PyInt (ti_gid item)]>
          (<["uid" := PyInt (ti_uid item)]>
             (<["mtime" := PyInt (ti_mtime item)]> current_meta)))).

(** [GenericParser.__del__]: the temporary file is removed if it is
    still there. *)
Definition GenericParser_del (self : stripper) : M unit :=
  let* ex := OS.path_exists (output self) in
  if ex then secure_remove (output self) else ret tt.

Section Inspection.

(** Modelled from the spec: the factory, as for the engines. *)
Variable create_class_file : string -> bool -> bool -> content -> option child.

(** Modelled from the spec: [is_clean()] and [get_meta()] of a child
    stripper are not in the sources. They read the file of the child and
    leave it as it is: each is given by what it makes of the bytes of the
    file, a value or an exception. The temporary file and the scratch
    directory that a child stripper makes for itself are left out. *)
Variable cfile_is_clean : child -> content -> reply bool.
Variable cfile_get_meta : child -> content -> reply (gmap string pyval).

(** [str(d)] of a [dict]; the order of its items is that of the hash
    table and is left open. *)
Variable py_str : gmap string pyval -> string.

(** Whether [s.decode('utf8')] succeeds. *)
Variable utf8_decodes : string -> bool.

Definition child_is_clean (c : child) (name : string) : M bool := fun w =>
  match OS.node_at w name with
  | Some i =>
      match i_body i with
      | Reg d =>
          match cfile_is_clean c d with
          | Replies b => Ok b w
          | Throws e => Raise e w
          end
      | _ => Raise IOError w
      end
  | None => Raise IOError w
  end.

Definition child_get_meta (c : child) (name : string) : M (gmap string pyval) := fun w =>
  match OS.node_at w name with
  | Some i =>
      match i_body i with
      | Reg d =>
          match cfile_get_meta c d with
          | Replies m => Ok m w
          | Throws e => Raise e w
          end
      | _ => Raise IOError w
      end
  | None => Raise IOError w
  end.

(** *** [libmat/archive.py]: [ZipStripper.is_clean] *)

(** One turn of the loop of [ZipStripper.is_clean]; [ret_list] is the
    list of unsupported names so far. *)
Definition zip_is_clean_item (self : stripper) (list_unsupported : bool)
    (ret_list : list string) (item : ZipInfo * content) : M (flow (list string) verdict) :=
  Zipfile.extract item (tempdir self) >>
  let path := Path.join (tempdir self) (zi_filename item.1) in
  if negb (is_zipfile_clean item.1) && negb list_unsupported then
    logging DEBUG (zi_filename item.1 +:+ " from " +:+ filename self
                   +:+ " has compromising zipinfo") >>
    ret (Return (Clean false))
  else
    let* isf := OS.path_isfile path in
    if isf then
      let* cfile := create_class_file_at create_class_file path false (add2archive self) in
      match cfile with
      | Some c =>
          let* clean := child_is_clean c path in
          if negb clean then
            logging DEBUG (zi_filename item.1 +:+ " from " +:+ filename self
                           +:+ " has metadata") >>
            if negb list_unsupported then ret (Return (Clean false))
            else ret (Next ret_list)
          else ret (Next ret_list)
      | None =>
          logging INFO (zi_filename item.1 +:+ "'s fileformat is not supported or harmless.") >>
          let ext := (Path.splitext path).2 in
          if negb (bool_decide (Path.basename (zi_filename item.1) ∈ ["mimetype"; ".rels"])) then
            if negb (bool_decide (ext ∈ NOMETA)) then
              if negb list_unsupported then ret (Return (Clean false))
              else ret (Next (ret_list ++ [zi_filename item.1]))
            else ret (Next ret_list)
          else ret (Next ret_list)
      end
    else ret (Next ret_list).

(** [ZipStripper.is_clean(list_unsupported)]. *)
Definition ZipStripper_is_clean (self : stripper) (list_unsupported : bool) : M verdict :=
  let* zipin := Zipfile.open_rc (filename self) in
  if negb (bool_decide (zipin.1 = "")) && negb list_unsupported then
    logging DEBUG (filename self +:+ " has a comment") >>
    ret (Clean false)
  else
    let* f := for_each_return (zip_is_clean_item self list_unsupported) zipin.2 [] in
    match f with
    | Return r => ret r
    | Next ret_list =>
        if list_unsupported then ret (Unsupported ret_list) else ret (Clean true)
    end.

(** [GenericArchiveStripper.list_unsupported], at a [ZipStripper]. *)
Definition ZipStripper_list_unsupported (self : stripper) : M verdict :=
  ZipStripper_is_clean self true.

(** *** [ZipStripper.get_meta] *)

Definition zip_get_meta_item (self : stripper) (metadata : gmap string string)
    (item : ZipInfo * content) : M (gmap string string) :=
  let zipinfo_meta := get_zipinfo_meta item.1 in
  let metadata :=
    if negb (bool_decide (zipinfo_meta = ∅))
    then <[zi_filename item.1 +:+ "'s zipinfo" := py_str zipinfo_meta]> metadata
    else metadata in
  Zipfile.extract item (tempdir self) >>
  let path := Path.join (tempdir self) (zi_filename item.1) in
  let* isf := OS.path_isfile path in
  if isf then
    let* cfile := create_class_file_at create_class_file path false (add2archive self) in
    match cfile with
    | Some c =>
        let* cfile_meta := child_get_meta c path in
        if negb (bool_decide (cfile_meta = ∅))
        then ret (<[zi_filename item.1 := py_str cfile_meta]> metadata)
        else ret metadata
    | None =>
        logging INFO (zi_filename item.1 +:+ "'s fileformat is not supported or harmless") >>
        ret metadata
    end
  else ret metadata.

Definition ZipStripper_get_meta (self : stripper) : M (gmap string string) :=
  let* zipin := Zipfile.open_rc (filename self) in
  let metadata : gmap string string := ∅ in
  let metadata :=
    if negb (bool_decide (zipin.1 = "")) then <["comment" := zipin.1]> metadata
    else metadata in
  for_each (zip_get_meta_item self) zipin.2 metadata.

(** *** [TarStripper.is_clean] *)

Definition tar_is_clean_item (self : stripper) (list_unsupported : bool)
    (ret_list : list string) (item : TarInfo * content) : M (flow (list string) verdict) :=
  if negb (is_file_clean item.1) && negb list_unsupported then
    logging DEBUG (ti_name item.1 +:+ " from " +:+ filename self
                   +:+ " has compromising tarinfo") >>
    ret (Return (Clean false))
  else
    Tarfile.extract item (tempdir self) >>
    let path := Path.join (tempdir self) (ti_name item.1) in
    if ti_isfile item.1 then
      let* cfile := create_class_file_at create_class_file path false (add2archive self) in
      match cfile with
      | Some c =>
          let* clean := child_is_clean c path in
          if negb clean then
            (if utf8_decodes (ti_name item.1)
             then logging DEBUG (ti_name item.1 +:+ " from " +:+ filename self
                                 +:+ " has metadata")
             else raise UnicodeDecodeError) >>
            if negb list_unsupported then ret (Return (Clean false))
            else if is_GenericArchiveStripper (c_class c)
                 then ret (Next (ret_list ++ [ti_name item.1]))
                 else ret (Next ret_list)
          else ret (Next ret_list)
      | None =>
          logging INFO (ti_name item.1 +:+ "'s format is not supported or harmless") >>
          if negb (bool_decide ((Path.splitext path).2 ∈ NOMETA)) then
            if negb list_unsupported then ret (Return (Clean false))
            else ret (Next (ret_list ++ [ti_name item.1]))
          else ret (Next ret_list)
      end
    else ret (Next ret_list).

(** [TarStripper.is_clean(list_unsupported)]. *)
Definition TarStripper_is_clean (self : stripper) (list_unsupported : bool) : M verdict :=
  let* members := Tarfile.open_r (filename self) ("r" +:+ compression self) in
  let* f := for_each_return (tar_is_clean_item self list_unsupported) members [] in
  match f with
  | Return r => ret r
  | Next ret_list =>
      if list_unsupported then ret (Unsupported ret_list) else ret (Clean true)
  end.

(** [GenericArchiveStripper.list_unsupported], at a [TarStripper]. *)
Definition TarStripper_list_unsupported (self : stripper) : M verdict :=
  TarStripper_is_clean self true.

(** *** [TarStripper.get_meta] *)

Definition tar_get_meta_item (self : stripper) (metadata : gmap string string)
    (item : TarInfo * content) : M (gmap string string) :=
  let current_meta : gmap string pyval := ∅ in
  if ti_isfile item.1 then
    Tarfile.extract item (tempdir self) >>
    let path := Path.join (tempdir self) (ti_name item.1) in
    let* class_file := create_class_file_at create_class_file path false (add2archive self) in
    let* current_meta :=
      match class_file with
      | Some c =>
          let* meta := child_get_meta c path in
          if negb (bool_decide (meta = ∅))
          then ret (<["file" := PyStr (py_str meta)]> current_meta)
          else ret current_meta
      | None =>
          logging INFO (ti_name item.1 +:+ "'s format is not supported or harmless") >>
          ret current_meta
      end in
    if negb (is_file_clean item.1)
    then ret (<[ti_name item.1 := py_str (tarinfo_meta item.1 current_meta)]> metadata)
    else ret metadata
  else ret metadata.

Definition TarStripper_get_meta (self : stripper) : M (gmap string string) :=
  let* members := Tarfile.open_r (filename self) ("r" +:+ compression self) in
  for_each (tar_get_meta_item self) members ∅.

(** *** [libmat/office.py]: the checks of the two terminal ZIP formats *)

(** [OpenDocumentStripper.is_clean]. *)
Definition OpenDocumentStripper_is_clean (self : stripper) : M bool :=
  let* clean_super := ZipStripper_is_clean self false in
  match clean_super with
  | Clean false => ret false
  | _ =>
      let* zipin := Zipfile.open_r (filename self) in
      match Zipfile.getinfo zipin "meta.xml" with
      | None => ret true
      | Some _ => ret false
      end
  end.

(** [OpenXmlStripper.is_clean]. *)
Definition OpenXmlStripper_is_clean (self : stripper) : M bool :=
  let* clean_super := ZipStripper_is_clean self false in
  match clean_super with
  | Clean false => ret false
  | _ =>
      let* zipin := Zipfile.open_r (filename self) in
      if existsb (fun item => Path.startswith item "docProps/") (Zipfile.namelist zipin)
      then ret false else ret true
  end.

(** [OpenXmlStripper.get_meta]. *)
Definition OpenXmlStripper_get_meta (self : stripper) : M (gmap string string) :=
  let* metadata := ZipStripper_get_meta self in
  let* zipin := Zipfile.open_r (filename self) in
  ret (fold_left
         (fun metadata item =>
            if Path.startswith item "docProps/"
            then <[item := "harmful content"]> metadata else metadata)
         (Zipfile.namelist zipin) metadata).

End Inspection.

(** *** Plain names and paths *)

(** A string without a slash. *)
Fixpoint sepfree (s : string) : bool :=
  match s with
  | EmptyString => true
  | String a s' => negb (Ascii.eqb a Path.SEP) && sepfree s'
  end.

(** A plain component of a path: not empty, not [.] or [..], without a
    slash. *)
Definition plain (c : string) : Prop :=
  c <> "" /\ c <> "." /\ c <> ".." /\ sepfree c = true.

#[global] Instance plain_dec c : Decision (plain c).
Proof. unfold plain. apply _. Defined.

(** The absolute path of the components [cs], and the components that
    [ZipFile.extract] keeps of a member name. *)
Definition abs_path (cs : list string) : string := "/" +:+ Path.join_sep cs.

Definition arc_comps (filename : string) : list string :=
  filter (fun x => x <> "" /\ x <> "." /\ x <> "..") (Path.split filename).

(** *** What stays within a directory *)

(** From [w] to [w'] nothing changed outside the directory at the key
    [dir], and no directory was removed or replaced. *)
Definition fs_confined (dir : string) (w w' : world) : Prop :=
  (forall k, ~ under dir k -> w_fs w' !! k = w_fs w !! k) /\
  (forall k i, w_fs w !! k = Some i -> i_body i = Directory -> w_fs w' !! k = Some i).

(** A scratch directory that is there, in a directory that is there. *)
Definition scratch_ready (w : world) (dir : string) : Prop :=
  OS.isdir w dir = true /\ OS.isdir w (Path.dirname dir) = true.

(** A computation that, however it ends, has changed nothing outside of
    a scratch directory that was ready for it. *)
Definition confined {A : Type} (dir : string) (m : M A) : Prop :=
  forall w, scratch_ready w dir -> fs_confined dir w (world_of (m w)).


(** What a computation never removes: every key of the file system is
    still a key afterwards. *)
Definition fs_keeps (w w' : world) : Prop :=
  forall k, is_Some (w_fs w !! k) -> is_Some (w_fs w' !! k).

Definition keeping {A : Type} (m : M A) : Prop :=
  forall w, fs_keeps w (world_of (m w)).

(** *** Ordinary entries *)

(** The name of an ordinary entry: a relative path of plain components,
    or a name that ends with a slash, as that of a directory entry. *)
Definition ordinary_name (name : string) : Prop :=
  Path.endswith name "/" = true \/
  exists cs, cs <> [] /\ Forall plain cs /\ name = Path.join_sep cs.

Section Outcomes.

Variable create_class_file : string -> bool -> bool -> content -> option child.

(** What the ZIP rebuild makes of an ordinary entry, read off the turn
    of the loop: nothing of a directory entry or of an entry that a
    blacklist matches; of an entry with a stripper, the entry with the bytes
    the stripper leaves; of an entry without one, the entry as it is where
    the whitelist, [add2archive] or [NOMETA] keep it. (A stripper that
    raises ends the rebuild.) *)
Definition zip_entry_rebuilt (self : stripper) (whitelist beginning_blacklist
    ending_blacklist : list string) (item : ZipInfo * content) : list (ZipInfo * content) :=
  let name := zi_filename item.1 in
  let path := Path.join (tempdir self) name in
  if Path.endswith name "/"
     || existsb (fun f => Path.startswith name f) beginning_blacklist
     || existsb (fun f => Path.endswith name f) ending_blacklist
  then []
  else
    match create_class_file path false (add2archive self) item.2 with
    | Some c =>
        match c_run c item.2 with
        | Sanitized d' => [(clean_zinfo name, d')]
        | _ => [(clean_zinfo name, item.2)]
        end
    | None =>
        if bool_decide (name ∈ whitelist) || add2archive self
           || bool_decide ((Path.splitext path).2 ∈ NOMETA)
        then [(clean_zinfo name, item.2)] else []
    end.


End Outcomes.

(** ** Concrete machines, archives and strippers *)

Module Demo.

Definition dir_inode (mode : Z) : inode :=
  {| i_body := Directory; st_mode := mode; st_uid := 0; st_gid := 0; st_mtime := 0 |}.

Definition file_inode (d : content) (mode : Z) : inode :=
  {| i_body := Reg d; st_mode := mode; st_uid := 1000; st_gid := 1000;
     st_mtime := 1717243200 |}.

(** A machine with [/tmp], [/etc/hostname] and one file of user 1000. *)
Definition machine (file : string) (d : content) : world :=
  {| w_fs := list_to_map
               [("/tmp", dir_inode 1023); ("/etc", dir_inode 493);
                ("/etc/hostname", file_inode (Raw "alice-laptop") 420);
                ("/home", dir_inode 493); ("/home/alice", dir_inode 493);
                (file, file_inode d 420)];
     w_log := []; w_umask := 18; w_euid := 1000; w_egid := 1000;
     w_clock := 1720000000;
     w_passwd := {[ 1000 := "alice" ]}; w_group := {[ 1000 := "users" ]} |}.

(** Envelopes as an archiver on another system leaves them. *)
Definition dirty_zinfo (name : string) : ZipInfo :=
  {| zi_filename := name; zi_date_time := (2024, 6, 1, 12, 30, 0);
     zi_compress_type := ZIP_STORED; zi_create_system := 0; zi_comment := "x" |}.

Definition dirty_tinfo (name : string) (t : tartype) (mode : Z) : TarInfo :=
  {| ti_name := name; ti_mode := mode; ti_uid := 1000; ti_gid := 1000;
     ti_mtime := 1717243200; ti_type := t; ti_uname := "alice"; ti_gname := "users" |}.

(** A leaf stripper for JPEG: it drops a leading EXIF block. *)
Definition jpeg_run (d : content) : outcome :=
  match d with
  | Raw s => if Path.startswith s "EXIF" then Sanitized (Raw (Path.drop_str 4 s))
             else Sanitized d
  | _ => Crashed (StripperError "not an image")
  end.

(** The PDF stripper where its libraries are missing: it returns false. *)
Definition pdf_run (d : content) : outcome := Refused.

(** A factory that knows the leaf formats only, by extension. *)
Definition leaf_factory (name : string) (bak a2a : bool) (d : content) : option child :=
  let ext := (Path.splitext name).2 in
  if bool_decide (ext = ".jpg") then Some {| c_class := LeafStripper "image/jpeg"; c_run := jpeg_run |}
  else if bool_decide (ext = ".pdf") then Some {| c_class := PdfStripper; c_run := pdf_run |}
  else None.

(** What an archive stripper makes of the bytes of a file: its
    [remove_all], run on a machine that holds this file alone. *)
Definition in_isolation (remove_all : stripper -> M bool) (a2a : bool) (d : content) : outcome :=
  match (let* self := GenericArchiveStripper_init "/home/alice/in" false a2a
                        "/tmp/tmpchild" "/tmp/tmpchilddir" in
         remove_all self) (machine "/home/alice/in" d) with
  | Ok true w => match data_at w "/home/alice/in" with
                 | Some d' => Sanitized d'
                 | None => Crashed IOError
                 end
  | Ok false _ => Refused
  | Raise e _ => Crashed e
  end.

(** The factory with nested ZIP archives one level deep. *)
Definition factory (name : string) (bak a2a : bool) (d : content) : option child :=
  let ext := (Path.splitext name).2 in
  if bool_decide (ext = ".zip")
  then Some {| c_class := ZipStripper;
               c_run := in_isolation
                          (fun self => ZipStripper_remove_all leaf_factory self None None None)
                          a2a |}
  else leaf_factory name bak a2a d.

Definition utf8_ascii (s : string) : bool := true.

(** A ZIP archive with a text, a photo, a directory and a blob. *)
Definition album : content :=
  ZipData "holidays"
    [(dirty_zinfo "readme.txt", Raw "hello");
     (dirty_zinfo "photos/", Raw "");
     (dirty_zinfo "photos/beach.jpg", Raw "EXIFpixels");
     (dirty_zinfo "blob.bin", Raw "0101")].

(** A TAR archive with a text, a directory, a fifo and a read-only photo. *)
Definition backup_tar : content :=
  TarData TarPlain
    [(dirty_tinfo "notes.txt" REGTYPE 420, Raw "hello");
     (dirty_tinfo "docs" DIRTYPE 493, Raw "");
     (dirty_tinfo "pipe" FIFOTYPE 420, Raw "");
     (dirty_tinfo "beach.jpg" REGTYPE 292, Raw "EXIFpixels")].

(** A TAR archive with a read-only file that is named as a ZIP archive
    and is none. *)
Definition broken_nest : content :=
  TarData TarPlain [(dirty_tinfo "inner.zip" REGTYPE 292, Raw "garbage")].

(** An Office OpenXML document with an embedded ZIP archive. *)
Definition docx_embedded : content :=
  ZipData ""
    [(dirty_zinfo "word/document.xml", Raw "<w:document/>");
     (dirty_zinfo "word/embeddings/data.zip",
        ZipData "inner" [(dirty_zinfo "sheet.txt", Raw "1;2;3")])].

(** An Office OpenXML document with a member name that is not a clean
    relative path. *)
Definition docx_dotdot : content :=
  ZipData ""
    [(dirty_zinfo "docProps/core.xml", Raw "<creator>alice</creator>");
     (dirty_zinfo "x/../docProps/core.xml", Raw "<nothing/>")].

(** One run of the tool on [file]: make the stripper, clean, let the
    stripper go. *)
Definition session (init : string -> bool -> bool -> string -> string -> M stripper)
    (remove_all : stripper -> M bool) (file : string) (bak a2a : bool)
    (tmpfile tmpdir : string) : M bool :=
  let* self := init file bak a2a tmpfile tmpdir in
  let* r := remove_all self in
  GenericArchiveStripper_del self >>
  ret r.

Definition zip_session := session GenericArchiveStripper_init
  (fun self => ZipStripper_remove_all factory self None None None).
Definition docx_session := session GenericArchiveStripper_init
  (OpenXmlStripper_remove_all factory).
Definition tar_session := session GenericArchiveStripper_init
  (fun self => TarStripper_remove_all factory utf8_ascii self None).

(** A stripper made by hand on a machine that already holds its
    temporary file and scratch directory. *)
Definition self_of (file : string) (bak a2a : bool) : stripper :=
  {| filename := file; backup := bak; output := "/tmp/tmpout"; compression := "";
     add2archive := a2a; tempdir := "/tmp/tmpdir" |}.

Definition prepared (file : string) (d : content) : world :=
  world_of (GenericArchiveStripper_init file false false "/tmp/tmpout" "/tmp/tmpdir"
              (machine file d)).

(** The child the factory makes for a nested ZIP archive. *)
Definition zip_child (a2a : bool) : child :=
  {| c_class := ZipStripper;
     c_run := in_isolation
                (fun self => ZipStripper_remove_all leaf_factory self None None None) a2a |}.

Definition jpeg_child : child :=
  {| c_class := LeafStripper "image/jpeg"; c_run := jpeg_run |}.

(** A ZIP archive with a member named by an absolute path. *)
Definition zip_absolute : content :=
  ZipData "" [(dirty_zinfo "/etc/hostname", Raw "nothing to see")].

(** The same sessions with the terminal ZIP of the specification. *)
Definition spec_docx_session := session GenericArchiveStripper_init
  (fun self => spec_TerminalZipStripper_remove_all factory self
                 (Some [".rels"]) (Some ["docProps/"]) None).

(** The files the examples clean, with a stripper and a machine ready
    for each. *)
Definition album_file : string := "/home/alice/album.zip".
Definition album_self : stripper := self_of album_file false false.
Definition album_world : world := prepared album_file album.

Definition tar_file : string := "/home/alice/backup.tar".
Definition tar_self : stripper := self_of tar_file false false.
Definition tar_world : world := prepared tar_file backup_tar.
Definition nest_world : world := prepared tar_file broken_nest.

Definition docx_file : string := "/home/alice/report.docx".
Definition docx_self : stripper := self_of docx_file false false.
Definition docx_world : world := prepared docx_file docx_embedded.

Definition corrupt_world : world := prepared album_file (Raw "not an archive").

(** A TAR archive of a directory and a fifo, nothing else. *)
Definition dirs_tar : content :=
  TarData TarPlain [(dirty_tinfo "docs" DIRTYPE 493, Raw "");
                    (dirty_tinfo "pipe" FIFOTYPE 420, Raw "")].
Definition dirs_world : world := prepared tar_file dirs_tar.

(** The entries the examples look at. *)
Definition readme_item : ZipInfo * content := (dirty_zinfo "readme.txt", Raw "hello").
Definition photos_item : ZipInfo * content := (dirty_zinfo "photos/", Raw "").
Definition beach_item : ZipInfo * content := (dirty_zinfo "photos/beach.jpg", Raw "EXIFpixels").
Definition embedded_item : ZipInfo * content :=
  (dirty_zinfo "word/embeddings/data.zip",
     ZipData "inner" [(dirty_zinfo "sheet.txt", Raw "1;2;3")]).
Definition docs_member : TarInfo * content := (dirty_tinfo "docs" DIRTYPE 493, Raw "").
Definition pipe_member : TarInfo * content := (dirty_tinfo "pipe" FIFOTYPE 420, Raw "").
Definition beach_member : TarInfo * content :=
  (dirty_tinfo "beach.jpg" REGTYPE 292, Raw "EXIFpixels").

(** The inode found at a path, for the examples where one is there. *)
Definition inode_at (w : world) (p : string) : inode :=
  default OS.root_inode (OS.node_at w p).

(** The names in the archive a file holds. *)
Definition zip_names (w : world) (file : string) : option (list string) :=
  (fun l : list (ZipInfo * content) => (fun e => zi_filename e.1) <$> l)
    <$> zip_entries_at w file.
Definition tar_names (w : world) (file : string) : option (list string) :=
  (fun l : list (TarInfo * content) => (fun m => ti_name m.1) <$> l)
    <$> tar_members_at w file.

(** *** Inspection on the concrete machines *)

(** The leaf strippers' checks: a photo is dirty while it has its EXIF
    block. *)
Definition leaf_is_clean (c : child) (d : content) : reply bool :=
  match c_class c, d with
  | LeafStripper _, Raw s => Replies (negb (Path.startswith s "EXIF"))
  | _, _ => Throws (StripperError "cannot read")
  end.

Definition leaf_get_meta (c : child) (d : content) : reply (gmap string pyval) :=
  match c_class c, d with
  | LeafStripper _, Raw s =>
      Replies (if Path.startswith s "EXIF" then {[ "exif" := PyStr "camera" ]} else ∅)
  | _, _ => Throws (StripperError "cannot read")
  end.

(** A rendering of a report: its keys. *)
Definition str_keys (m : gmap string pyval) : string :=
  "{" +:+ String.concat ", " (map_to_list m).*1 +:+ "}".

(** The checks of a nested ZIP archive, run on a machine that holds the
    archive alone. *)
Definition is_clean_of (c : child) (d : content) : reply bool :=
  match c_class c with
  | ZipStripper =>
      match (let* self := GenericArchiveStripper_init "/home/alice/in" false false
                            "/tmp/tmpchild" "/tmp/tmpchilddir" in
             ZipStripper_is_clean leaf_factory leaf_is_clean self false)
              (machine "/home/alice/in" d) with
      | Ok (Clean b) _ => Replies b
      | Ok (Unsupported _) _ => Replies false
      | Raise e _ => Throws e
      end
  | _ => leaf_is_clean c d
  end.

Definition get_meta_of (c : child) (d : content) : reply (gmap string pyval) :=
  match c_class c with
  | ZipStripper =>
      match (let* self := GenericArchiveStripper_init "/home/alice/in" false false
                            "/tmp/tmpchild" "/tmp/tmpchilddir" in
             ZipStripper_get_meta leaf_factory leaf_get_meta str_keys self)
              (machine "/home/alice/in" d) with
      | Ok m _ => Replies (PyStr <$> m)
      | Raise e _ => Throws e
      end
  | _ => leaf_get_meta c d
  end.

(** The album as [remove_all] leaves it, and a clean TAR archive. *)
Definition clean_album : content :=
  ZipData ""
    [(clean_zinfo "readme.txt", Raw "hello");
     (clean_zinfo "photos/beach.jpg", Raw "pixels")].

Definition clean_tar : content :=
  TarData TarPlain
    [(_remove_tar_added (dirty_tinfo "notes.txt" REGTYPE 420), Raw "hello");
     (_remove_tar_added (dirty_tinfo "beach.jpg" REGTYPE 292), Raw "pixels")].

(** An OpenDocument text with its [meta.xml], and an Office OpenXML
    document with its [docProps]. *)
Definition odt : content :=
  ZipData ""
    [(dirty_zinfo "mimetype", Raw "application/vnd.oasis.opendocument.text");
     (dirty_zinfo "content.xml", Raw "<office:document-content/>");
     (dirty_zinfo "meta.xml", Raw "<meta:initial-creator>alice</meta:initial-creator>")].

Definition docx : content :=
  ZipData ""
    [(dirty_zinfo "[Content_Types].xml", Raw "<Types/>");
     (dirty_zinfo "_rels/.rels", Raw "<Relationships/>");
     (dirty_zinfo "docProps/core.xml", Raw "<dc:creator>alice</dc:creator>");
     (dirty_zinfo "word/document.xml", Raw "<w:document/>");
     (dirty_zinfo "word/_rels/document.xml.rels", Raw "<Relationships/>")].

Definition odt_file : string := "/home/alice/letter.odt".
Definition odt_self : stripper := self_of odt_file false false.
Definition odt_world : world := prepared odt_file odt.

(** The machines that hold them, and the result of a computation that
    returns. *)
Definition clean_album_world : world := prepared album_file clean_album.
Definition clean_tar_world : world := prepared tar_file clean_tar.
Definition docx_plain_world : world := prepared docx_file docx.

Definition returned {A : Type} (d : A) (r : result A) : A :=
  match r with Ok a _ => a | Raise _ _ => d end.
Definition returns {A : Type} (r : result A) : bool :=
  match r with Ok _ _ => true | Raise _ _ => false end.

(** A TAR archive with a member named above the directory it is
    extracted to, and a blob; the envelopes are clean. *)
Definition climbing_tar : content :=
  TarData TarPlain
    [(_remove_tar_added (dirty_tinfo "../planted.txt" REGTYPE 420), Raw "planted");
     (_remove_tar_added (dirty_tinfo "blob.bin" REGTYPE 420), Raw "0101")].
Definition climbing_world : world := prepared tar_file climbing_tar.
Definition planted_member : TarInfo * content :=
  (_remove_tar_added (dirty_tinfo "../planted.txt" REGTYPE 420), Raw "planted").
Definition blob_member : TarInfo * content :=
  (_remove_tar_added (dirty_tinfo "blob.bin" REGTYPE 420), Raw "0101").
Definition mimetype_item : ZipInfo * content :=
  (dirty_zinfo "mimetype", Raw "application/vnd.oasis.opendocument.text").



End Demo.


(** * Properties *)

(** ** The path functions on sample paths *)

Example splitext_ex1 : Path.splitext "/tmp/d/word/document.xml" = ("/tmp/d/word/document", ".xml").
Proof. reflexivity. Qed.
Example splitext_ex2 : Path.splitext "/tmp/d/_rels/.rels" = ("/tmp/d/_rels/.rels", "").
Proof. reflexivity. Qed.
Example splitext_ex3 : Path.splitext "/tmp/d.x/mimetype" = ("/tmp/d.x/mimetype", "").
Proof. reflexivity. Qed.
Example join_ex1 : Path.join "/tmp/d" "a/b.txt" = "/tmp/d/a/b.txt".
Proof. reflexivity. Qed.
Example join_ex2 : Path.join "/tmp/d" "/etc/hostname" = "/etc/hostname".
Proof. reflexivity. Qed.
Example normpath_ex1 : Path.normpath "/tmp/d/../x//y/./z/" = "/tmp/x/y/z".
Proof. reflexivity. Qed.
Example normpath_ex2 : Path.normpath "../a/../../b" = "../../b".
Proof. reflexivity. Qed.
Example dirname_ex1 : Path.dirname "/tmp/d/a.txt" = "/tmp/d".
Proof. reflexivity. Qed.
Example dirname_ex2 : Path.dirname "/a.txt" = "/".
Proof. reflexivity. Qed.
Example dirname_ex3 : Path.dirname "a.txt" = "".
Proof. reflexivity. Qed.
Example endswith_ex : Path.endswith "word/meta.xml" "meta.xml" = true /\ Path.endswith "meta.xml" "word/meta.xml" = false.
Proof. split; reflexivity. Qed.

(** ** Reasoning about computations *)

Lemma bind_Ok {A B} (m : M A) (f : A -> M B) w b w' :
  bind m f w = Ok b w' <-> exists a w1, m w = Ok a w1 /\ f a w1 = Ok b w'.
Proof.
  unfold bind. split.
  - destruct (m w) as [a w1|e w1]; [eauto | discriminate].
  - intros (a & w1 & -> & H). exact H.
Qed.

Lemma bind_Ok_eq {A B} (m : M A) (f : A -> M B) w a w1 :
  m w = Ok a w1 -> bind m f w = f a w1.
Proof. unfold bind. intros ->. reflexivity. Qed.

Lemma bind_Raise_eq {A B} (m : M A) (f : A -> M B) w e w1 :
  m w = Raise e w1 -> bind m f w = Raise e w1.
Proof. unfold bind. intros ->. reflexivity. Qed.

Lemma ret_Ok {A} (a b : A) w w' : ret a w = Ok b w' <-> a = b /\ w = w'.
Proof. unfold ret. split; [intros [= -> ->]; auto | intros [-> ->]; auto]. Qed.

(** Peel a successful run into the successful runs of its steps. *)
Ltac inv_M :=
  repeat match goal with
  | H : bind _ _ _ = Ok _ _ |- _ => apply bind_Ok in H as (? & ? & ? & H)
  | H : ret _ _ = Ok _ _ |- _ => apply ret_Ok in H as [? ?]; subst
  | H : raise _ _ = Ok _ _ |- _ => discriminate H
  | H : Raise _ _ = Ok _ _ |- _ => discriminate H
  | H : OS.path_isfile _ _ = Ok _ _ |- _ => injection H as ? ?; subst
  | H : OS.path_isdir _ _ = Ok _ _ |- _ => injection H as ? ?; subst
  | H : OS.path_exists _ _ = Ok _ _ |- _ => injection H as ? ?; subst
  | H : logging _ _ _ = Ok _ _ |- _ => injection H as ? ?; subst
  | H : get_world _ = Ok _ _ |- _ => injection H as ? ?; subst
  | H : (if ?b then _ else _) _ = Ok _ _ |- _ => destruct b eqn:?
  | H : (match ?x with Some _ => _ | None => _ end) _ = Ok _ _ |- _ => destruct x eqn:?
  end.

Lemma for_each_inv {A S : Type} (P : S -> Prop) (body : S -> A -> M S) l :
  (forall s x w s' w', P s -> body s x w = Ok s' w' -> P s') ->
  forall s w s' w', P s -> for_each body l s w = Ok s' w' -> P s'.
Proof.
  intros Hb. induction l as [|x l IH]; simpl; intros s w s' w' Hs H.
  - inv_M. done.
  - inv_M. eauto.
Qed.

(** A loop over a list made of two parts runs the first part, then the
    second part from where the first ended. *)
Lemma for_each_app {A S : Type} (body : S -> A -> M S) l1 l2 s w s' w' :
  for_each body (l1 ++ l2) s w = Ok s' w' ->
  exists s1 w1, for_each body l1 s w = Ok s1 w1 /\ for_each body l2 s1 w1 = Ok s' w'.
Proof.
  revert s w. induction l1 as [|x l1 IH]; simpl; intros s w H.
  - exists s, w. done.
  - apply bind_Ok in H as (s0 & w0 & Hx & H).
    destruct (IH _ _ H) as (s1 & w1 & H1 & H2).
    exists s1, w1. split; [|done]. by rewrite (bind_Ok_eq _ _ _ _ _ Hx).
Qed.

(** A loop over a list that a turn leaves alone or extends by one
    element made of its item: the list grows by elements made of some of
    the items, in their order. *)
Lemma for_each_sublist {A B : Type} (R : A -> B -> Prop)
    (body : list B -> A -> M (list B)) l :
  (forall s x w s' w', body s x w = Ok s' w' ->
     s' = s \/ exists y, s' = s ++ [y] /\ R x y) ->
  forall s w s' w', for_each body l s w = Ok s' w' ->
    exists items more, s' = s ++ more /\ items `sublist_of` l /\ Forall2 R items more.
Proof.
  intros Hb. induction l as [|x l IH]; simpl; intros s w s' w' H.
  - apply ret_Ok in H as [<- _]. exists [], []. rewrite app_nil_r. repeat split; constructor.
  - apply bind_Ok in H as (s1 & w1 & Hx & H).
    destruct (IH _ _ _ _ H) as (items & more & -> & Hsub & HR).
    destruct (Hb _ _ _ _ _ Hx) as [->|(y & -> & Hy)].
    + exists items, more. split; [done|]. split; [by apply sublist_cons|done].
    + exists (x :: items), (y :: more). rewrite <- app_assoc. split; [done|].
      split; [by apply sublist_skip|by constructor].
Qed.

(** ** The file system *)

Lemma lookup_key_with_fs w fs k :
  OS.lookup_key (with_fs w fs) k = if OS.implicit_dir k then Some OS.root_inode else fs !! k.
Proof. reflexivity. Qed.

(** A path at which a regular file (or a special file) is found is not
    empty, has no trailing slash and is not one of the standing
    directories. *)
Lemma node_at_file w p i :
  OS.node_at w p = Some i -> i_body i <> Directory ->
  p <> "" /\ Path.endswith p "/" = false /\ OS.implicit_dir (Path.normpath p) = false /\
  w_fs w !! Path.normpath p = Some i.
Proof.
  unfold OS.node_at, OS.lookup_key.
  case_bool_decide; [discriminate|].
  destruct (OS.implicit_dir (Path.normpath p)) eqn:Hi.
  - simpl. intros [= <-] Hb. by destruct Hb.
  - destruct (w_fs w !! Path.normpath p) as [j|] eqn:Hj; [|discriminate].
    destruct (i_body j) eqn:Hbj.
    + destruct (Path.endswith p "/"); [discriminate|]. intros [= <-] _. auto.
    + intros [= <-] Hb. by destruct Hb.
    + destruct (Path.endswith p "/"); [discriminate|]. intros [= <-] _. auto.
Qed.

(** What is found after the inode of such a path was replaced. *)
Lemma node_at_insert w p j :
  p <> "" -> Path.endswith p "/" = false -> OS.implicit_dir (Path.normpath p) = false ->
  OS.node_at (with_fs w (<[Path.normpath p := j]> (w_fs w))) p = Some j.
Proof.
  intros Hp He Hi. unfold OS.node_at. rewrite lookup_key_with_fs, Hi.
  rewrite bool_decide_eq_false_2 by done.
  rewrite lookup_insert_eq, He. by destruct (i_body j).
Qed.

Lemma data_at_Some w p d :
  data_at w p = Some d <-> exists i, OS.node_at w p = Some i /\ i_body i = Reg d.
Proof.
  unfold data_at. split.
  - destruct (OS.node_at w p) as [i|]; [|discriminate].
    destruct (i_body i) eqn:Hb; try discriminate. intros [= ->]. eauto.
  - intros (i & -> & ->). reflexivity.
Qed.

Lemma isfile_data_at w p : OS.isfile w p = true <-> exists d, data_at w p = Some d.
Proof.
  unfold OS.isfile, data_at. destruct (OS.node_at w p) as [i|].
  - destruct (i_body i); split; try discriminate; eauto; intros [? [=]].
  - split; [discriminate | intros [? [=]]].
Qed.

(** [write_file] leaves the data at its path. *)
Lemma write_file_data p d w w' :
  OS.write_file p d w = Ok tt w' -> data_at w' p = Some d.
Proof.
  unfold OS.write_file. intros H.
  destruct (bool_decide (p = "")) eqn:Hp; [discriminate|].
  destruct (Path.endswith p "/") eqn:He; [discriminate|]. simpl in H.
  apply bool_decide_eq_false in Hp.
  assert (OS.implicit_dir (Path.normpath p) = false) as Hi.
  { destruct (OS.implicit_dir (Path.normpath p)) eqn:Hi; [|done].
    unfold OS.lookup_key in H.
    rewrite Hi in H. discriminate. }
  destruct (OS.lookup_key w (Path.normpath p)) as [i|].
  - destruct (i_body i); try discriminate. injection H as <-.
    apply data_at_Some. eexists. split; [by apply node_at_insert|reflexivity].
  - destruct (OS.is_dir_key w (Path.normpath p) || negb (OS.parent_ok w (Path.normpath p)));
      [discriminate|].
    injection H as <-.
    apply data_at_Some. eexists. split; [by apply node_at_insert|reflexivity].
Qed.

(** ** Reading, changing modes, blacklists *)

Lemma not_blacklisted_existsb bb eb name :
  ~ blacklisted bb eb name <->
  existsb (fun f => Path.startswith name f) bb = false /\
  existsb (fun f => Path.endswith name f) eb = false.
Proof.
  unfold blacklisted. split.
  - intros H. split; apply not_true_is_false; intros Hex;
      apply existsb_exists in Hex as (f & Hf & Hm); apply H;
      [left|right]; exists f; (split; [by apply list_elem_of_In|done]).
  - intros [Hb He] [(f & Hf & Hm)|(f & Hf & Hm)].
    + assert (existsb (fun f => Path.startswith name f) bb = true) as Hx; [|congruence].
      apply existsb_exists. exists f. split; [by apply list_elem_of_In|done].
    + assert (existsb (fun f => Path.endswith name f) eb = true) as Hx; [|congruence].
      apply existsb_exists. exists f. split; [by apply list_elem_of_In|done].
Qed.

Lemma read_file_data p d w : data_at w p = Some d -> OS.read_file p w = Ok d w.
Proof.
  intros (i & Hi & Hb)%data_at_Some. unfold OS.read_file. by rewrite Hi, Hb.
Qed.


Lemma chmod_eval w p i mode :
  OS.node_at w p = Some i -> OS.chmod p mode w = Ok tt (fs_set w p (with_mode i mode)).
Proof. intros H. unfold OS.chmod. by rewrite H. Qed.

Lemma node_at_fs_set w p i j :
  OS.node_at w p = Some i -> i_body i <> Directory ->
  OS.node_at (fs_set w p j) p = Some j.
Proof.
  intros H Hb. apply node_at_file in H as (? & ? & ? & _); [|done].
  by apply node_at_insert.
Qed.

(** ** Publication *)

Lemma node_at_with_fs_file w fs p j :
  p <> "" -> Path.endswith p "/" = false -> OS.implicit_dir (Path.normpath p) = false ->
  fs !! Path.normpath p = Some j ->
  OS.node_at (with_fs w fs) p = Some j.
Proof.
  intros Hp He Hi Hj. unfold OS.node_at. rewrite lookup_key_with_fs, Hi, Hj, He.
  rewrite bool_decide_eq_false_2 by done. by destruct (i_body j).
Qed.

Lemma node_at_with_fs_None w fs p :
  OS.implicit_dir (Path.normpath p) = false -> fs !! Path.normpath p = None ->
  OS.node_at (with_fs w fs) p = None.
Proof.
  intros Hi Hj. unfold OS.node_at. rewrite lookup_key_with_fs, Hi, Hj. by case_bool_decide.
Qed.

Lemma rename_raises src dst w e w' : OS.rename src dst w = Raise e w' -> e = OSError /\ w' = w.
Proof. unfold OS.rename. repeat case_match; intros [= <- <-]; done. Qed.

(** Renaming a regular file: the destination then holds its inode. *)
Lemma rename_file src dst w w' i d :
  OS.node_at w src = Some i -> i_body i = Reg d ->
  OS.rename src dst w = Ok tt w' -> OS.node_at w' dst = Some i.
Proof.
  intros Hs Hb. unfold OS.rename. rewrite Hs, Hb.
  destruct (negb _ || bool_decide (dst = "")) eqn:Hc; [discriminate|].
  apply orb_false_elim in Hc as [_ Hd]. apply bool_decide_eq_false in Hd.
  unfold OS.lookup_key.
  destruct (OS.implicit_dir (Path.normpath dst)) eqn:Hi; [discriminate|].
  destruct (w_fs w !! Path.normpath dst) as [j|] eqn:Hj.
  - destruct (i_body j); try discriminate.
    all: destruct (Path.endswith dst "/") eqn:He; [discriminate|]; intros [= <-].
    all: apply node_at_with_fs_file; try done; apply lookup_insert_eq.
  - destruct (Path.endswith dst "/") eqn:He; [discriminate|]. simpl.
    destruct (OS.is_dir_key w (Path.normpath dst)); [discriminate|]. intros [= <-].
    apply node_at_with_fs_file; try done; apply lookup_insert_eq.
Qed.

Lemma unlink_other p w w' q :
  OS.unlink p w = Ok tt w' -> Path.normpath q <> Path.normpath p ->
  OS.node_at w' q = OS.node_at w q.
Proof.
  unfold OS.unlink. destruct (OS.node_at w p) as [i|]; [|discriminate].
  destruct (i_body i); try discriminate.
  all: intros [= <-] Hne; unfold OS.node_at; rewrite lookup_key_with_fs;
    unfold OS.lookup_key; by rewrite lookup_delete_ne.
Qed.

Lemma unlink_gone p w w' :
  OS.unlink p w = Ok tt w' -> OS.node_at w' p = None.
Proof.
  unfold OS.unlink. destruct (OS.node_at w p) as [i|] eqn:Hn; [|discriminate].
  destruct (i_body i) eqn:Hb; try discriminate.
  all: intros [= <-]; apply node_at_file in Hn as (_ & _ & Hi & _); [|by rewrite Hb];
    apply node_at_with_fs_None; [done|apply lookup_delete_eq].
Qed.

(** Copying a regular file: the destination then holds its data. *)
Lemma copy2_file src dst w w' i d :
  OS.isdir w dst = false ->
  OS.node_at w src = Some i -> i_body i = Reg d ->
  Shutil.copy2 src dst w = Ok tt w' ->
  data_at w' dst = Some d /\ Path.normpath src <> Path.normpath dst /\
  OS.node_at w' src = Some i.
Proof.
  intros Hd Hs Hb. unfold Shutil.copy2.
  unfold bind at 1, OS.path_isdir at 1. rewrite Hd.
  unfold bind at 1, get_world at 1. rewrite Hs, Hb.
  case_bool_decide as Hk; [discriminate|].
  intros H. apply bind_Ok in H as ([] & wA & Hw & H).
  unfold bind at 1, get_world at 1 in H.
  pose proof (write_file_data _ _ _ _ Hw) as HdA.
  apply data_at_Some in HdA as (j & Hj & Hbj).
  apply node_at_file in Hj as (Hp & He & Hi & Hfs); [|by rewrite Hbj].
  rewrite Hfs in H. injection H as <-.
  split; [|split; [done|]].
  - apply data_at_Some. eexists. split.
    + apply node_at_with_fs_file; try done. apply lookup_insert_eq.
    + done.
  - apply node_at_file in Hs as Hs'; [|by rewrite Hb]. destruct Hs' as (Hp' & He' & Hi' & Hfs').
    apply node_at_with_fs_file; try done.
    rewrite lookup_insert_ne by done.
    revert Hw. unfold OS.write_file. repeat case_match; try discriminate.
    all: intros [= <-]; simpl; by rewrite lookup_insert_ne.
Qed.

(** Moving a regular file onto a path that is no directory. *)
Lemma move_file src dst w w' d :
  OS.isdir w dst = false -> data_at w src = Some d ->
  Shutil.move src dst w = Ok tt w' -> data_at w' dst = Some d.
Proof.
  intros Hd (i & Hs & Hb)%data_at_Some. unfold Shutil.move.
  unfold bind at 1, OS.path_isdir at 1. rewrite Hd.
  unfold bind at 1, OS.path_exists at 1. simpl.
  unfold try_catch. destruct (OS.rename src dst w) as [[] w1|e w1] eqn:Hr.
  - intros [= <-]. apply data_at_Some. exists i. split; [|done]. by eapply rename_file.
  - apply rename_raises in Hr as [-> ->].
    assert (OS.isdir w src = false) as Hsd by (unfold OS.isdir; by rewrite Hs, Hb).
    unfold bind at 1, OS.path_isdir at 1. rewrite Hsd.
    intros H. apply bind_Ok in H as ([] & wA & Hc & Hu).
    destruct (copy2_file _ _ _ _ _ _ Hd Hs Hb Hc) as (HdA & Hne & _).
    apply data_at_Some in HdA as (j & Hj & Hbj).
    apply data_at_Some. exists j. split; [|done].
    rewrite (unlink_other _ _ _ dst Hu); [done|congruence].
Qed.

(** Moving a file that is not there fails. *)
Lemma copy2_missing src dst w a w' :
  OS.node_at w src = None -> Shutil.copy2 src dst w <> Ok a w'.
Proof.
  intros Hs. unfold Shutil.copy2.
  unfold bind at 1, OS.path_isdir at 1. unfold bind at 1, get_world at 1.
  by rewrite Hs.
Qed.

Lemma move_missing src dst w a w' :
  OS.node_at w src = None -> Shutil.move src dst w <> Ok a w'.
Proof.
  intros Hs. unfold Shutil.move.
  unfold bind at 1, OS.path_isdir at 1. unfold bind at 1, OS.path_exists at 1.
  case_match; [done|].
  unfold try_catch, OS.rename. rewrite Hs.
  unfold bind at 1, OS.path_isdir at 1.
  assert (OS.isdir w src = false) as -> by (unfold OS.isdir; by rewrite Hs).
  intros Hx. apply bind_Ok in Hx as (u & wA & Hc & _).
  by apply copy2_missing in Hc.
Qed.

(** [do_backup] without a backup: the source path ends up holding what
    the output file held. *)
Lemma do_backup_publishes self w w' d :
  backup self = false ->
  data_at w (output self) = Some d ->
  do_backup self w = Ok tt w' ->
  data_at w' (filename self) = Some d.
Proof.
  intros Hb Hd. unfold do_backup. rewrite Hb.
  intros H. apply bind_Ok in H as ([] & w1 & Hr & Hm).
  unfold secure_remove in Hr. unfold bind at 1, OS.path_isfile at 1 in Hr.
  destruct (OS.isfile w (filename self)) eqn:Hf; [|discriminate].
  pose proof (unlink_gone _ _ _ Hr) as Hgone.
  destruct (decide (Path.normpath (output self) = Path.normpath (filename self))) as [He|Hne].
  - exfalso. eapply move_missing; [|exact Hm].
    apply data_at_Some in Hd as (i & Hi & Hbi).
    apply node_at_file in Hi as (Hp & Hes & Him & _); [|by rewrite Hbi].
    revert Hr. unfold OS.unlink. repeat case_match; try discriminate.
    all: intros [= <-]; apply node_at_with_fs_None; [done|rewrite He; apply lookup_delete_eq].
  - eapply move_file; [| |exact Hm].
    + unfold OS.isdir. by rewrite Hgone.
    + unfold data_at. by rewrite (unlink_other _ _ _ _ Hr Hne).
Qed.
(** ** What leaves the log alone *)

Lemma keeps_log_bind {A B} (m : M A) (f : A -> M B) :
  keeps_log m -> (forall a, keeps_log (f a)) -> keeps_log (bind m f).
Proof.
  intros Hm Hf w. unfold bind. specialize (Hm w).
  destruct (m w) as [a w1|e w1]; simpl in *; [|done].
  by rewrite Hf.
Qed.

Lemma keeps_log_ret {A} (a : A) : keeps_log (ret a).
Proof. by intros w. Qed.

Lemma keeps_log_raise {A} e : keeps_log (@raise A e).
Proof. by intros w. Qed.

Lemma keeps_log_try_catch {A} (m : M A) h :
  keeps_log m -> (forall e, keeps_log (h e)) -> keeps_log (try_catch m h).
Proof.
  intros Hm Hh w. unfold try_catch. specialize (Hm w).
  destruct (m w) as [a w1|e w1]; simpl in *; [done|]. by rewrite Hh.
Qed.

Lemma keeps_log_if {A} (b : bool) (m1 m2 : M A) :
  keeps_log m1 -> keeps_log m2 -> keeps_log (if b then m1 else m2).
Proof. by destruct b. Qed.

Lemma keeps_log_path_exists p : keeps_log (OS.path_exists p).
Proof. by intros w. Qed.
Lemma keeps_log_path_isdir p : keeps_log (OS.path_isdir p).
Proof. by intros w. Qed.
Lemma keeps_log_path_isfile p : keeps_log (OS.path_isfile p).
Proof. by intros w. Qed.

Lemma keeps_log_mkdir p mode : keeps_log (OS.mkdir p mode).
Proof. intros w. unfold OS.mkdir. by case_match. Qed.

Lemma keeps_log_write_file p d : keeps_log (OS.write_file p d).
Proof. intros w. unfold OS.write_file. by repeat case_match. Qed.

Lemma keeps_log_makedirs_go fuel name : keeps_log (OS.makedirs_go fuel name).
Proof.
  revert name. induction fuel as [|fuel IH]; intros name; simpl.
  - apply keeps_log_mkdir.
  - apply keeps_log_bind; [apply keeps_log_path_exists|]. intros ex.
    apply keeps_log_if; [|apply keeps_log_mkdir].
    apply keeps_log_bind.
    + apply keeps_log_try_catch; [apply IH|]. intros e w. by case_match.
    + intros _. apply keeps_log_if; [apply keeps_log_ret | apply keeps_log_mkdir].
Qed.

Create HintDb keeps_log.
#[local] Hint Resolve keeps_log_ret keeps_log_raise keeps_log_path_exists
  keeps_log_path_isdir keeps_log_path_isfile keeps_log_mkdir keeps_log_write_file
  keeps_log_makedirs_go : keeps_log.

Lemma keeps_log_zip_extract item dir : keeps_log (Zipfile.extract item dir).
Proof.
  unfold Zipfile.extract, OS.makedirs.
  repeat first [ apply keeps_log_bind; [|intros ?] | apply keeps_log_if
               | solve [auto with keeps_log] ].
Qed.

Lemma keeps_log_Ok {A} (m : M A) w a w' : keeps_log m -> m w = Ok a w' -> w_log w' = w_log w.
Proof. intros H Hm. specialize (H w). by rewrite Hm in H. Qed.

(** ** Strings: the end of a joined path *)

Lemma rev_app_app s1 s2 acc :
  String.rev_app (s1 +:+ s2) acc = String.rev_app s2 (String.rev_app s1 acc).
Proof. revert acc. induction s1 as [|c s1 IH]; intros acc; simpl; [done|]. apply IH. Qed.

Lemma append_cons c s t : String c s +:+ t = String c (s +:+ t).
Proof. reflexivity. Qed.

Lemma append_assoc (r s t : string) : (r +:+ s) +:+ t = r +:+ (s +:+ t).
Proof. induction r as [|x r IH]; [done|]. by rewrite !append_cons, IH. Qed.

Lemma rev_app_acc s acc : String.rev_app s acc = String.rev_app s "" +:+ acc.
Proof.
  revert acc. induction s as [|c s IH]; intros acc; simpl; [done|].
  rewrite (IH (String c acc)), (IH (String c "")).
  by rewrite append_assoc.
Qed.

Lemma prefix_sep s :
  String.prefix "/" s = true <-> exists r, s = String "/" r.
Proof.
  destruct s as [|c r]; cbn [String.prefix].
  - split; [discriminate | intros [? [=]]].
  - destruct (Ascii.ascii_dec "/" c) as [<-|Hne].
    + split; eauto. intros _. by destruct r.
    + split; [discriminate | intros [? [= ? ?]]; congruence].
Qed.

Lemma endswith_sep_app x s :
  Path.endswith s "/" = true -> Path.endswith (x +:+ s) "/" = true.
Proof.
  unfold Path.endswith, String.rev. rewrite rev_app_app.
  rewrite (rev_app_acc s (String.rev_app x "")).
  change (String.rev_app "/" "") with "/".
  rewrite !prefix_sep. intros [r ->]. rewrite append_cons. eauto.
Qed.

Lemma endswith_sep_join a b :
  Path.endswith b "/" = true -> Path.endswith (Path.join a b) "/" = true.
Proof.
  intros H. unfold Path.join. destruct (Path.startswith b "/"); [done|].
  destruct (_ || _).
  - by apply endswith_sep_app.
  - apply endswith_sep_app. by apply (endswith_sep_app "/").
Qed.

Lemma isfile_trailing_sep w p : Path.endswith p "/" = true -> OS.isfile w p = false.
Proof.
  intros H. unfold OS.isfile, OS.node_at. case_bool_decide; [done|].
  destruct (OS.lookup_key w (Path.normpath p)) as [i|]; [|done].
  destruct (i_body i) eqn:Hb; rewrite ?H, ?Hb; done.
Qed.


(** ** Entries read back where they were extracted *)

Lemma data_at_same_file w p q d :
  Path.normpath p = Path.normpath q -> Path.endswith p "/" = false -> p <> "" ->
  data_at w q = Some d -> data_at w p = Some d.
Proof.
  intros Hk He Hp (i & Hi & Hb)%data_at_Some.
  apply node_at_file in Hi as (_ & _ & Him & Hfs); [|by rewrite Hb].
  apply data_at_Some. exists i. split; [|done].
  unfold OS.node_at, OS.lookup_key. rewrite Hk, Him, Hfs, He.
  rewrite bool_decide_eq_false_2 by done. by rewrite Hb.
Qed.

Lemma zip_extract_file item dir w w1 :
  Zipfile.extract item dir w = Ok tt w1 ->
  Path.endswith (zi_filename item.1) "/" = false ->
  data_at w1 (Zipfile.targetpath dir (zi_filename item.1)) = Some item.2.
Proof.
  unfold Zipfile.extract. intros H He. rewrite He in H.
  apply bind_Ok in H as (ex & wa & _ & H).
  apply bind_Ok in H as ([] & wb & _ & H).
  by apply write_file_data in H.
Qed.

Lemma tar_set_attrs_file ti k w w1 i d :
  w_fs w !! k = Some i -> i_body i = Reg d -> ti_isfile ti = true ->
  Tarfile.set_attrs ti k w = Ok tt w1 ->
  exists j, w_fs w1 !! k = Some j /\ i_body j = Reg d /\ st_mode j = ti_mode ti.
Proof.
  intros Hk Hb Hf. unfold Tarfile.set_attrs. rewrite Hk. intros [= <-].
  eexists. split; [apply lookup_insert_eq|]. simpl. split; [done|].
  unfold ti_isfile in Hf. by destruct (ti_type ti).
Qed.

Lemma tar_extract_file item dir w w1 :
  Tarfile.extract item dir w = Ok tt w1 ->
  ti_isfile item.1 = true ->
  exists i, OS.node_at w1 (Path.rstrip_sep (Path.join dir (ti_name item.1))) = Some i /\
            i_body i = Reg item.2 /\ st_mode i = ti_mode item.1.
Proof.
  unfold Tarfile.extract. intros H Hf.
  apply bind_Ok in H as (ex & wa & _ & H).
  apply bind_Ok in H as ([] & wb & _ & H).
  apply bind_Ok in H as ([] & wc & Hw & H).
  assert (ti_type item.1 = REGTYPE) as Ht
      by (unfold ti_isfile in Hf; by destruct (ti_type item.1)).
  rewrite Ht in Hw.
  apply write_file_data, data_at_Some in Hw as (i & Hi & Hb).
  apply node_at_file in Hi as (Hp & He & Him & Hfs); [|by rewrite Hb].
  destruct (tar_set_attrs_file _ _ _ _ _ _ Hfs Hb Hf H) as (j & Hj & Hbj & Hm).
  exists j. split; [|done].
  unfold OS.node_at, OS.lookup_key. rewrite Him, Hj, He.
  rewrite bool_decide_eq_false_2 by done. by rewrite Hbj.
Qed.

Lemma tar_add_file out tarout p name f w j d :
  Path.normpath p <> Path.normpath out ->
  OS.node_at w p = Some j -> i_body j = Reg d ->
  Tarfile.add out tarout p name f w
  = Ok (tarout ++ [(f (Tarfile.gettarinfo w j name), d)]) w.
Proof.
  intros Hne Hj Hb. unfold Tarfile.add. simpl.
  rewrite bool_decide_eq_false_2 by done. by rewrite Hj, Hb.
Qed.

(** ** [makedirs] has fuel enough *)

Lemma length_rev_app s acc :
  String.length (String.rev_app s acc) = (String.length s + String.length acc)%nat.
Proof.
  revert acc. induction s as [|c s IH]; intros acc; simpl; [done|].
  rewrite IH. simpl. lia.
Qed.

Lemma length_lstrip_sep s : (String.length (Path.lstrip_sep s) <= String.length s)%nat.
Proof.
  induction s as [|c s IH]; simpl; [done|].
  destruct (Ascii.eqb c Path.SEP); simpl; lia.
Qed.

Lemma length_rstrip_sep s : (String.length (Path.rstrip_sep s) <= String.length s)%nat.
Proof.
  unfold Path.rstrip_sep, String.rev. rewrite length_rev_app. simpl.
  pose proof (length_lstrip_sep (String.rev_app s "")) as H.
  rewrite length_rev_app in H. simpl in H. lia.
Qed.

Lemma length_substring_0 n s : (String.length (String.substring 0 n s) <= n)%nat.
Proof.
  revert s. induction n as [|n IH]; intros [|c s]; simpl; try lia.
  specialize (IH s). lia.
Qed.

Lemma substring_past n s :
  (String.length s <= n)%nat -> String.substring n (String.length s - n) s = "".
Proof.
  revert s. induction n as [|n IH]; intros [|c s] H; simpl in *; try done; try lia.
  apply IH. lia.
Qed.

(** The head that [makedirs] recurses on is shorter than the name. *)
Lemma makedirs_head_shorter name :
  Path.basename (Path.rstrip_sep name) <> "" ->
  (String.length (Path.dirname (Path.rstrip_sep name)) < String.length name)%nat.
Proof.
  pose proof (length_rstrip_sep name) as Hq.
  set (q := Path.rstrip_sep name) in *.
  unfold Path.basename, Path.dirname, Path.drop_str, Path.take_str.
  set (n := Z.to_nat (Path.rfind q Path.SEP + 1)).
  intros Ht.
  assert (n < String.length q)%nat as Hn.
  { destruct (decide (n < String.length q)%nat) as [|Hge]; [done|].
    destruct Ht. apply substring_past. lia. }
  pose proof (length_substring_0 n q) as H0.
  destruct (_ && _).
  - pose proof (length_rstrip_sep (String.substring 0 n q)). lia.
  - lia.
Qed.

Lemma makedirs_go_S fuel name w :
  OS.makedirs_go (S fuel) name w
  = let head := Path.dirname (Path.rstrip_sep name) in
    let tail := Path.basename (Path.rstrip_sep name) in
    if bool_decide (head <> "") && bool_decide (tail <> "") && negb (OS.exists_ w head)
    then
      match try_catch (OS.makedirs_go fuel head)
              (fun e w => if OS.exists_ w head then Ok tt w else Raise e w) w with
      | Ok _ w' => (if bool_decide (tail = ".") then ret tt else OS.mkdir name 511) w'
      | Raise e w' => Raise e w'
      end
    else OS.mkdir name 511 w.
Proof.
  cbn [OS.makedirs_go]. unfold bind at 1, OS.path_exists at 1. cbv zeta.
  by destruct (_ && _).
Qed.

Lemma makedirs_go_more_fuel fuel name w :
  (String.length name <= fuel)%nat ->
  OS.makedirs_go (S fuel) name w = OS.makedirs_go fuel name w.
Proof.
  revert name w. induction fuel as [|fuel IH]; intros name w Hlen.
  - destruct name; [reflexivity | simpl in Hlen; lia].
  - rewrite (makedirs_go_S (S fuel)), (makedirs_go_S fuel). cbv zeta.
    destruct (bool_decide (Path.dirname (Path.rstrip_sep name) <> "")
              && bool_decide (Path.basename (Path.rstrip_sep name) <> "")
              && negb (OS.exists_ w (Path.dirname (Path.rstrip_sep name)))) eqn:Hc;
      [|reflexivity].
    apply andb_prop in Hc as [[_ Ht%bool_decide_eq_true]%andb_prop _].
    pose proof (makedirs_head_shorter name Ht) as Hs.
    unfold try_catch. rewrite IH by lia. reflexivity.
Qed.

(** Any fuel from the length of the name on gives what [makedirs] gives. *)
Lemma makedirs_fuel_enough fuel name w :
  (String.length name <= fuel)%nat ->
  OS.makedirs_go fuel name w = OS.makedirs name w.
Proof.
  unfold OS.makedirs. induction fuel as [|fuel IH]; intros Hlen.
  - assert (String.length name = 0)%nat as -> by lia. done.
  - destruct (decide (String.length name = S fuel)) as [->|Hne]; [done|].
    rewrite makedirs_go_more_fuel by lia. apply IH. lia.
Qed.

Section Properties.

Variable create_class_file : string -> bool -> bool -> content -> option child.
Variable utf8_decodes : string -> bool.

(** ** The turns of the ZIP loop *)

(** A turn either leaves the output as it is or appends one entry, with
    the envelope of [clean_zinfo], for a name no blacklist matches. *)
Lemma zip_item_cases self wl bb eb zipout item w out w' :
  zip_item create_class_file self wl bb eb zipout item w = Ok out w' ->
  out = zipout \/
  (exists data, out = zipout ++ [(clean_zinfo (zi_filename item.1), data)] /\
     existsb (fun f => Path.startswith (zi_filename item.1) f) bb = false /\
     existsb (fun f => Path.endswith (zi_filename item.1) f) eb = false).
Proof.
  unfold zip_item. intros H. inv_M; auto.
  all: right; eexists; split; [reflexivity|].
  all: repeat match goal with H : _ && _ = true |- _ => apply andb_prop in H as [? ?] end.
  all: split; apply negb_true_iff; assumption.
Qed.

(** What the loop writes for a part of the archive: entries under names
    of that part, in their order. *)
Lemma for_each_zip_item_names self wl bb eb l s w s' w' :
  for_each (zip_item create_class_file self wl bb eb) l s w = Ok s' w' ->
  exists more, s' = s ++ more /\ Zipfile.namelist more `sublist_of` Zipfile.namelist l.
Proof.
  intros H.
  eapply (for_each_sublist
            (fun (x y : ZipInfo * content) => y.1 = clean_zinfo (zi_filename x.1)))
    in H as (items & more & -> & Hsub & HR).
  - exists more. split; [done|].
    assert (Zipfile.namelist more = Zipfile.namelist items) as ->.
    { clear -HR. unfold Zipfile.namelist.
      induction HR as [|x y items more Hxy _ IH]; [done|].
      simpl. rewrite Hxy. simpl. by f_equal. }
    unfold Zipfile.namelist. by apply fmap_sublist.
  - intros s0 x w0 s0' w0' Hx.
    apply zip_item_cases in Hx as [->|(data & -> & _)]; [auto|]. right. eauto.
Qed.

Lemma zip_rebuild_Forall (Q : ZipInfo * content -> Prop) self wl bb eb w zipout w1 :
  (forall name data,
      existsb (fun f => Path.startswith name f) bb = false ->
      existsb (fun f => Path.endswith name f) eb = false ->
      Q (clean_zinfo name, data)) ->
  zip_rebuild create_class_file self wl bb eb w = Ok zipout w1 ->
  data_at w1 (output self) = Some (ZipData "" zipout) /\ Forall Q zipout.
Proof.
  intros HQ H. unfold zip_rebuild in H. inv_M.
  match goal with H : Zipfile.close_w _ _ _ = Ok ?u _ |- _ =>
    destruct u; apply write_file_data in H as Hd end.
  split; [done|].
  match goal with H : for_each _ _ _ _ = Ok _ _ |- _ =>
    eapply (for_each_inv (Forall Q)) in H; [exact H| |constructor] end.
  intros s0 it w0 s0' w0' Hs Hstep.
  apply zip_item_cases in Hstep as [->|(data & -> & Hb & He)]; [done|].
  apply Forall_app. split; [done|]. constructor; [|constructor]. by apply HQ.
Qed.

(** A successful [remove_all]: the rebuild, the log record, the
    publication. *)
Lemma ZipStripper_remove_all_inv self wl bb eb w b w' :
  ZipStripper_remove_all create_class_file self wl bb eb w = Ok b w' ->
  exists zipout w1,
    zip_rebuild create_class_file self (default [] wl) (default [] bb) (default [] eb) w
    = Ok zipout w1 /\
    b = true /\
    do_backup self (with_log w1 (w_log w1 ++ [(INFO, filename self +:+ " processed")]))
    = Ok tt w'.
Proof.
  unfold ZipStripper_remove_all. intros H. inv_M.
  match goal with H : do_backup _ _ = Ok ?u _ |- _ => destruct u end. eauto.
Qed.

Lemma clean_zinfo_normal name :
  zip_envelope_normal (clean_zinfo name) /\ is_zipfile_clean (clean_zinfo name) = true.
Proof. done. Qed.

(** ** The turns of the TAR loop *)

Lemma _remove_tar_added_normal t :
  tar_envelope_normal (_remove_tar_added t) /\ is_file_clean (_remove_tar_added t) = true.
Proof. done. Qed.

Lemma add_go_filtered fuel out f name arcname w l :
  Tarfile.add_go fuel out f name arcname w = Some l ->
  Forall (fun m => exists t, m.1 = f t) l.
Proof.
  revert name arcname l. induction fuel as [|fuel IH]; simpl; intros name arcname l H.
  - discriminate.
  - case_bool_decide; [injection H as <-; constructor|].
    destruct (OS.node_at w name) as [i|]; [|discriminate].
    destruct (i_body i).
    + injection H as <-. constructor; [simpl; eauto | constructor].
    + destruct (mapM _ _) as [rest|] eqn:Hm; [|discriminate].
      injection H as <-. constructor; [simpl; eauto|].
      apply mapM_Some in Hm. apply Forall_concat.
      induction Hm as [|c r cs rs Hc _ IHm]; constructor; eauto.
    + injection H as <-. constructor; [simpl; eauto | constructor].
Qed.

Lemma tar_item_cases self wl tarout item w out w' :
  tar_item create_class_file utf8_decodes self wl tarout item w = Ok out w' ->
  out = tarout \/
  (ti_isfile item.1 = true /\
   exists l, out = tarout ++ l /\ Forall (fun m => tar_envelope_normal m.1 /\ is_file_clean m.1 = true) l).
Proof.
  unfold tar_item. intros H. inv_M; auto.
  all: right; split; [done|].
  all: match goal with H : Tarfile.add _ _ _ _ _ _ = Ok _ _ |- _ =>
         unfold Tarfile.add in H;
         destruct (Tarfile.add_go _ _ _ _ _ _) as [l|] eqn:Hl; [|discriminate];
         injection H as <- <-; exists l; split; [done|];
         apply add_go_filtered in Hl end.
  all: eapply Forall_impl; [eassumption|]; intros m [t ->]; apply _remove_tar_added_normal.
Qed.

Lemma tar_rebuild_normal self wl w tarout w1 :
  tar_rebuild create_class_file utf8_decodes self wl w = Ok tarout w1 ->
  (exists comp, data_at w1 (output self) = Some (TarData comp tarout)) /\
  Forall (fun m => tar_envelope_normal m.1 /\ is_file_clean m.1 = true) tarout.
Proof.
  intros H. unfold tar_rebuild in H. inv_M.
  match goal with H : Tarfile.close_w _ _ _ _ = Ok ?u _ |- _ =>
    destruct u; apply write_file_data in H as Hd end.
  split; [eauto|].
  match goal with H : for_each _ _ _ _ = Ok _ _ |- _ =>
    eapply (for_each_inv (Forall (fun m => tar_envelope_normal m.1 /\ is_file_clean m.1 = true)))
      in H;
      [exact H| |constructor] end.
  intros s0 it w0 s0' w0' Hs Hstep.
  apply tar_item_cases in Hstep as [->|(_ & l & -> & Hl)]; [done|].
  by apply Forall_app.
Qed.

(** C1. After a successful [remove_all] of the ZIP engine, the output
    file holds an archive with an empty comment and exactly the entries
    the rebuild wrote; each of them has the date 1980-01-01 00:00:00,
    host system 3, an empty comment and DEFLATE compression, and passes
    the source's own envelope check; without a backup, that archive is
    what the source path holds afterwards. After a successful
    [remove_all] of the TAR engine the same holds for the members, which
    have mtime, uid and gid 0 and empty uname and gname. *)
Theorem C1_envelope_normalization :
  (forall self wl bb eb w b w',
      ZipStripper_remove_all create_class_file self wl bb eb w = Ok b w' ->
      exists zipout w1,
        zip_rebuild create_class_file self (default [] wl) (default [] bb) (default [] eb) w
        = Ok zipout w1 /\
        data_at w1 (output self) = Some (ZipData "" zipout) /\
        Forall (fun e => zip_envelope_normal e.1 /\ is_zipfile_clean e.1 = true) zipout /\
        (backup self = false -> data_at w' (filename self) = Some (ZipData "" zipout))) /\
  (forall self wl w b w',
      TarStripper_remove_all create_class_file utf8_decodes self wl w = Ok b w' ->
      exists tarout w1 comp,
        tar_rebuild create_class_file utf8_decodes self (default [] wl) w = Ok tarout w1 /\
        data_at w1 (output self) = Some (TarData comp tarout) /\
        Forall (fun m => tar_envelope_normal m.1 /\ is_file_clean m.1 = true) tarout /\
        (backup self = false -> data_at w' (filename self) = Some (TarData comp tarout))).
Proof.
  split.
  - intros self wl bb eb w b w' H.
    apply ZipStripper_remove_all_inv in H as (zipout & w1 & H & _ & Hp).
    exists zipout, w1. split; [done|].
    apply (zip_rebuild_Forall
             (fun e => zip_envelope_normal e.1 /\ is_zipfile_clean e.1 = true)) in H as [Hd HQ];
      [|intros; apply clean_zinfo_normal].
    split; [done|]. split; [done|].
    intros Hb. eapply do_backup_publishes; [exact Hb| |exact Hp]. exact Hd.
  - intros self wl w b w' H. unfold TarStripper_remove_all in H.
    apply bind_Ok in H as (tarout & w1 & H & Hp).
    apply bind_Ok in Hp as ([] & w2 & Hp & [_ ->]%ret_Ok).
    destruct (tar_rebuild_normal _ _ _ _ _ H) as [[comp Hd] HQ].
    exists tarout, w1, comp. split; [done|]. split; [done|]. split; [done|].
    intros Hb. by eapply do_backup_publishes.
Qed.

(** ** Entries without a stripper *)

Lemma create_class_file_at_world path bak a2a w r w' :
  create_class_file_at create_class_file path bak a2a w = Ok r w' -> w' = w.
Proof.
  unfold create_class_file_at. repeat case_match; by intros [= _ ->].
Qed.

Lemma zip_item_no_stripper self wl bb eb zipout item w w1 :
  let name := zi_filename item.1 in
  let path := Path.join (tempdir self) name in
  Zipfile.extract item (tempdir self) w = Ok tt w1 ->
  OS.isfile w1 path = true ->
  ~ blacklisted bb eb name ->
  create_class_file_at create_class_file path false (add2archive self) w1 = Ok None w1 ->
  exists out w',
    zip_item create_class_file self wl bb eb zipout item w = Ok out w' /\
    ((exists data, out = zipout ++ [(clean_zinfo name, data)]) <->
     (name ∈ wl \/ (Path.splitext path).2 ∈ NOMETA \/ add2archive self = true)) /\
    (out = zipout \/ exists data, out = zipout ++ [(clean_zinfo name, data)]).
Proof.
  intros name path Hext Hisf [Hb He]%not_blacklisted_existsb Hfac.
  apply isfile_data_at in Hisf as Hd. destruct Hd as [d Hd].
  unfold zip_item. rewrite (bind_Ok_eq _ _ _ _ _ Hext).
  unfold bind at 1. unfold OS.path_isfile. fold name path.
  rewrite Hisf, Hb, He. simpl.
  rewrite (bind_Ok_eq _ _ _ _ _ Hfac).
  assert (forall (l : list (ZipInfo * content)) x, l <> l ++ [x]) as Hne.
  { intros l x Hl. apply (f_equal length) in Hl. rewrite length_app in Hl. simpl in Hl. lia. }
  destruct (bool_decide (name ∈ wl)) eqn:Hwl; simpl.
  - apply bool_decide_eq_true in Hwl.
    unfold bind at 1, ret at 1. simpl.
    rewrite (bind_Ok_eq _ _ _ _ _ (read_file_data _ _ _ Hd)).
    eexists _, _. split; [reflexivity|]. split; [|eauto]. split; eauto.
  - apply bool_decide_eq_false in Hwl.
    unfold bind at 1. unfold bind at 1. unfold logging at 1.
    destruct (add2archive self) eqn:Ha; simpl.
    + unfold ret at 1.
      erewrite bind_Ok_eq by (apply read_file_data; exact Hd).
      eexists _, _. split; [reflexivity|]. split; [|eauto]. split; eauto.
    + destruct (bool_decide ((Path.splitext path).2 ∈ NOMETA)) eqn:Hn; simpl.
      * apply bool_decide_eq_true in Hn. unfold ret at 1.
        erewrite bind_Ok_eq by (apply read_file_data; exact Hd).
        eexists _, _. split; [reflexivity|]. split; [|eauto]. split; eauto.
      * apply bool_decide_eq_false in Hn. unfold ret.
        eexists _, _. split; [reflexivity|]. split; [|eauto].
        split; [intros [data Hx]; by apply Hne in Hx|].
        intros [?|[?|?]]; done.
Qed.

(** C3. In the archive a successful ZIP [remove_all] leaves, no entry
    name starts with an element of [beginning_blacklist] or ends with an
    element of [ending_blacklist]. In a turn of the loop for an entry that
    is a regular file, matches no blacklist and has no stripper, the entry
    is written if and only if its name is in the whitelist, or its
    extension is in [NOMETA], or [add2archive] is set; otherwise the
    output stays as it was. And so it is in the archive that [remove_all]
    writes: for every entry of the input, the output is what the loop wrote
    for the entries before it, then the entry itself or nothing, then what
    the loop wrote for the entries after it; and when the factory, asked
    in the turn of the entry, has no stripper for it, the entry is there if
    and only if its name is in the whitelist, or its extension is in
    [NOMETA], or [add2archive] is set. *)
Theorem C3_policy_filtering :
  (forall self wl bb eb w b w',
      ZipStripper_remove_all create_class_file self wl bb eb w = Ok b w' ->
      exists zipout w1,
        zip_rebuild create_class_file self (default [] wl) (default [] bb) (default [] eb) w
        = Ok zipout w1 /\
        data_at w1 (output self) = Some (ZipData "" zipout) /\
        Forall (fun e => ~ blacklisted (default [] bb) (default [] eb) (zi_filename e.1))
          zipout) /\
  (forall self wl bb eb zipout item w w1,
      let name := zi_filename item.1 in
      let path := Path.join (tempdir self) name in
      Zipfile.extract item (tempdir self) w = Ok tt w1 ->
      OS.isfile w1 path = true ->
      ~ blacklisted bb eb name ->
      create_class_file_at create_class_file path false (add2archive self) w1 = Ok None w1 ->
      exists out w',
        zip_item create_class_file self wl bb eb zipout item w = Ok out w' /\
        ((exists data, out = zipout ++ [(clean_zinfo name, data)]) <->
         (name ∈ wl \/ (Path.splitext path).2 ∈ NOMETA \/ add2archive self = true)) /\
        (out = zipout \/ exists data, out = zipout ++ [(clean_zinfo name, data)])) /\
  (forall self wl bb eb w c pre item post b w',
      let name := zi_filename item.1 in
      let path := Path.join (tempdir self) name in
      let whitelist := default [] wl in
      let turn := zip_item create_class_file self whitelist (default [] bb) (default [] eb) in
      data_at w (filename self) = Some (ZipData c (pre ++ item :: post)) ->
      ZipStripper_remove_all create_class_file self wl bb eb w = Ok b w' ->
      exists zipout w1 w0 out_pre w_pre step rest,
        zip_rebuild create_class_file self whitelist (default [] bb) (default [] eb) w
        = Ok zipout w1 /\
        data_at w1 (output self) = Some (ZipData "" zipout) /\
        Zipfile.open_w (output self) w = Ok tt w0 /\
        for_each turn pre [] w0 = Ok out_pre w_pre /\
        zipout = out_pre ++ step ++ rest /\
        Zipfile.namelist out_pre `sublist_of` Zipfile.namelist pre /\
        Zipfile.namelist rest `sublist_of` Zipfile.namelist post /\
        (step = [] \/ exists data, step = [(clean_zinfo name, data)]) /\
        (forall w2,
            Zipfile.extract item (tempdir self) w_pre = Ok tt w2 ->
            OS.isfile w2 path = true ->
            ~ blacklisted (default [] bb) (default [] eb) name ->
            create_class_file_at create_class_file path false (add2archive self) w2
            = Ok None w2 ->
            ((exists data, step = [(clean_zinfo name, data)]) <->
             (name ∈ whitelist \/ (Path.splitext path).2 ∈ NOMETA \/
              add2archive self = true)))).
Proof.
  split; [|split].
  - intros self wl bb eb w b w' H.
    apply ZipStripper_remove_all_inv in H as (zipout & w1 & H & _ & _).
    exists zipout, w1. split; [done|].
    apply (zip_rebuild_Forall
             (fun e => ~ blacklisted (default [] bb) (default [] eb) (zi_filename e.1)))
      in H as [Hd HQ]; [done|].
    intros name data Hb He. by apply not_blacklisted_existsb.
  - intros self wl bb eb zipout item w w1 name path. by apply zip_item_no_stripper.
  - intros self wl bb eb w c pre item post b w' name path whitelist turn Hdata H.
    apply ZipStripper_remove_all_inv in H as (zipout & w1 & H & _ & _).
    fold whitelist in H.
    pose proof H as Hreb. pose proof H as Hout.
    apply (zip_rebuild_Forall (fun _ => True)) in Hout as [Hout _]; [|done].
    unfold zip_rebuild in H.
    apply bind_Ok in H as (infolist & wa & Hopen & H).
    assert (infolist = pre ++ item :: post /\ wa = w) as [-> ->].
    { revert Hopen. unfold Zipfile.open_r. revert Hdata. unfold data_at.
      destruct (OS.node_at w (filename self)) as [i|]; [|done].
      destruct (i_body i) as [[]| |]; try done. by intros [= -> ->] [= -> ->]. }
    apply bind_Ok in H as ([] & w0 & Hw0 & H).
    apply bind_Ok in H as (out & wc & Hloop & H).
    apply bind_Ok in H as ([] & wd & _ & [-> ->]%ret_Ok).
    apply for_each_app in Hloop as (out_pre & w_pre & Hpre & Hloop).
    cbn [for_each] in Hloop. apply bind_Ok in Hloop as (out1 & w_post & Hturn & Hpost).
    apply for_each_zip_item_names in Hpre as Hnpre. destruct Hnpre as (more & Hmore & Hnpre).
    simpl in Hmore. subst more.
    apply for_each_zip_item_names in Hpost as (rest & -> & Hnrest).
    assert (exists step, out1 = out_pre ++ step /\
                         (step = [] \/ exists data, step = [(clean_zinfo name, data)]))
      as (step & -> & Hstep).
    { apply zip_item_cases in Hturn as [->|(data & -> & _)].
      - exists []. rewrite app_nil_r. auto.
      - exists [(clean_zinfo name, data)]. eauto. }
    exists (out_pre ++ step ++ rest), w1, w0, out_pre, w_pre, step, rest.
    rewrite <- app_assoc in Hout, Hreb.
    split; [done|]. split; [done|]. split; [done|]. split; [done|].
    split; [done|]. split; [done|]. split; [done|]. split; [done|].
    intros w2 Hext Hisf Hb Hfac.
    destruct (zip_item_no_stripper self whitelist (default [] bb) (default [] eb) out_pre
                item w_pre w2 Hext Hisf Hb Hfac) as (out' & w'' & Hturn' & Hiff & _).
    pose proof (eq_trans (eq_sym Hturn') Hturn) as Heq. injection Heq as -> _.
    split.
    + intros [data ->]. apply Hiff. eauto.
    + intros Hp. apply Hiff in Hp as [data Hd]. apply app_inv_head in Hd. eauto.
Qed.

(** ** Entries that are no regular files *)

(** C10, as the code has it. In a turn of the ZIP loop for an entry
    whose path in the scratch directory is not a regular file once it is
    extracted, nothing is written to the output, whatever the whitelist,
    the blacklists and [add2archive] are: the turn returns the output as
    it was, in the world the extraction left, and the log is as before the
    turn. A name that ends with a slash is such an entry. The TAR loop
    does the same with a member that is not a regular file: the turn
    leaves the output as it was. *)
Theorem C10_zip_non_files_dropped :
  (forall self wl bb eb zipout item w,
      let name := zi_filename item.1 in
      let path := Path.join (tempdir self) name in
      (forall w1,
          Zipfile.extract item (tempdir self) w = Ok tt w1 ->
          OS.isfile w1 path = false ->
          zip_item create_class_file self wl bb eb zipout item w = Ok zipout w1 /\
          w_log w1 = w_log w) /\
      (Path.endswith name "/" = true -> forall w1, OS.isfile w1 path = false)) /\
  (forall self wl tarout item w out w',
      ti_isfile item.1 = false ->
      tar_item create_class_file utf8_decodes self wl tarout item w = Ok out w' ->
      out = tarout).
Proof.
  split.
  - intros self wl bb eb zipout item w name path. split.
    + intros w1 Hext Hisf. split.
      * unfold zip_item. rewrite (bind_Ok_eq _ _ _ _ _ Hext).
        unfold bind, OS.path_isfile. fold name path. by rewrite Hisf.
      * eapply keeps_log_Ok; [apply keeps_log_zip_extract | exact Hext].
    + intros H w1. apply isfile_trailing_sep. by apply endswith_sep_join.
  - intros self wl tarout item w out w' Hf H. unfold tar_item in H.
    rewrite Hf in H. by inv_M.
Qed.

(** C7, as the code has it. A turn of the TAR loop for a member that
    is not a regular file extracts it and does nothing more: no stripper
    is asked for, and the output stays as it was. So an archive of
    directories and special files only is rebuilt empty. *)
Theorem C7_tar_non_files_not_readded :
  (forall self wl tarout item w,
      ti_isfile item.1 = false ->
      tar_item create_class_file utf8_decodes self wl tarout item w
      = (Tarfile.extract item (tempdir self) >> ret tarout) w) /\
  (forall self wl members tarout w out w',
      Forall (fun item => ti_isfile item.1 = false) members ->
      for_each (tar_item create_class_file utf8_decodes self wl) members tarout w = Ok out w' ->
      out = tarout).
Proof.
  assert (forall self wl tarout item w,
      ti_isfile item.1 = false ->
      tar_item create_class_file utf8_decodes self wl tarout item w
      = (Tarfile.extract item (tempdir self) >> ret tarout) w) as Hstep.
  { intros self wl tarout item w H. unfold tar_item. by rewrite H. }
  split; [exact Hstep|].
  intros self wl members tarout w out w' Hall. revert tarout w.
  induction Hall as [|item members Hitem _ IH]; intros tarout w H; simpl in H.
  - by inv_M.
  - apply bind_Ok in H as (s & w1 & H1 & H2).
    rewrite Hstep in H1 by done. inv_M. eauto.
Qed.

(** ** Errors of the container library *)

Lemma zip_open_r_world f w : world_of (Zipfile.open_r f w) = w.
Proof. unfold Zipfile.open_r. by repeat case_match. Qed.
Lemma tar_open_r_world f mode w : world_of (Tarfile.open_r f mode w) = w.
Proof. unfold Tarfile.open_r. by repeat case_match. Qed.

(** C4, as the code has it. [remove_all] of the ZIP and of the TAR
    engine never returns false. When the container library raises on
    opening the input archive, the exception reaches the caller, and the
    world, with the source file in it, is left as it was. *)
Theorem C4_exceptions_propagate :
  (forall self wl bb eb w w',
      ZipStripper_remove_all create_class_file self wl bb eb w <> Ok false w') /\
  (forall self wl w w',
      TarStripper_remove_all create_class_file utf8_decodes self wl w <> Ok false w') /\
  (forall self wl bb eb w e w1,
      Zipfile.open_r (filename self) w = Raise e w1 ->
      ZipStripper_remove_all create_class_file self wl bb eb w = Raise e w) /\
  (forall self wl w e w1,
      Tarfile.open_r (filename self) ("r" +:+ compression self) w = Raise e w1 ->
      TarStripper_remove_all create_class_file utf8_decodes self wl w = Raise e w).
Proof.
  repeat split.
  - intros self wl bb eb w w' H. unfold ZipStripper_remove_all in H. inv_M. done.
  - intros self wl w w' H. unfold TarStripper_remove_all in H. inv_M. done.
  - intros self wl bb eb w e w1 H.
    pose proof (zip_open_r_world (filename self) w) as Hw. rewrite H in Hw. simpl in Hw. subst w1.
    unfold ZipStripper_remove_all, zip_rebuild.
    by rewrite (bind_Raise_eq _ _ _ _ _ (bind_Raise_eq _ _ _ _ _ H)).
  - intros self wl w e w1 H.
    pose proof (tar_open_r_world (filename self) ("r" +:+ compression self) w) as Hw.
    rewrite H in Hw. simpl in Hw. subst w1.
    unfold TarStripper_remove_all, tar_rebuild.
    by rewrite (bind_Raise_eq _ _ _ _ _ (bind_Raise_eq _ _ _ _ _ H)).
Qed.
(** ** Entries with a child stripper *)

Lemma node_at_elevated w p i d :
  OS.node_at w p = Some i -> i_body i = Reg d ->
  OS.node_at (elevated w p i) p = Some (with_mode i (Z.lor (st_mode i) OS.S_IWUSR)).
Proof. intros H Hb. eapply node_at_fs_set; [exact H|]. by rewrite Hb. Qed.

Lemma node_at_published w p i d d' :
  OS.node_at w p = Some i -> i_body i = Reg d ->
  OS.node_at (published w p i d') p = Some (OS.new_inode (elevated w p i) (Reg d') 384).
Proof.
  intros H Hb. eapply node_at_fs_set; [by eapply node_at_elevated|]. simpl. by rewrite Hb.
Qed.

Lemma node_at_restored w p i d r :
  OS.node_at w p = Some i -> i_body i = Reg d ->
  exists j, OS.node_at (restored w p i r) p = Some j /\
            st_mode j = st_mode i /\ i_body j = Reg (default d r).
Proof.
  intros H Hb. destruct r as [d'|]; simpl.
  - eexists. split; [eapply node_at_fs_set; [by eapply node_at_published|done]|]. done.
  - eexists. split; [eapply node_at_fs_set; [by eapply node_at_elevated|]|].
    + simpl. by rewrite Hb.
    + done.
Qed.

(** The block that hands a file to a child, followed by [k]. *)
Lemma child_block_eval {B} (k : M B) p c w i d :
  OS.node_at w p = Some i -> i_body i = Reg d ->
  (let* old_stat := OS.stat_mode p in
   OS.chmod p (Z.lor old_stat OS.S_IWUSR) >>
   let* _ := child_remove_all c p in
   OS.chmod p old_stat >> k) w
  = match c_run c d with
    | Sanitized d' => k (restored w p i (Some d'))
    | Refused => k (restored w p i None)
    | Crashed e => Raise e (elevated w p i)
    end.
Proof.
  intros H Hb.
  assert (OS.stat_mode p w = Ok (st_mode i) w) as Hs by (unfold OS.stat_mode; by rewrite H).
  rewrite (bind_Ok_eq _ _ _ _ _ Hs).
  rewrite (bind_Ok_eq _ _ _ _ _ (chmod_eval _ _ _ _ H)).
  fold (elevated w p i).
  pose proof (node_at_elevated _ _ _ _ H Hb) as He.
  unfold bind at 1. unfold child_remove_all. rewrite He. simpl. rewrite Hb.
  destruct (c_run c d) as [d'| |e]; [| |done].
  - fold (fs_set (elevated w p i) p (OS.new_inode (elevated w p i) (Reg d') 384)).
    fold (published w p i d').
    by rewrite (bind_Ok_eq _ _ _ _ _ (chmod_eval _ _ _ _ (node_at_published _ _ _ _ d' H Hb))).
  - by rewrite (bind_Ok_eq _ _ _ _ _ (chmod_eval _ _ _ _ He)).
Qed.

Lemma create_class_file_at_eval p bak a2a w i d :
  OS.node_at w p = Some i -> i_body i = Reg d ->
  create_class_file_at create_class_file p bak a2a w = Ok (create_class_file p bak a2a d) w.
Proof. intros H Hb. unfold create_class_file_at. by rewrite H, Hb. Qed.

(** A turn of the ZIP loop for an entry that has a child stripper. *)
Lemma zip_item_child self wl bb eb zipout item w w1 i d c :
  let name := zi_filename item.1 in
  let path := Path.join (tempdir self) name in
  Zipfile.extract item (tempdir self) w = Ok tt w1 ->
  OS.node_at w1 path = Some i -> i_body i = Reg d ->
  ~ blacklisted bb eb name ->
  create_class_file path false (add2archive self) d = Some c ->
  zip_item create_class_file self wl bb eb zipout item w
  = match c_run c d with
    | Sanitized d' =>
        Ok (zipout ++ [(clean_zinfo name, d')])
           (with_log (restored w1 path i (Some d'))
              (w_log w1 ++ [(DEBUG, "Processing " +:+ name +:+ " from " +:+ filename self)]))
    | Refused =>
        Ok (zipout ++ [(clean_zinfo name, d)])
           (with_log (restored w1 path i None)
              (w_log w1 ++ [(DEBUG, "Processing " +:+ name +:+ " from " +:+ filename self)]))
    | Crashed e => Raise e (elevated w1 path i)
    end.
Proof.
  intros name path Hext H Hb [Hbb Heb]%not_blacklisted_existsb Hc.
  unfold zip_item. rewrite (bind_Ok_eq _ _ _ _ _ Hext).
  assert (OS.isfile w1 path = true) as Hisf by (unfold OS.isfile; by rewrite H, Hb).
  unfold bind at 1. unfold OS.path_isfile. fold name path. rewrite Hisf, Hbb, Heb. simpl.
  rewrite (bind_Ok_eq _ _ _ _ _ (create_class_file_at_eval _ _ _ _ _ _ H Hb)), Hc.
  unfold bind at 1. rewrite (child_block_eval _ _ _ _ _ _ H Hb).
  destruct (c_run c d) as [d'| |e]; [| |done].
  - destruct (node_at_restored _ _ _ _ (Some d') H Hb) as (j & Hj & _ & Hbj).
    unfold bind at 1, logging at 1. unfold ret at 1.
    erewrite bind_Ok_eq; [reflexivity|].
    apply read_file_data, data_at_Some. exists j. split; [exact Hj | exact Hbj].
  - destruct (node_at_restored _ _ _ _ None H Hb) as (j & Hj & _ & Hbj).
    unfold bind at 1, logging at 1. unfold ret at 1.
    erewrite bind_Ok_eq; [reflexivity|].
    apply read_file_data, data_at_Some. exists j. split; [exact Hj | exact Hbj].
Qed.
Lemma tar_add_world out tarout p name f w :
  world_of (Tarfile.add out tarout p name f w) = w.
Proof. unfold Tarfile.add. by case_match. Qed.

(** A turn of the TAR loop for a member that has a child stripper. *)
Lemma tar_item_child self wl tarout item w w1 i d c :
  let name := ti_name item.1 in
  let path := Path.join (tempdir self) name in
  let finish : M (list (TarInfo * content)) :=
    if utf8_decodes path && utf8_decodes name
    then Tarfile.add (output self) tarout path name _remove_tar_added
    else raise UnicodeDecodeError in
  Tarfile.extract item (tempdir self) w = Ok tt w1 ->
  ti_isfile item.1 = true ->
  OS.node_at w1 path = Some i -> i_body i = Reg d ->
  create_class_file path false (add2archive self) d = Some c ->
  tar_item create_class_file utf8_decodes self wl tarout item w
  = match c_run c d with
    | Sanitized d' => finish (restored w1 path i (Some d'))
    | Refused => finish (restored w1 path i None)
    | Crashed e => Raise e (elevated w1 path i)
    end.
Proof.
  intros name path finish Hext Hf H Hb Hc.
  unfold tar_item. rewrite (bind_Ok_eq _ _ _ _ _ Hext), Hf. fold name path.
  rewrite (bind_Ok_eq _ _ _ _ _ (create_class_file_at_eval _ _ _ _ _ _ H Hb)), Hc.
  unfold bind at 1. rewrite (child_block_eval _ _ _ _ _ _ H Hb).
  by destruct (c_run c d) as [d'| |e].
Qed.

(** C5, as the code has it. [TerminalZipStripper] inherits the rebuild of
    [ZipStripper] as it is; in a turn of that rebuild an entry whose
    stripper is a container stripper is handed to that stripper like any
    other: when the child returns, the entry is written with the bytes
    the child left, whatever the whitelist, [NOMETA] and [add2archive]
    say, and when the child raises, so does the turn. *)
Theorem C5_terminal_zip_recurses :
  TerminalZipStripper_remove_all create_class_file = ZipStripper_remove_all create_class_file /\
  forall self wl bb eb zipout item w w1 d c,
    let name := zi_filename item.1 in
    let path := Path.join (tempdir self) name in
    Zipfile.extract item (tempdir self) w = Ok tt w1 ->
    data_at w1 path = Some d ->
    ~ blacklisted bb eb name ->
    create_class_file path false (add2archive self) d = Some c ->
    is_GenericArchiveStripper (c_class c) = true ->
    match c_run c d with
    | Sanitized d' =>
        exists w', zip_item create_class_file self wl bb eb zipout item w
                   = Ok (zipout ++ [(clean_zinfo name, d')]) w'
    | Refused =>
        exists w', zip_item create_class_file self wl bb eb zipout item w
                   = Ok (zipout ++ [(clean_zinfo name, d)]) w'
    | Crashed e =>
        exists w', zip_item create_class_file self wl bb eb zipout item w = Raise e w'
    end.
Proof.
  split; [reflexivity|].
  intros self wl bb eb zipout item w w1 d c name path Hext (i & H & Hb)%data_at_Some Hbl Hc _.
  rewrite (zip_item_child self wl bb eb zipout item w w1 i d c Hext H Hb Hbl Hc).
  destruct (c_run c d); eauto.
Qed.

Lemma mode_at_elevated w p i d :
  OS.node_at w p = Some i -> i_body i = Reg d ->
  mode_at (elevated w p i) p = Some (Z.lor (st_mode i) OS.S_IWUSR).
Proof. intros H Hb. unfold mode_at. by erewrite node_at_elevated. Qed.

Lemma mode_at_restored w p i d r :
  OS.node_at w p = Some i -> i_body i = Reg d ->
  mode_at (restored w p i r) p = Some (st_mode i).
Proof.
  intros H Hb. destruct (node_at_restored w p i d r H Hb) as (j & Hj & Hm & _).
  unfold mode_at. by rewrite Hj, <- Hm.
Qed.

Lemma child_returns_elevated c p w i d :
  OS.node_at w p = Some i -> i_body i = Reg d ->
  (forall e, c_run c d <> Crashed e) ->
  exists b w3, child_remove_all c p (elevated w p i) = Ok b w3.
Proof.
  intros H Hb Hr. unfold child_remove_all.
  rewrite (node_at_elevated _ _ _ _ H Hb). simpl. rewrite Hb.
  destruct (c_run c d) as [d'| |e]; eauto. by destruct (Hr e).
Qed.

(** C9, as the code has it. In a turn of the ZIP or of the TAR loop that
    hands an extracted file to a child stripper, the child runs on the
    file with the owner-write bit set in its mode; if the child's
    [remove_all] returns, true or false, the turn ends with the file at
    the mode it had when extracted; if it raises, the turn raises the
    same exception and the mode stays as it was set for the child. *)
Theorem C9_mode_restored_when_child_returns :
  (forall self wl bb eb zipout item w w1 i d c,
      let path := Path.join (tempdir self) (zi_filename item.1) in
      let turn := zip_item create_class_file self wl bb eb zipout item w in
      Zipfile.extract item (tempdir self) w = Ok tt w1 ->
      OS.node_at w1 path = Some i -> i_body i = Reg d ->
      ~ blacklisted bb eb (zi_filename item.1) ->
      create_class_file path false (add2archive self) d = Some c ->
      mode_at (elevated w1 path i) path = Some (Z.lor (st_mode i) OS.S_IWUSR) /\
      ((forall e, c_run c d <> Crashed e) ->
       (exists b w3, child_remove_all c path (elevated w1 path i) = Ok b w3) /\
       mode_at (world_of turn) path = Some (st_mode i)) /\
      (forall e, c_run c d = Crashed e -> turn = Raise e (elevated w1 path i))) /\
  (forall self wl tarout item w w1 i d c,
      let path := Path.join (tempdir self) (ti_name item.1) in
      let turn := tar_item create_class_file utf8_decodes self wl tarout item w in
      Tarfile.extract item (tempdir self) w = Ok tt w1 ->
      ti_isfile item.1 = true ->
      OS.node_at w1 path = Some i -> i_body i = Reg d ->
      create_class_file path false (add2archive self) d = Some c ->
      mode_at (elevated w1 path i) path = Some (Z.lor (st_mode i) OS.S_IWUSR) /\
      ((forall e, c_run c d <> Crashed e) ->
       (exists b w3, child_remove_all c path (elevated w1 path i) = Ok b w3) /\
       mode_at (world_of turn) path = Some (st_mode i)) /\
      (forall e, c_run c d = Crashed e -> turn = Raise e (elevated w1 path i))).
Proof.
  split.
  - intros self wl bb eb zipout item w w1 i d c path turn Hext H Hb Hbl Hc.
    split; [by eapply mode_at_elevated|].
    unfold turn.
    rewrite (zip_item_child self wl bb eb zipout item w w1 i d c Hext H Hb Hbl Hc).
    split.
    + intros Hr. split; [by eapply child_returns_elevated|].
      destruct (c_run c d) as [d'| |e]; simpl.
      * apply (mode_at_restored _ _ _ _ (Some d') H Hb).
      * apply (mode_at_restored _ _ _ _ None H Hb).
      * by destruct (Hr e).
    + intros e ->. reflexivity.
  - intros self wl tarout item w w1 i d c path turn Hext Hf H Hb Hc.
    split; [by eapply mode_at_elevated|].
    unfold turn.
    rewrite (tar_item_child self wl tarout item w w1 i d c Hext Hf H Hb Hc).
    split.
    + intros Hr. split; [by eapply child_returns_elevated|].
      destruct (c_run c d) as [d'| |e].
      * destruct (utf8_decodes _ && utf8_decodes _); simpl;
          rewrite ?tar_add_world; apply (mode_at_restored _ _ _ _ (Some d') H Hb).
      * destruct (utf8_decodes _ && utf8_decodes _); simpl;
          rewrite ?tar_add_world; apply (mode_at_restored _ _ _ _ None H Hb).
      * by destruct (Hr e).
    + intros e ->. reflexivity.
Qed.

(** A turn of the ZIP loop for an entry without a stripper, with the
    bytes of the extracted file at hand. *)
Lemma zip_item_no_stripper_data self wl bb eb zipout item w w1 d :
  let name := zi_filename item.1 in
  let path := Path.join (tempdir self) name in
  Zipfile.extract item (tempdir self) w = Ok tt w1 ->
  data_at w1 path = Some d ->
  ~ blacklisted bb eb name ->
  create_class_file path false (add2archive self) d = None ->
  exists w',
    zip_item create_class_file self wl bb eb zipout item w
    = Ok (if bool_decide (name ∈ wl) || add2archive self
             || bool_decide ((Path.splitext path).2 ∈ NOMETA)
          then zipout ++ [(clean_zinfo name, d)] else zipout) w'.
Proof.
  intros name path Hext Hd [Hb He]%not_blacklisted_existsb Hfac.
  pose proof Hd as (i & Hi & Hbi)%data_at_Some.
  assert (OS.isfile w1 path = true) as Hisf by (apply isfile_data_at; eauto).
  unfold zip_item. rewrite (bind_Ok_eq _ _ _ _ _ Hext).
  unfold bind at 1. unfold OS.path_isfile. fold name path.
  rewrite Hisf, Hb, He. simpl.
  rewrite (bind_Ok_eq _ _ _ _ _ (create_class_file_at_eval _ _ _ _ _ _ Hi Hbi)), Hfac.
  destruct (bool_decide (name ∈ wl)) eqn:Hwl; simpl.
  - unfold bind at 1, ret at 1. simpl.
    rewrite (bind_Ok_eq _ _ _ _ _ (read_file_data _ _ _ Hd)). eauto.
  - unfold bind at 1. unfold bind at 1. unfold logging at 1.
    destruct (add2archive self) eqn:Ha; simpl.
    + unfold ret at 1.
      erewrite bind_Ok_eq by (apply read_file_data; exact Hd). eauto.
    + destruct (bool_decide ((Path.splitext path).2 ∈ NOMETA)) eqn:Hn; simpl.
      * unfold ret at 1.
        erewrite bind_Ok_eq by (apply read_file_data; exact Hd). eauto.
      * unfold ret. eauto.
Qed.

(** Content preservation, turn by turn, for the entries that are read
    back from the file they were extracted to. In the ZIP loop such an
    entry, if no blacklist matches it, is written with the bytes its own
    stripper makes of its payload, or with its payload as it is when the
    stripper gives up or when there is none and the policy keeps it. *)
Theorem zip_turn_payload self wl bb eb zipout item w w1 :
  let name := zi_filename item.1 in
  let path := Path.join (tempdir self) name in
  let turn := zip_item create_class_file self wl bb eb zipout item w in
  Zipfile.extract item (tempdir self) w = Ok tt w1 ->
  zip_reads_back (tempdir self) name ->
  ~ blacklisted bb eb name ->
  match create_class_file path false (add2archive self) item.2 with
  | Some c =>
      match c_run c item.2 with
      | Sanitized d' => exists w', turn = Ok (zipout ++ [(clean_zinfo name, d')]) w'
      | Refused => exists w', turn = Ok (zipout ++ [(clean_zinfo name, item.2)]) w'
      | Crashed e => exists w', turn = Raise e w'
      end
  | None =>
      exists w',
        turn = Ok (if bool_decide (name ∈ wl) || add2archive self
                      || bool_decide ((Path.splitext path).2 ∈ NOMETA)
                   then zipout ++ [(clean_zinfo name, item.2)] else zipout) w'
  end.
Proof.
  intros name path turn Hext (Hk & He & Hp) Hbl.
  assert (Path.endswith name "/" = false) as Hn.
  { destruct (Path.endswith name "/") eqn:Hn; [|done].
    apply (endswith_sep_join (tempdir self)) in Hn. unfold path in He.
    rewrite Hn in He. discriminate. }
  pose proof (zip_extract_file _ _ _ _ Hext Hn) as Hd.
  apply (data_at_same_file _ path) in Hd; [|done..].
  destruct (create_class_file path false (add2archive self) item.2) as [c|] eqn:Hc.
  - pose proof Hd as (i & Hi & Hbi)%data_at_Some. unfold turn.
    rewrite (zip_item_child self wl bb eb zipout item w w1 i _ c Hext Hi Hbi Hbl Hc).
    destruct (c_run c item.2); eauto.
  - by apply (zip_item_no_stripper_data self wl bb eb zipout item w w1).
Qed.

(** In the TAR loop a regular member that is read back from the file it
    was extracted to is added with the same bytes as in the ZIP loop, under
    its name without leading slashes, with the mode it had in the input and
    the normal envelope. *)
Theorem tar_turn_payload self wl tarout item w w1 :
  let name := ti_name item.1 in
  let path := Path.join (tempdir self) name in
  let turn := tar_item create_class_file utf8_decodes self wl tarout item w in
  let added (d : content) (out : list (TarInfo * content)) : Prop :=
    exists t, out = tarout ++ [(_remove_tar_added t, d)] /\
              ti_name t = Path.lstrip_sep name /\ ti_mode t = ti_mode item.1 /\
              ti_type t = REGTYPE in
  Tarfile.extract item (tempdir self) w = Ok tt w1 ->
  ti_isfile item.1 = true ->
  tar_reads_back (tempdir self) name (output self) ->
  utf8_decodes path && utf8_decodes name = true ->
  match create_class_file path false (add2archive self) item.2 with
  | Some c =>
      match c_run c item.2 with
      | Sanitized d' => exists out w', turn = Ok out w' /\ added d' out
      | Refused => exists out w', turn = Ok out w' /\ added item.2 out
      | Crashed e => exists w', turn = Raise e w'
      end
  | None =>
      exists out w',
        turn = Ok out w' /\
        if add2archive self || bool_decide ((Path.splitext name).2 ∈ NOMETA)
           || bool_decide (name ∈ wl)
        then added item.2 out else out = tarout
  end.
Proof.
  intros name path turn added Hext Hf [Hr Hout] Hutf.
  subst added turn path name. cbv beta.
  destruct (tar_extract_file _ _ _ _ Hext Hf) as (i & Hi & Hbi & Hm).
  rewrite Hr in Hi.
  destruct (create_class_file _ false (add2archive self) item.2) as [c|] eqn:Hc.
  - rewrite (tar_item_child self wl tarout item w w1 i _ c Hext Hf Hi Hbi Hc), Hutf.
    destruct (c_run c item.2) as [d'| |e]; [| |eauto].
    + destruct (node_at_restored _ _ _ _ (Some d') Hi Hbi) as (j & Hj & Hmj & Hbj).
      rewrite (tar_add_file _ _ _ _ _ _ _ _ Hout Hj Hbj).
      eexists _, _. split; [reflexivity|]. eexists. split; [reflexivity|].
      simpl. rewrite Hbj, Hmj. done.
    + destruct (node_at_restored _ _ _ _ None Hi Hbi) as (j & Hj & Hmj & Hbj).
      rewrite (tar_add_file _ _ _ _ _ _ _ _ Hout Hj Hbj).
      eexists _, _. split; [reflexivity|]. eexists. split; [reflexivity|].
      simpl. rewrite Hbj, Hmj. done.
  - unfold tar_item. rewrite (bind_Ok_eq _ _ _ _ _ Hext), Hf.
    rewrite (bind_Ok_eq _ _ _ _ _ (create_class_file_at_eval _ _ _ _ _ _ Hi Hbi)), Hc.
    assert (forall l, OS.node_at (with_log w1 l) (Path.join (tempdir self) (ti_name item.1))
                      = Some i) as Hil by done.
    destruct (add2archive self || bool_decide ((Path.splitext (ti_name item.1)).2 ∈ NOMETA))
      eqn:Hk; simpl.
    + unfold bind at 1. unfold bind at 1, logging at 1. unfold ret at 1. rewrite Hutf.
      rewrite (tar_add_file _ _ _ _ _ _ _ _ Hout (Hil _) Hbi).
      eexists _, _. split; [reflexivity|]. eexists. split; [reflexivity|].
      simpl. by rewrite Hbi.
    + destruct (bool_decide (ti_name item.1 ∈ wl)) eqn:Hw; simpl.
      * unfold bind at 1. unfold bind at 1, logging at 1. unfold ret at 1. rewrite Hutf.
        rewrite (tar_add_file _ _ _ _ _ _ _ _ Hout (Hil _) Hbi).
        eexists _, _. split; [reflexivity|]. eexists. split; [reflexivity|].
        simpl. by rewrite Hbi.
      * unfold bind at 1. unfold bind at 1, logging at 1. unfold ret. eauto.
Qed.

End Properties.

(** * Inspection: what [is_clean], [list_unsupported] and [get_meta] tell *)

(** ** Loops that may return *)

Lemma for_each_return_Next {A S R : Type} (P : A -> Prop)
    (body : S -> A -> M (flow S R)) l :
  (forall s x w s' w', body s x w = Ok (Next s') w' -> P x) ->
  forall s w s' w', for_each_return body l s w = Ok (Next s') w' -> Forall P l.
Proof.
  intros Hb. induction l as [|x l IH]; simpl; intros s w s' w' H; [constructor|].
  apply bind_Ok in H as (f & w1 & Hx & H). destruct f as [s1|r].
  - constructor; eauto.
  - apply ret_Ok in H as [[=] _].
Qed.

(** With a list as loop state that a turn leaves alone or extends by the
    name of its item: the list grows by the names of some of the items, in
    their order. *)
Lemma for_each_return_sublist {A R : Type} (name : A -> string) (P : A -> Prop)
    (Q : R -> Prop) (body : list string -> A -> M (flow (list string) R)) l :
  (forall s x w f w', body s x w = Ok f w' ->
     match f with
     | Next s' => s' = s \/ (s' = s ++ [name x] /\ P x)
     | Return r => Q r
     end) ->
  forall s w f w', for_each_return body l s w = Ok f w' ->
    match f with
    | Next s' => exists items, s' = s ++ (name <$> items) /\ items `sublist_of` l /\
                               Forall P items
    | Return r => Q r
    end.
Proof.
  intros Hb. induction l as [|x l IH]; simpl; intros s w f w' H.
  - apply ret_Ok in H as [<- _]. exists []. simpl. rewrite app_nil_r. repeat split; constructor.
  - apply bind_Ok in H as (f1 & w1 & Hx & H). specialize (Hb _ _ _ _ _ Hx).
    destruct f1 as [s1|r].
    + specialize (IH _ _ _ _ H). destruct f as [s'|r]; [|done].
      destruct IH as (items & -> & Hsub & HP).
      destruct Hb as [->|[-> HPx]].
      * exists items. split; [done|]. split; [by apply sublist_cons|done].
      * exists (x :: items). simpl. rewrite <- app_assoc. split; [done|].
        split; [by apply sublist_skip|by constructor].
    + apply ret_Ok in H as [<- _]. done.
Qed.

Lemma zip_open_rc_data f w c l w' :
  Zipfile.open_rc f w = Ok (c, l) w' <-> data_at w f = Some (ZipData c l) /\ w' = w.
Proof.
  unfold Zipfile.open_rc, data_at. destruct (OS.node_at w f) as [i|]; [|by split; [|intros [? _]]].
  destruct (i_body i) as [[]| |]; split; try discriminate; try (by intros [[=] _]).
  - intros [= -> -> <-]. done.
  - intros [[= -> ->] ->]. done.
Qed.

Lemma zip_open_r_data f w l w' :
  Zipfile.open_r f w = Ok l w' <-> (exists c, data_at w f = Some (ZipData c l)) /\ w' = w.
Proof.
  unfold Zipfile.open_r, data_at.
  destruct (OS.node_at w f) as [i|]; [|by split; [|intros [[? ?] _]]].
  destruct (i_body i) as [[]| |]; split; try discriminate; try (by intros [[? [=]] _]).
  - intros [= -> <-]. eauto.
  - intros [[c [= _ ->]] ->]. done.
Qed.

Lemma tar_open_r_data f mode w l w' :
  Tarfile.open_r f mode w = Ok l w' -> (exists c, data_at w f = Some (TarData c l)) /\ w' = w.
Proof.
  unfold Tarfile.open_r, data_at. destruct (OS.node_at w f) as [i|]; [|discriminate].
  destruct (i_body i) as [[]| |]; try discriminate.
  - by repeat case_match.
  - by repeat case_match.
  - repeat case_match; try discriminate; intros [= -> <-]; eauto.
Qed.

Section InspectionProperties.

Variable create_class_file : string -> bool -> bool -> content -> option child.
Variable cfile_is_clean : child -> content -> reply bool.
Variable cfile_get_meta : child -> content -> reply (gmap string pyval).
Variable py_str : gmap string pyval -> string.
Variable utf8_decodes : string -> bool.

(** A turn of [ZipStripper.is_clean] that lets the loop go on was for an
    entry with a clean envelope, unless the names are being listed. *)
Lemma zip_is_clean_item_Next self lu rl item w s' w' :
  zip_is_clean_item create_class_file cfile_is_clean self lu rl item w = Ok (Next s') w' ->
  lu = false -> is_zipfile_clean item.1 = true.
Proof.
  unfold zip_is_clean_item. intros H ->.
  apply bind_Ok in H as ([] & w1 & _ & H).
  destruct (is_zipfile_clean item.1); [done|]. simpl in H. inv_M. simplify_eq.
Qed.

(** X1. [ZipStripper.is_clean] and the envelopes. A comment of the archive
    makes the check return false at once: nothing is extracted, the file
    system stays as it is and the log gets one record. And when the check
    returns true, the archive has no comment and every entry of it has the
    envelope that [__is_zipfile_clean] accepts. *)
Theorem ZipStripper_is_clean_envelopes self w :
  (forall c l, data_at w (filename self) = Some (ZipData c l) -> c <> "" ->
     ZipStripper_is_clean create_class_file cfile_is_clean self false w
     = Ok (Clean false) (with_log w (w_log w ++ [(DEBUG, filename self +:+ " has a comment")]))) /\
  (forall w',
     ZipStripper_is_clean create_class_file cfile_is_clean self false w = Ok (Clean true) w' ->
     exists l, data_at w (filename self) = Some (ZipData "" l) /\
               Forall (fun e => is_zipfile_clean e.1 = true) l).
Proof.
  split.
  - intros c l Hd Hc. unfold ZipStripper_is_clean.
    erewrite bind_Ok_eq by (apply zip_open_rc_data; eauto). simpl.
    by rewrite bool_decide_eq_false_2.
  - intros w' H. unfold ZipStripper_is_clean in H.
    apply bind_Ok in H as ([c l] & w1 & [Hd ->]%zip_open_rc_data & H). simpl in H.
    rewrite andb_true_r in H. case_bool_decide as Hc; simpl in H.
    + subst c. exists l. split; [done|].
      apply bind_Ok in H as (f & w2 & Hloop & H). destruct f as [s|r].
      * eapply for_each_return_Next; [|exact Hloop].
        intros s0 x w0 s0' w0' Hx. by eapply zip_is_clean_item_Next.
      * apply ret_Ok in H as [-> _]. exfalso.
        eapply (for_each_return_sublist (fun e : ZipInfo * content => zi_filename e.1)
                  (fun _ => True) (fun r => r = Clean false)) in Hloop; [done|].
        intros s0 x w0 f0 w0' Hx. unfold zip_is_clean_item in Hx.
        destruct f0; inv_M; simplify_eq; auto.
    + inv_M. discriminate.
Qed.

(** What a turn of [ZipStripper.is_clean] does to the list of names. *)
Lemma zip_is_clean_item_list self lu rl item w f w' :
  zip_is_clean_item create_class_file cfile_is_clean self lu rl item w = Ok f w' ->
  match f with
  | Next s' =>
      s' = rl \/
      (s' = rl ++ [zi_filename item.1] /\
       lu = true /\
       (Path.basename (zi_filename item.1) ∉ ["mimetype"; ".rels"]) /\
       ((Path.splitext (Path.join (tempdir self) (zi_filename item.1))).2 ∉ NOMETA))
  | Return r => r = Clean false /\ lu = false
  end.
Proof.
  unfold zip_is_clean_item. intros H.
  destruct f; inv_M; simplify_eq; auto.
  all: repeat match goal with
         | H : negb _ = true |- _ => apply negb_true_iff in H
         | H : negb _ = false |- _ => apply negb_false_iff in H
         | H : _ && _ = true |- _ => apply andb_prop in H as [? ?]
         | H : bool_decide _ = false |- _ => apply bool_decide_eq_false in H
         end; subst; auto.
Qed.

(** X2. [list_unsupported] of a ZIP archive returns a list, never a boolean,
    whatever comment and envelopes the archive has; the list holds names of
    entries of the archive, in their order: each is the name of an entry for
    which the loop found a regular file without a stripper, whose base name is
    neither [mimetype] nor [.rels] and whose extension is not in [NOMETA]. *)
Theorem ZipStripper_list_unsupported_names self w r w' :
  ZipStripper_list_unsupported create_class_file cfile_is_clean self w = Ok r w' ->
  exists c l items,
    data_at w (filename self) = Some (ZipData c l) /\
    r = Unsupported (Zipfile.namelist items) /\
    items `sublist_of` l /\
    Forall (fun e => (Path.basename (zi_filename e.1) ∉ ["mimetype"; ".rels"]) /\
                     ((Path.splitext (Path.join (tempdir self) (zi_filename e.1))).2 ∉ NOMETA))
      items.
Proof.
  unfold ZipStripper_list_unsupported, ZipStripper_is_clean. intros H.
  apply bind_Ok in H as ([c l] & w1 & [Hd ->]%zip_open_rc_data & H). simpl in H.
  rewrite andb_false_r in H.
  apply bind_Ok in H as (f & w2 & Hloop & H).
  eapply (for_each_return_sublist (fun e : ZipInfo * content => zi_filename e.1)
            (fun e => (Path.basename (zi_filename e.1) ∉ ["mimetype"; ".rels"]) /\
                      ((Path.splitext (Path.join (tempdir self) (zi_filename e.1))).2 ∉ NOMETA))
            (fun _ => False)) in Hloop.
  - destruct f as [s|r0]; [|done]. destruct Hloop as (items & -> & Hsub & HP).
    apply ret_Ok in H as [<- _]. exists c, l, items. done.
  - intros s x w0 f0 w0' Hx. apply zip_is_clean_item_list in Hx.
    destruct f0 as [s'|r0].
    + destruct Hx as [->|(-> & _ & ? & ?)]; auto.
    + by destruct Hx as [_ [=]].
Qed.

(** ** The TAR check *)

Lemma tar_is_clean_item_list self lu rl item w f w' :
  tar_is_clean_item create_class_file cfile_is_clean utf8_decodes self lu rl item w = Ok f w' ->
  match f with
  | Next s' =>
      (lu = false -> is_file_clean item.1 = true) /\
      (s' = rl \/ (s' = rl ++ [ti_name item.1] /\ lu = true /\ ti_isfile item.1 = true))
  | Return r => r = Clean false /\ lu = false
  end.
Proof.
  unfold tar_is_clean_item. intros H.
  destruct (is_file_clean item.1) eqn:Hc; simpl in H.
  - destruct f; inv_M; simplify_eq; auto.
    all: repeat match goal with
           | H : negb _ = true |- _ => apply negb_true_iff in H
           | H : negb _ = false |- _ => apply negb_false_iff in H
           end; subst; auto.
    all: try (split; [done|]; destruct lu; [auto|discriminate]).
  - destruct lu; simpl in H.
    + destruct f; inv_M; simplify_eq; auto.
      all: repeat match goal with
           | H : negb _ = true |- _ => apply negb_true_iff in H
           | H : negb _ = false |- _ => apply negb_false_iff in H
           end; subst; try discriminate; auto.
      all: split; [done|]; auto.
    + inv_M. simplify_eq. done.
Qed.

(** X3. [TarStripper.is_clean] and the envelopes. The check looks at the
    envelope of a member before it extracts it: in a turn for a member with
    a field that [is_file_clean] rejects it returns false and leaves the
    file system as it is. And when the check returns true, every member of
    the archive, regular file or not, has the envelope that [is_file_clean]
    accepts. *)
Theorem TarStripper_is_clean_envelopes self w :
  (forall rl item,
     is_file_clean item.1 = false ->
     tar_is_clean_item create_class_file cfile_is_clean utf8_decodes self false rl item w
     = Ok (Return (Clean false))
         (with_log w (w_log w ++ [(DEBUG, ti_name item.1 +:+ " from " +:+ filename self
                                           +:+ " has compromising tarinfo")]))) /\
  (forall w',
     TarStripper_is_clean create_class_file cfile_is_clean utf8_decodes self false w
     = Ok (Clean true) w' ->
     exists c l, data_at w (filename self) = Some (TarData c l) /\
                 Forall (fun m => is_file_clean m.1 = true) l).
Proof.
  split.
  - intros rl item Hc. unfold tar_is_clean_item. by rewrite Hc.
  - intros w' H. unfold TarStripper_is_clean in H.
    apply bind_Ok in H as (l & w1 & [[c Hd] ->]%tar_open_r_data & H).
    exists c, l. split; [done|].
    apply bind_Ok in H as (f & w2 & Hloop & H). destruct f as [s|r].
    + eapply for_each_return_Next; [|exact Hloop].
      intros s0 x w0 s0' w0' Hx. apply tar_is_clean_item_list in Hx as [Hx _]. auto.
    + apply ret_Ok in H as [-> _]. exfalso.
      eapply (for_each_return_sublist (fun m : TarInfo * content => ti_name m.1)
                (fun _ => True) (fun r => r = Clean false)) in Hloop; [done|].
      intros s0 x w0 f0 w0' Hx. apply tar_is_clean_item_list in Hx.
      destruct f0; [|by destruct Hx]. destruct Hx as [_ [?|(? & _)]]; auto.
Qed.

(** X4. [list_unsupported] of a TAR archive returns a list, never a boolean;
    the list holds names of regular members of the archive, in their
    order. *)
Theorem TarStripper_list_unsupported_names self w r w' :
  TarStripper_list_unsupported create_class_file cfile_is_clean utf8_decodes self w = Ok r w' ->
  exists c l items,
    data_at w (filename self) = Some (TarData c l) /\
    r = Unsupported ((fun m => ti_name m.1) <$> items) /\
    items `sublist_of` l /\
    Forall (fun m => ti_isfile m.1 = true) items.
Proof.
  unfold TarStripper_list_unsupported, TarStripper_is_clean. intros H.
  apply bind_Ok in H as (l & w1 & [[c Hd] ->]%tar_open_r_data & H).
  apply bind_Ok in H as (f & w2 & Hloop & H).
  eapply (for_each_return_sublist (fun m : TarInfo * content => ti_name m.1)
            (fun m => ti_isfile m.1 = true) (fun _ => False)) in Hloop.
  - destruct f as [s|r0]; [|done]. destruct Hloop as (items & -> & Hsub & HP).
    apply ret_Ok in H as [<- _]. exists c, l, items. done.
  - intros s x w0 f0 w0' Hx. apply tar_is_clean_item_list in Hx.
    destruct f0 as [s'|r0].
    + destruct Hx as [_ [->|(-> & _ & ?)]]; auto.
    + by destruct Hx as [_ [=]].
Qed.

End InspectionProperties.

(** ** Reports of metadata *)

(** A loop over a report that only grows: what was reported stays
    reported. *)
Lemma for_each_reports {A V : Type} (D : A -> Prop) (key : A -> string)
    (body : gmap string V -> A -> M (gmap string V)) l :
  (forall s x w s' w', body s x w = Ok s' w' ->
     (forall k, is_Some (s !! k) -> is_Some (s' !! k)) /\
     (D x -> is_Some (s' !! key x))) ->
  forall s w s' w', for_each body l s w = Ok s' w' ->
    (forall k, is_Some (s !! k) -> is_Some (s' !! k)) /\
    Forall (fun x => D x -> is_Some (s' !! key x)) l.
Proof.
  intros Hb. induction l as [|x l IH]; simpl; intros s w s' w' H.
  - apply ret_Ok in H as [<- _]. split; [auto|constructor].
  - apply bind_Ok in H as (s1 & w1 & Hx & H).
    destruct (Hb _ _ _ _ _ Hx) as [Hk Hd]. destruct (IH _ _ _ _ H) as [Hk' Hl].
    split; [auto|]. constructor; auto.
Qed.

(** And what is reported in the end was there before or was reported in
    a turn. *)
Lemma for_each_reports_only {A V : Type} (D : A -> Prop) (key : A -> string)
    (body : gmap string V -> A -> M (gmap string V)) l :
  (forall s x w s' w', body s x w = Ok s' w' ->
     forall k, is_Some (s' !! k) -> is_Some (s !! k) \/ (k = key x /\ D x)) ->
  forall s w s' w', for_each body l s w = Ok s' w' ->
    forall k, is_Some (s' !! k) -> is_Some (s !! k) \/ exists x, x ∈ l /\ k = key x /\ D x.
Proof.
  intros Hb. induction l as [|x l IH]; simpl; intros s w s' w' H k Hk.
  - apply ret_Ok in H as [<- _]. auto.
  - apply bind_Ok in H as (s1 & w1 & Hx & H).
    destruct (IH _ _ _ _ H k Hk) as [Hk1|(y & Hy & ? & ?)].
    + destruct (Hb _ _ _ _ _ Hx k Hk1) as [?|[? ?]]; [auto|].
      right. exists x. split; [left|done].
    + right. exists y. split; [by right|done].
Qed.

Lemma is_Some_insert_mono {V : Type} (m : gmap string V) k v k' :
  is_Some (m !! k') -> is_Some (<[k := v]> m !! k').
Proof.
  intros H. destruct (decide (k = k')) as [->|Hne].
  - rewrite lookup_insert_eq. eauto.
  - by rewrite lookup_insert_ne.
Qed.

Lemma is_Some_insert_inv {V : Type} (m : gmap string V) k v k' :
  is_Some (<[k := v]> m !! k') -> k' = k \/ is_Some (m !! k').
Proof.
  destruct (decide (k = k')) as [->|Hne]; [auto|].
  rewrite lookup_insert_ne by done. auto.
Qed.

(** [__get_zipinfo_meta] and [__is_zipfile_clean] agree: the report of an
    envelope is empty exactly when the envelope is clean. *)
Lemma get_zipinfo_meta_empty_iff_clean zipinfo :
  get_zipinfo_meta zipinfo = ∅ <-> is_zipfile_clean zipinfo = true.
Proof.
  unfold get_zipinfo_meta, is_zipfile_clean.
  destruct (bool_decide (zi_comment zipinfo = "")),
           (bool_decide (zi_date_time zipinfo = ZIP_EPOCH)),
           (bool_decide (zi_create_system zipinfo = 3)); simpl.
  all: split; [|done || discriminate].
  all: try done.
  all: intros H; by apply insert_non_empty in H.
Qed.

Section ReportProperties.

Variable create_class_file : string -> bool -> bool -> content -> option child.
Variable cfile_get_meta : child -> content -> reply (gmap string pyval).
Variable py_str : gmap string pyval -> string.

Lemma zip_get_meta_item_reports self metadata item w m' w' :
  zip_get_meta_item create_class_file cfile_get_meta py_str self metadata item w = Ok m' w' ->
  (forall k, is_Some (metadata !! k) -> is_Some (m' !! k)) /\
  (is_zipfile_clean item.1 = false -> is_Some (m' !! (zi_filename item.1 +:+ "'s zipinfo"))).
Proof.
  unfold zip_get_meta_item. intros H.
  set (m0 := if negb (bool_decide (get_zipinfo_meta item.1 = ∅))
             then <[zi_filename item.1 +:+ "'s zipinfo" := py_str (get_zipinfo_meta item.1)]>
                    metadata
             else metadata) in H.
  assert ((forall k, is_Some (metadata !! k) -> is_Some (m0 !! k)) /\
          (is_zipfile_clean item.1 = false ->
           is_Some (m0 !! (zi_filename item.1 +:+ "'s zipinfo")))) as [H0 H1].
  { unfold m0. case_bool_decide as He; simpl.
    - split; [auto|]. apply get_zipinfo_meta_empty_iff_clean in He. congruence.
    - split; [intros; by apply is_Some_insert_mono|].
      intros _. rewrite lookup_insert_eq. eauto. }
  clearbody m0.
  inv_M; simplify_eq; auto.
  split; intros; apply is_Some_insert_mono; auto.
Qed.

(** X5. [ZipStripper.get_meta] reports the metadata of the envelopes: in the
    report it returns, a comment of the archive is under the key [comment],
    and every entry whose envelope [__is_zipfile_clean] rejects has its key,
    the name followed by ['s zipinfo]. So an empty report is of an archive
    without comment in which every envelope is clean. *)
Theorem ZipStripper_get_meta_envelopes self w m w' :
  ZipStripper_get_meta create_class_file cfile_get_meta py_str self w = Ok m w' ->
  exists c l,
    data_at w (filename self) = Some (ZipData c l) /\
    (c <> "" -> is_Some (m !! "comment")) /\
    Forall (fun e => is_zipfile_clean e.1 = false ->
                     is_Some (m !! (zi_filename e.1 +:+ "'s zipinfo"))) l /\
    (m = ∅ -> c = "" /\ Forall (fun e => is_zipfile_clean e.1 = true) l).
Proof.
  unfold ZipStripper_get_meta. intros H.
  apply bind_Ok in H as ([c l] & w1 & [Hd ->]%zip_open_rc_data & H). simpl in H.
  exists c, l. split; [done|].
  eapply (for_each_reports (fun e : ZipInfo * content => is_zipfile_clean e.1 = false)
            (fun e => zi_filename e.1 +:+ "'s zipinfo")) in H as [Hk Hl];
    [|intros; by eapply zip_get_meta_item_reports].
  assert (c <> "" -> is_Some (m !! "comment")) as Hc.
  { intros Hc. apply Hk. rewrite bool_decide_eq_false_2 by done. simpl.
    rewrite lookup_insert_eq. eauto. }
  split; [done|]. split; [done|].
  intros ->. split.
  - destruct (decide (c = "")) as [|Hne]; [done|].
    apply Hc in Hne as [? Hx]. by rewrite lookup_empty in Hx.
  - eapply Forall_impl; [exact Hl|]. intros e He. simpl in He.
    destruct (is_zipfile_clean e.1); [done|].
    destruct He as [? Hx]; [done|]. by rewrite lookup_empty in Hx.
Qed.

Lemma tar_get_meta_item_reports self metadata item w m' w' :
  tar_get_meta_item create_class_file cfile_get_meta py_str self metadata item w = Ok m' w' ->
  (forall k, is_Some (metadata !! k) -> is_Some (m' !! k)) /\
  (ti_isfile item.1 = true /\ is_file_clean item.1 = false -> is_Some (m' !! ti_name item.1)) /\
  (forall k, is_Some (m' !! k) ->
     is_Some (metadata !! k) \/
     (k = ti_name item.1 /\ ti_isfile item.1 = true /\ is_file_clean item.1 = false)).
Proof.
  unfold tar_get_meta_item. intros H.
  destruct (ti_isfile item.1) eqn:Hf.
  - apply bind_Ok in H as ([] & w1 & _ & H).
    apply bind_Ok in H as (cf & w2 & _ & H).
    apply bind_Ok in H as (cm & w3 & _ & H).
    destruct (is_file_clean item.1) eqn:Hc; simpl in H; apply ret_Ok in H as [<- _].
    + split; [auto|]. split; [by intros [_ [=]]|auto].
    + split; [intros; by apply is_Some_insert_mono|].
      split; [intros _; rewrite lookup_insert_eq; eauto|].
      intros k [->|?]%is_Some_insert_inv; auto.
  - apply ret_Ok in H as [<- _]. split; [auto|]. split; [by intros [[=] _]|auto].
Qed.

(** X6. [TarStripper.get_meta] reports exactly the regular members whose
    envelope [is_file_clean] rejects, each under its name. Of a regular
    member with a clean envelope it reports nothing, whatever the stripper
    of the member finds in it; and of a directory or special member
    nothing, whatever its envelope holds. *)
Theorem TarStripper_get_meta_reports self w m w' :
  TarStripper_get_meta create_class_file cfile_get_meta py_str self w = Ok m w' ->
  exists c l,
    data_at w (filename self) = Some (TarData c l) /\
    forall k, is_Some (m !! k) <->
              exists e, e ∈ l /\ ti_name e.1 = k /\
                        ti_isfile e.1 = true /\ is_file_clean e.1 = false.
Proof.
  unfold TarStripper_get_meta. intros H.
  apply bind_Ok in H as (l & w1 & [[c Hd] ->]%tar_open_r_data & H).
  exists c, l. split; [done|]. intros k. split.
  - intros Hk.
    eapply (for_each_reports_only
              (fun e : TarInfo * content => ti_isfile e.1 = true /\ is_file_clean e.1 = false)
              (fun e => ti_name e.1)) in H; [| |exact Hk].
    + destruct H as [[? Hx]|(e & He & -> & ? & ?)]; [by rewrite lookup_empty in Hx|eauto].
    + intros s x w0 s' w0' Hx k0 Hk0.
      apply tar_get_meta_item_reports in Hx as (_ & _ & Hx). by apply Hx.
  - intros (e & He & <- & Hf & Hc).
    eapply (for_each_reports
              (fun e : TarInfo * content => ti_isfile e.1 = true /\ is_file_clean e.1 = false)
              (fun e => ti_name e.1)) in H as [_ Hl].
    + rewrite Forall_forall in Hl. by apply Hl.
    + intros s x w0 s' w0' Hx.
      apply tar_get_meta_item_reports in Hx as (? & ? & _). done.
Qed.

End ReportProperties.

(** * Publication and the temporary files *)

Lemma normpath_nonempty p : Path.normpath p <> "".
Proof.
  unfold Path.normpath. case_bool_decide; [done|]. cbv zeta.
  match goal with |- (if bool_decide (?x = "") then _ else _) <> _ =>
    destruct (decide (x = "")) as [He|He] end.
  - by rewrite bool_decide_eq_true_2.
  - by rewrite bool_decide_eq_false_2.
Qed.

Lemma unlink_file_eval p w i d :
  OS.node_at w p = Some i -> i_body i = Reg d ->
  OS.unlink p w = Ok tt (with_fs w (delete (Path.normpath p) (w_fs w))).
Proof. intros H Hb. unfold OS.unlink. by rewrite H, Hb. Qed.

Lemma secure_remove_file_eval p w i d :
  OS.node_at w p = Some i -> i_body i = Reg d ->
  secure_remove p w = Ok tt (with_fs w (delete (Path.normpath p) (w_fs w))).
Proof.
  intros H Hb. unfold secure_remove, bind, OS.path_isfile, OS.isfile.
  rewrite H, Hb. by apply unlink_file_eval with (i := i) (d := d).
Qed.

(** X7. [do_backup] without a backup, on a source that is a regular file in
    an existing directory and an output that is another regular file: it
    returns, and the source path then holds the very inode of the output
    file, with the bytes, the mode, the owner and the time of the temporary
    file and nothing of the source's; the output path is gone, and no other
    path has changed. *)
Theorem do_backup_replaces_source self w i j d0 d :
  backup self = false ->
  OS.node_at w (filename self) = Some i -> i_body i = Reg d0 ->
  OS.node_at w (output self) = Some j -> i_body j = Reg d ->
  Path.normpath (output self) <> Path.normpath (filename self) ->
  OS.parent_ok w (Path.normpath (filename self)) = true ->
  exists w',
    do_backup self w = Ok tt w' /\
    OS.node_at w' (filename self) = Some j /\
    OS.node_at w' (output self) = None /\
    w_log w' = w_log w /\
    forall k, k <> Path.normpath (filename self) -> k <> Path.normpath (output self) ->
              w_fs w' !! k = w_fs w !! k.
Proof.
  intros Hbk Hi Hbi Hj Hbj Hne Hpar.
  set (kf := Path.normpath (filename self)) in *.
  set (ks := Path.normpath (output self)) in *.
  pose proof Hi as (Hfp & Hfe & Hfi & Hffs)%node_at_file; [|by rewrite Hbi].
  pose proof Hj as (Hop & Hoe & Hoi & Hofs)%node_at_file; [|by rewrite Hbj].
  fold kf in Hfi, Hffs. fold ks in Hoi, Hofs.
  set (w1 := with_fs w (delete kf (w_fs w))).
  assert (secure_remove (filename self) w = Ok tt w1) as Hrm
      by (by eapply secure_remove_file_eval).
  assert (OS.node_at w1 (filename self) = None) as Hgone.
  { apply node_at_with_fs_None; [done|]. apply lookup_delete_eq. }
  assert (OS.node_at w1 (output self) = Some j) as Hj1.
  { apply node_at_with_fs_file; try done. fold ks. by rewrite lookup_delete_ne. }
  assert (OS.parent_ok w1 kf = true) as Hpar1.
  { revert Hpar. unfold OS.parent_ok, OS.is_dir_key. unfold w1. rewrite lookup_key_with_fs.
    unfold OS.lookup_key. case_bool_decide as Hd; [done|]. simpl.
    destruct (OS.implicit_dir (Path.dirname kf)) eqn:Him; [done|].
    destruct (decide (Path.dirname kf = kf)) as [Heq|Hneq].
    - rewrite Heq, Hffs, Hbi. done.
    - by rewrite lookup_delete_ne. }
  set (w' := with_fs w1 (<[kf := j]> (delete ks (w_fs w1)))).
  assert (OS.rename (output self) (filename self) w1 = Ok tt w') as Hren.
  { unfold OS.rename. rewrite Hj1. fold kf ks. rewrite Hpar1. simpl.
    rewrite bool_decide_eq_false_2 by done. rewrite Hbj.
    unfold w1 at 1. rewrite lookup_key_with_fs, Hfi, lookup_delete_eq.
    rewrite Hfe. simpl.
    unfold OS.is_dir_key. unfold w1 at 1. rewrite lookup_key_with_fs, Hfi, lookup_delete_eq.
    rewrite bool_decide_eq_false_2 by apply normpath_nonempty. done. }
  exists w'. split; [|split; [|split; [|split]]].
  - unfold do_backup. rewrite Hbk, (bind_Ok_eq _ _ _ _ _ Hrm).
    unfold Shutil.move. unfold bind at 1, OS.path_isdir at 1.
    assert (OS.isdir w1 (filename self) = false) as -> by (unfold OS.isdir; by rewrite Hgone).
    unfold bind at 1, OS.path_exists at 1. simpl.
    unfold try_catch. by rewrite Hren.
  - apply node_at_with_fs_file; try done. fold kf. apply lookup_insert_eq.
  - apply node_at_with_fs_None; [done|]. fold ks.
    rewrite lookup_insert_ne by done. apply lookup_delete_eq.
  - done.
  - intros k Hkf Hks. simpl.
    by rewrite lookup_insert_ne, !lookup_delete_ne.
Qed.

(** The move of a regular file takes it away from its path. *)
Lemma rename_file_gone src dst w w' i d :
  OS.node_at w src = Some i -> i_body i = Reg d ->
  Path.normpath src <> Path.normpath dst ->
  OS.rename src dst w = Ok tt w' -> OS.node_at w' src = None.
Proof.
  intros Hs Hb Hne. pose proof Hs as (Hp & He & Hi & Hfs)%node_at_file; [|by rewrite Hb].
  unfold OS.rename. rewrite Hs, Hb.
  destruct (negb _ || bool_decide (dst = "")); [discriminate|].
  destruct (OS.lookup_key w (Path.normpath dst)) as [j0|].
  - destruct (i_body j0); try discriminate.
    all: destruct (Path.endswith dst "/"); [discriminate|]; intros [= <-].
    all: apply node_at_with_fs_None; [done|].
    all: rewrite lookup_insert_ne by done; apply lookup_delete_eq.
  - destruct (Path.endswith dst "/" || _); [discriminate|]. intros [= <-].
    apply node_at_with_fs_None; [done|].
    rewrite lookup_insert_ne by done; apply lookup_delete_eq.
Qed.

Lemma move_file_gone src dst w w' d :
  OS.isdir w dst = false -> data_at w src = Some d ->
  Path.normpath src <> Path.normpath dst ->
  Shutil.move src dst w = Ok tt w' -> OS.node_at w' src = None.
Proof.
  intros Hd (i & Hs & Hb)%data_at_Some Hne. unfold Shutil.move.
  unfold bind at 1, OS.path_isdir at 1. rewrite Hd.
  unfold bind at 1, OS.path_exists at 1. simpl.
  unfold try_catch. destruct (OS.rename src dst w) as [[] w1|e w1] eqn:Hr.
  - intros [= <-]. by eapply rename_file_gone.
  - apply rename_raises in Hr as [-> ->].
    assert (OS.isdir w src = false) as Hsd by (unfold OS.isdir; by rewrite Hs, Hb).
    unfold bind at 1, OS.path_isdir at 1. rewrite Hsd.
    intros H. apply bind_Ok in H as ([] & wA & Hc & Hu). by eapply unlink_gone.
Qed.

(** X8. [GenericParser.__del__] and the temporary file. When it returns, no
    file is at the output path, and every other path holds what it held.
    After a [do_backup] without a backup there is nothing for it to do: the
    output file was moved onto the source, and [__del__] returns with the
    world as it is. *)
Theorem GenericParser_del_output self w :
  (forall w', GenericParser_del self w = Ok tt w' ->
     OS.exists_ w' (output self) = false /\
     forall p, Path.normpath p <> Path.normpath (output self) ->
               OS.node_at w' p = OS.node_at w p) /\
  (forall w0 d, backup self = false -> data_at w0 (output self) = Some d ->
     do_backup self w0 = Ok tt w -> GenericParser_del self w = Ok tt w).
Proof.
  split.
  - intros w' H. unfold GenericParser_del in H.
    unfold bind at 1, OS.path_exists at 1 in H.
    destruct (OS.exists_ w (output self)) eqn:Hex.
    + unfold secure_remove in H. unfold bind at 1, OS.path_isfile at 1 in H.
      destruct (OS.isfile w (output self)); [|discriminate].
      split.
      * unfold OS.exists_. rewrite (unlink_gone _ _ _ H).
        apply bool_decide_eq_false. by intros [? [=]].
      * intros p Hp. by eapply unlink_other.
    + apply ret_Ok in H as [_ <-]. done.
  - intros w0 d Hbk Hd H.
    assert (OS.node_at w (output self) = None) as Hgone.
    { unfold do_backup in H. rewrite Hbk in H.
      apply bind_Ok in H as ([] & w1 & Hr & Hm).
      unfold secure_remove in Hr. unfold bind at 1, OS.path_isfile at 1 in Hr.
      destruct (OS.isfile w0 (filename self)) eqn:Hf; [|discriminate].
      pose proof (unlink_gone _ _ _ Hr) as Hg.
      destruct (decide (Path.normpath (output self) = Path.normpath (filename self)))
        as [He|Hne].
      - exfalso. eapply move_missing; [|exact Hm].
        apply data_at_Some in Hd as (i & Hi & Hbi).
        apply node_at_file in Hi as (Hp & Hes & Him & _); [|by rewrite Hbi].
        revert Hr. unfold OS.unlink. repeat case_match; try discriminate.
        all: intros [= <-]; apply node_at_with_fs_None; [done|rewrite He; apply lookup_delete_eq].
      - eapply move_file_gone; [| |exact Hne|exact Hm].
        + unfold OS.isdir. by rewrite Hg.
        + unfold data_at. by rewrite (unlink_other _ _ _ _ Hr Hne). }
    unfold GenericParser_del, bind, OS.path_exists, OS.exists_. rewrite Hgone.
    rewrite bool_decide_eq_false_2; [done|]. by intros [? [=]].
Qed.

(** X9. [GenericArchiveStripper.__del__] removes the scratch directory and
    leaves the output file: it does not call the [__del__] it overrides. A
    stripper that is made and let go with no [remove_all] in between leaves
    its temporary file behind, empty and with mode 0600. *)
Theorem GenericArchiveStripper_del_leaves_output file bak a2a tmpfile tmpdir w self w1 :
  GenericArchiveStripper_init file bak a2a tmpfile tmpdir w = Ok self w1 ->
  ~ under (Path.normpath tmpdir) (Path.normpath tmpfile) ->
  exists w2,
    GenericArchiveStripper_del self w1 = Ok tt w2 /\
    OS.isdir w2 (tempdir self) = false /\
    data_at w2 (output self) = Some (Raw "") /\
    mode_at w2 (output self) = Some 384.
Proof.
  intros H Hnu. unfold GenericArchiveStripper_init in H.
  apply bind_Ok in H as (out & wb & Hst & H).
  apply bind_Ok in H as (dir & wc & Hdt & [<- <-]%ret_Ok). simpl.
  unfold mkstemp in Hst. apply bind_Ok in Hst as (ex & w0 & [= <- <-] & Hst).
  destruct (OS.exists_ w tmpfile); [discriminate|].
  apply bind_Ok in Hst as ([] & wa & Hwr & Hst).
  apply bind_Ok in Hst as ([] & wb' & Hch & [<- <-]%ret_Ok).
  unfold mkdtemp in Hdt. apply bind_Ok in Hdt as ([] & wc' & Hmk & [<- <-]%ret_Ok).
  (* the output file after [mkstemp] *)
  pose proof (write_file_data _ _ _ _ Hwr) as (i & Hi & Hbi)%data_at_Some.
  pose proof Hi as (Hop & Hoe & Hoi & _)%node_at_file; [|by rewrite Hbi].
  rewrite (chmod_eval _ _ _ _ Hi) in Hch. injection Hch as <-.
  assert (OS.node_at (fs_set wa tmpfile (with_mode i 384)) tmpfile = Some (with_mode i 384))
    as Hi2 by (eapply node_at_fs_set; [exact Hi|by rewrite Hbi]).
  pose proof Hi2 as (_ & _ & _ & Hfs2)%node_at_file; [|simpl; by rewrite Hbi].
  (* the scratch directory after [mkdtemp] *)
  unfold OS.mkdir in Hmk.
  destruct (OS.exists_ _ tmpdir) eqn:Hex; [discriminate|].
  destruct (negb _); [discriminate|].
  case_bool_decide as Hdp; [discriminate|]. simpl in Hmk. injection Hmk as <-.
  assert (OS.implicit_dir (Path.normpath tmpdir) = false) as Hdi.
  { destruct (OS.implicit_dir (Path.normpath tmpdir)) eqn:Hdi; [|done].
    apply bool_decide_eq_false in Hex. destruct Hex.
    unfold OS.node_at, OS.lookup_key. rewrite Hdi.
    rewrite bool_decide_eq_false_2 by done. simpl. eauto. }
  assert (Path.normpath tmpfile <> Path.normpath tmpdir) as Hne.
  { intros He. apply Hnu. left. done. }
  eexists. split; [|split; [|split]].
  - unfold GenericArchiveStripper_del. simpl.
    match goal with |- (if ?b then _ else _) = _ => assert (b = true) as -> end; [|reflexivity].
    unfold OS.isdir, OS.node_at. rewrite lookup_key_with_fs, Hdi, lookup_insert_eq.
    by rewrite bool_decide_eq_false_2.
  - unfold OS.isdir, OS.node_at. rewrite bool_decide_eq_false_2 by done.
    rewrite lookup_key_with_fs, Hdi. simpl.
    rewrite map_lookup_filter_None_2; [done|].
    right. intros x _ Hx. apply Hx. by left.
  - apply data_at_Some. exists (with_mode i 384). split; [|done].
    apply node_at_with_fs_file; try done. simpl.
    apply map_lookup_filter_Some_2; [|done].
    by rewrite lookup_insert_ne.
  - unfold mode_at. rewrite (node_at_with_fs_file _ _ _ (with_mode i 384)); try done.
    simpl. apply map_lookup_filter_Some_2; [|done].
    by rewrite lookup_insert_ne.
Qed.

(** * More on the rebuilds *)

Lemma tar_open_r_mode f mode w l w' :
  Tarfile.open_r f mode w = Ok l w' ->
  exists c, data_at w f = Some (TarData c l) /\
    (mode = "r" \/ mode = "r:*" \/ mode = "r:" /\ c = TarPlain \/
     mode = "r:gz" /\ c = TarGz \/ mode = "r:bz2" /\ c = TarBz2).
Proof.
  unfold Tarfile.open_r, data_at. destruct (OS.node_at w f) as [i|]; [|discriminate].
  destruct (i_body i) as [[]| |]; try discriminate.
  - by repeat case_match.
  - by repeat case_match.
  - intros H. exists comp.
    repeat match type of H with
           | (if bool_decide _ || bool_decide _ then _ else _) = _ =>
               destruct (bool_decide_reflect (mode = "r")) as [->|?];
               [injection H as <- _; auto|];
               destruct (bool_decide_reflect (mode = "r:*")) as [->|?];
               [injection H as <- _; auto|]; simpl in H
           | (if bool_decide (?m = ?s) then _ else _) = _ =>
               destruct (bool_decide_reflect (m = s)) as [->|?]
           end; try discriminate.
    all: destruct comp; try discriminate; injection H as <- _; auto 10.
Qed.

Lemma tar_open_w_mode f mode w c w' :
  Tarfile.open_w f mode w = Ok c w' ->
  (mode = "w" \/ mode = "w:") /\ c = TarPlain \/
  mode = "w:gz" /\ c = TarGz \/ mode = "w:bz2" /\ c = TarBz2.
Proof.
  unfold Tarfile.open_w.
  destruct (bool_decide_reflect (mode = "w")) as [->|?]; simpl.
  { intros H. inv_M. auto. }
  destruct (bool_decide_reflect (mode = "w:")) as [->|?]; simpl.
  { intros H. inv_M. auto. }
  destruct (bool_decide_reflect (mode = "w:gz")) as [->|?]; simpl.
  { intros H. inv_M. auto. }
  destruct (bool_decide_reflect (mode = "w:bz2")) as [->|?]; simpl.
  { intros H. inv_M. auto. }
  discriminate.
Qed.

Section RebuildProperties.

Variable create_class_file : string -> bool -> bool -> content -> option child.
Variable utf8_decodes : string -> bool.

(** X10. The stream compression of a rebuilt TAR archive is that of the
    stripper, not that of the input. [GzipStripper] and [Bzip2Stripper]
    read their own compression only and write it again; a plain
    [TarStripper], with the empty [compression] of
    [GenericArchiveStripper.__init__], reads an archive of any compression
    and writes an uncompressed one. *)
Theorem tar_rebuild_compression :
  (forall file bak a2a tmpfile tmpdir w self w1,
     (GenericArchiveStripper_init file bak a2a tmpfile tmpdir w = Ok self w1 ->
      compression self = "") /\
     (GzipStripper_init file bak a2a tmpfile tmpdir w = Ok self w1 ->
      compression self = ":gz") /\
     (Bzip2Stripper_init file bak a2a tmpfile tmpdir w = Ok self w1 ->
      compression self = ":bz2")) /\
  (forall self wl w tarout w1,
     tar_rebuild create_class_file utf8_decodes self wl w = Ok tarout w1 ->
     exists cin members cout,
       data_at w (filename self) = Some (TarData cin members) /\
       data_at w1 (output self) = Some (TarData cout tarout) /\
       (compression self = "" /\ cout = TarPlain \/
        compression self = ":" /\ cin = TarPlain /\ cout = TarPlain \/
        compression self = ":gz" /\ cin = TarGz /\ cout = TarGz \/
        compression self = ":bz2" /\ cin = TarBz2 /\ cout = TarBz2)).
Proof.
  split.
  - intros file bak a2a tmpfile tmpdir w self w1. split; [|split].
    + unfold GenericArchiveStripper_init. intros H. inv_M. done.
    + unfold GzipStripper_init, GenericArchiveStripper_init. intros H. inv_M. done.
    + unfold Bzip2Stripper_init, GenericArchiveStripper_init. intros H. inv_M. done.
  - intros self wl w tarout w1 H. unfold tar_rebuild in H.
    apply bind_Ok in H as (members & wa & Hr & H).
    apply bind_Ok in H as (cout & wb & Hw & H).
    apply bind_Ok in H as (out & wc & _ & H).
    apply bind_Ok in H as ([] & wd & Hc & [-> ->]%ret_Ok).
    pose proof (tar_open_r_world (filename self) ("r" +:+ compression self) w) as Hwa.
    rewrite Hr in Hwa. simpl in Hwa. subst wa.
    apply tar_open_r_mode in Hr as (cin & Hd & Hr).
    apply tar_open_w_mode in Hw.
    apply write_file_data in Hc.
    exists cin, members, cout. split; [done|]. split; [done|].
    change ("r" +:+ compression self) with (String "r" (compression self)) in Hr.
    change ("w" +:+ compression self) with (String "w" (compression self)) in Hw.
    destruct Hr as [Hr|[Hr|[[Hr ->]|[[Hr ->]|[Hr ->]]]]]; injection Hr as Hr; rewrite Hr in *.
    all: destruct Hw as [[[Hw|Hw] ->]|[[Hw ->]|[Hw ->]]]; try discriminate Hw; auto 10.
Qed.

(** X11. The rebuilt ZIP archive holds entries of the input, in the order of
    the input and under their own names: the rebuild leaves entries out,
    and neither adds, renames nor reorders any. *)
Theorem zip_rebuild_keeps_order self wl bb eb w zipout w1 :
  zip_rebuild create_class_file self wl bb eb w = Ok zipout w1 ->
  exists c infolist items,
    data_at w (filename self) = Some (ZipData c infolist) /\
    items `sublist_of` infolist /\
    zipout.*1 = (fun e => clean_zinfo (zi_filename e.1)) <$> items /\
    Zipfile.namelist zipout = Zipfile.namelist items.
Proof.
  intros H. unfold zip_rebuild in H.
  apply bind_Ok in H as (infolist & wa & [[c Hd] ->]%zip_open_r_data & H).
  apply bind_Ok in H as ([] & wb & _ & H).
  apply bind_Ok in H as (out & wc & Hloop & H).
  apply bind_Ok in H as ([] & wd & _ & [-> ->]%ret_Ok).
  eapply (for_each_sublist
            (fun (x y : ZipInfo * content) => y.1 = clean_zinfo (zi_filename x.1)))
    in Hloop as (items & more & -> & Hsub & HR).
  - exists c, infolist, items. split; [done|]. split; [done|]. simpl.
    clear -HR. unfold Zipfile.namelist.
    induction HR as [|x y items more Hxy _ [IH1 IH2]]; [done|].
    simpl. rewrite Hxy. simpl. split; by f_equal.
  - intros s x w0 s' w0' Hx.
    apply zip_item_cases in Hx as [->|(data & -> & _)]; [auto|]. right. eauto.
Qed.

(** X12. After a [remove_all] of one of the two office formats, without a
    backup, the source path holds an archive on which the envelope checks
    and the format check of the format's own [is_clean] pass: it has no
    comment, every envelope is clean, and an OpenDocument has no entry
    [meta.xml], an Office OpenXML document no entry whose name starts with
    [docProps/]. *)
Theorem office_remove_all_format_check :
  (forall self w b w',
     OpenDocumentStripper_remove_all create_class_file self w = Ok b w' ->
     backup self = false ->
     exists l, data_at w' (filename self) = Some (ZipData "" l) /\
               Forall (fun e => is_zipfile_clean e.1 = true) l /\
               Zipfile.getinfo l "meta.xml" = None) /\
  (forall self w b w',
     OpenXmlStripper_remove_all create_class_file self w = Ok b w' ->
     backup self = false ->
     exists l, data_at w' (filename self) = Some (ZipData "" l) /\
               Forall (fun e => is_zipfile_clean e.1 = true) l /\
               existsb (fun item => Path.startswith item "docProps/") (Zipfile.namelist l)
               = false).
Proof.
  split.
  - intros self w b w' H Hbk.
    unfold OpenDocumentStripper_remove_all, TerminalZipStripper_remove_all in H.
    apply ZipStripper_remove_all_inv in H as (zipout & w1 & H & _ & Hp). simpl in H.
    apply (zip_rebuild_Forall create_class_file
             (fun e => is_zipfile_clean e.1 = true /\
                       Path.endswith (zi_filename e.1) "meta.xml" = false)) in H as [Hd HQ].
    + exists zipout. split; [eapply do_backup_publishes; [exact Hbk| |exact Hp]; exact Hd|].
      split; [eapply Forall_impl; [exact HQ|]; by intros e [? _]|].
      unfold Zipfile.getinfo.
      replace (filter (fun z => zi_filename z = "meta.xml") zipout.*1) with (@nil ZipInfo);
        [done|].
      symmetry. clear -HQ. induction HQ as [|e l [_ He] _ IH]; [done|]. simpl.
      rewrite filter_cons_False; [done|].
      intros Hn. rewrite Hn in He. discriminate.
    + intros name data _ He. simpl in He. rewrite orb_false_r in He. done.
  - intros self w b w' H Hbk.
    unfold OpenXmlStripper_remove_all, TerminalZipStripper_remove_all in H.
    apply ZipStripper_remove_all_inv in H as (zipout & w1 & H & _ & Hp). simpl in H.
    apply (zip_rebuild_Forall create_class_file
             (fun e => is_zipfile_clean e.1 = true /\
                       Path.startswith (zi_filename e.1) "docProps/" = false)) in H as [Hd HQ].
    + exists zipout. split; [eapply do_backup_publishes; [exact Hbk| |exact Hp]; exact Hd|].
      split; [eapply Forall_impl; [exact HQ|]; by intros e [? _]|].
      clear -HQ. induction HQ as [|e l [_ He] _ IH]; [done|].
      unfold Zipfile.namelist in *. simpl. by rewrite He.
    + intros name data Hb _. simpl in Hb. rewrite orb_false_r in Hb. done.
Qed.

End RebuildProperties.

(** * Paths: the extension of a joined path *)

Lemma append_nil_r s : s +:+ "" = s.
Proof. induction s as [|c s IH]; [done|]. by rewrite append_cons, IH. Qed.

Lemma length_append s t :
  String.length (s +:+ t) = (String.length s + String.length t)%nat.
Proof. induction s as [|c s IH]; [done|]. rewrite append_cons. simpl. by rewrite IH. Qed.

Lemma rfind_from_app s t c i last :
  Path.rfind_from (s +:+ t) c i last
  = Path.rfind_from t c (i + Z.of_nat (String.length s)) (Path.rfind_from s c i last).
Proof.
  revert i last. induction s as [|a s IH]; intros i last.
  - change ("" +:+ t) with t. simpl. by rewrite Z.add_0_r.
  - rewrite append_cons. cbn [Path.rfind_from String.length]. rewrite IH. f_equal. lia.
Qed.

(** Either [c] is not in [t], or [t] splits at its last [c]. *)
Lemma rfind_from_split t c :
  (forall i last, Path.rfind_from t c i last = last) \/
  (exists pre post,
      t = pre +:+ String c post /\
      (forall i last, Path.rfind_from post c i last = last) /\
      forall i last, Path.rfind_from t c i last = i + Z.of_nat (String.length pre)).
Proof.
  induction t as [|a t IH].
  - by left.
  - destruct IH as [IH|(pre & post & -> & Hpost & IH)].
    + destruct (Ascii.eqb a c) eqn:Ha.
      * right. apply Ascii.eqb_eq in Ha as ->. exists "", t. split; [done|]. split; [done|].
        intros i last. cbn [Path.rfind_from]. rewrite IH, Ascii.eqb_refl. simpl. lia.
      * left. intros i last. cbn [Path.rfind_from]. by rewrite IH, Ha.
    + right. exists (String a pre), post. split; [done|]. split; [done|].
      intros i last. cbn [Path.rfind_from String.length]. rewrite IH. lia.
Qed.

Lemma rfind_bounds t c : -1 <= Path.rfind t c < Z.of_nat (String.length t).
Proof.
  unfold Path.rfind. destruct (rfind_from_split t c) as [H|(pre & post & -> & _ & H)].
  - rewrite H. lia.
  - rewrite H, length_append. cbn [String.length]. lia.
Qed.

Lemma substring_app_r s t a b :
  String.substring (String.length s + a) b (s +:+ t) = String.substring a b t.
Proof. induction s as [|c s IH]; [done|]. rewrite append_cons. simpl. exact IH. Qed.

Lemma substring_0_length s : String.substring 0 (String.length s) s = s.
Proof. induction s as [|c s IH]; [done|]. simpl. by rewrite IH. Qed.

Lemma rfind_sep_suffix q : Path.rfind (q +:+ "/") Path.SEP = Z.of_nat (String.length q).
Proof. unfold Path.rfind. rewrite rfind_from_app. simpl. lia. Qed.

(** A directory part, empty or ending in a slash, does not change the
    extension. *)
Lemma splitext_ext_app pre n :
  pre = "" \/ (exists q, pre = q +:+ "/") ->
  (Path.splitext (pre +:+ n)).2 = (Path.splitext n).2.
Proof.
  intros Hpre.
  assert (Path.rfind pre Path.SEP = Z.of_nat (String.length pre) - 1) as Hps.
  { destruct Hpre as [->|[q ->]]; [done|].
    rewrite rfind_sep_suffix, length_append. simpl. lia. }
  pose proof (rfind_bounds pre Path.EXTSEP) as Hpd.
  pose proof (rfind_bounds n Path.SEP) as Hns.
  pose proof (rfind_bounds n Path.EXTSEP) as Hnd.
  unfold Path.splitext.
  assert (Path.rfind (pre +:+ n) Path.SEP = Z.of_nat (String.length pre) + Path.rfind n Path.SEP)
    as ->.
  { unfold Path.rfind in *. rewrite rfind_from_app.
    destruct (rfind_from_split n Path.SEP) as [H|(p1 & p2 & _ & _ & H)]; rewrite !H; lia. }
  destruct (rfind_from_split n Path.EXTSEP) as [H|(p1 & p2 & Hn & _ & H)].
  - (* no dot in the name *)
    assert (Path.rfind (pre +:+ n) Path.EXTSEP = Path.rfind pre Path.EXTSEP) as ->
        by (unfold Path.rfind; by rewrite rfind_from_app, H).
    assert (Path.rfind n Path.EXTSEP = -1) as Hd by (unfold Path.rfind; by rewrite H).
    rewrite Hd.
    rewrite !bool_decide_eq_false_2 by lia. done.
  - assert (Path.rfind (pre +:+ n) Path.EXTSEP
            = Z.of_nat (String.length pre) + Path.rfind n Path.EXTSEP) as ->
        by (unfold Path.rfind; rewrite rfind_from_app, !H; lia).
    set (s := Path.rfind n Path.SEP) in *. set (d := Path.rfind n Path.EXTSEP) in *.
    assert (0 <= d) by (unfold d, Path.rfind; rewrite H; lia).
    replace (Z.to_nat (Z.of_nat (String.length pre) + s + 1))
      with (String.length pre + Z.to_nat (s + 1))%nat by lia.
    replace (Z.to_nat (Z.of_nat (String.length pre) + d - (Z.of_nat (String.length pre) + s + 1)))
      with (Z.to_nat (d - (s + 1))) by lia.
    rewrite substring_app_r.
    destruct (bool_decide (s < d)) eqn:Hsd.
    + rewrite bool_decide_eq_true_2 by (apply bool_decide_eq_true in Hsd; lia).
      simpl. destruct (negb _); [|done]. simpl.
      unfold Path.drop_str. rewrite length_append.
      replace (Z.to_nat (Z.of_nat (String.length pre) + d))
        with (String.length pre + Z.to_nat d)%nat by lia.
      rewrite substring_app_r. f_equal. lia.
    + rewrite bool_decide_eq_false_2 by (apply bool_decide_eq_false in Hsd; lia). done.
Qed.

Lemma rev_app_rev_app s acc acc' :
  String.rev_app (String.rev_app s acc) acc' = String.rev_app acc (s +:+ acc').
Proof.
  revert acc acc'. induction s as [|c s IH]; intros acc acc'; [done|].
  simpl. rewrite IH. done.
Qed.

Lemma string_rev_involutive s : String.rev (String.rev s) = s.
Proof. unfold String.rev. rewrite rev_app_rev_app. simpl. apply append_nil_r. Qed.

Lemma endswith_sep_inv a : Path.endswith a "/" = true -> exists q, a = q +:+ "/".
Proof.
  unfold Path.endswith. change (String.rev "/") with "/".
  intros [r Hr]%prefix_sep. exists (String.rev r).
  rewrite <- (string_rev_involutive a), Hr. unfold String.rev at 1. simpl.
  by rewrite rev_app_acc.
Qed.

Lemma join_directory_part dir name :
  Path.startswith name "/" = false ->
  exists pre, Path.join dir name = pre +:+ name /\ (pre = "" \/ exists q, pre = q +:+ "/").
Proof.
  intros Hn. unfold Path.join. rewrite Hn.
  destruct (bool_decide_reflect (dir = "")) as [->|Hd]; simpl.
  - exists "". auto.
  - destruct (Path.endswith dir "/") eqn:He.
    + exists dir. split; [done|]. right. by apply endswith_sep_inv.
    + exists (dir +:+ "/"). split; [by rewrite append_assoc|]. eauto.
Qed.

(** The extension of the path of an entry in the scratch directory is
    the extension of its name. *)
Lemma splitext_join_ext dir name :
  (Path.splitext (Path.join dir name)).2 = (Path.splitext name).2.
Proof.
  destruct (Path.startswith name "/") eqn:Hn.
  - unfold Path.join. by rewrite Hn.
  - destruct (join_directory_part dir name Hn) as (pre & -> & Hpre).
    by apply splitext_ext_app.
Qed.

Lemma basename_directory_part name :
  exists pre, name = pre +:+ Path.basename name /\ (pre = "" \/ exists q, pre = q +:+ "/").
Proof.
  unfold Path.basename, Path.rfind.
  destruct (rfind_from_split name Path.SEP) as [H|(p1 & p2 & Hn & _ & H)]; rewrite H.
  - exists "". split; [|auto]. unfold Path.drop_str. simpl.
    rewrite Nat.sub_0_r. by rewrite substring_0_length.
  - exists (p1 +:+ "/"). split; [|eauto].
    rewrite Hn at 1. rewrite append_assoc. f_equal.
    unfold Path.drop_str. rewrite Hn.
    replace (p1 +:+ String Path.SEP p2) with ((p1 +:+ "/") +:+ p2) by (by rewrite append_assoc).
    replace (Z.to_nat (0 + Z.of_nat (String.length p1) + 1))
      with (String.length (p1 +:+ "/") + 0)%nat by (rewrite length_append; simpl; lia).
    rewrite substring_app_r, (length_append (p1 +:+ "/")).
    replace (String.length (p1 +:+ "/") + String.length p2 - (String.length (p1 +:+ "/") + 0))%nat
      with (String.length p2) by lia.
    by rewrite substring_0_length.
Qed.

Lemma splitext_basename_ext name :
  (Path.splitext name).2 = (Path.splitext (Path.basename name)).2.
Proof.
  destruct (basename_directory_part name) as (pre & Hn & Hpre).
  rewrite Hn at 1. by apply splitext_ext_app.
Qed.

(** * Paths of plain components *)

Lemma sepfree_rfind c i last :
  sepfree c = true -> Path.rfind_from c Path.SEP i last = last.
Proof.
  revert i last. induction c as [|a c IH]; intros i last H; [done|].
  simpl in H. apply andb_prop in H as [Ha Hc]. apply negb_true_iff in Ha.
  cbn [Path.rfind_from]. rewrite Ha. by apply IH.
Qed.

Lemma sepfree_app s t : sepfree (s +:+ t) = sepfree s && sepfree t.
Proof.
  induction s as [|a s IH]; [done|]. rewrite append_cons. simpl.
  rewrite IH. by rewrite andb_assoc.
Qed.

Lemma sepfree_rev_app s acc : sepfree (String.rev_app s acc) = sepfree s && sepfree acc.
Proof.
  revert acc. induction s as [|a s IH]; intros acc; [done|].
  simpl. rewrite IH. simpl. destruct (negb (Ascii.eqb a Path.SEP)), (sepfree s); done.
Qed.

Lemma split_go_sepfree c cur :
  sepfree c = true -> Path.split_go cur c = [String.rev_app cur c].
Proof.
  revert cur. induction c as [|a c IH]; intros cur H; [done|].
  simpl in H. apply andb_prop in H as [Ha Hc]. apply negb_true_iff in Ha.
  cbn [Path.split_go]. rewrite Ha. by rewrite IH.
Qed.

Lemma split_go_app_sep s t cur :
  Path.split_go cur (s +:+ String "/" t) = Path.split_go cur s ++ Path.split_go "" t.
Proof.
  revert cur. induction s as [|a s IH]; intros cur; [done|].
  rewrite append_cons. cbn [Path.split_go]. destruct (Ascii.eqb a Path.SEP).
  - by rewrite IH.
  - apply IH.
Qed.

Lemma split_app_sep s t : Path.split (s +:+ "/" +:+ t) = Path.split s ++ Path.split t.
Proof. apply split_go_app_sep. Qed.

Lemma split_sepfree c : sepfree c = true -> Path.split c = [c].
Proof. intros H. unfold Path.split. by rewrite split_go_sepfree. Qed.

Lemma split_go_all_sepfree s cur :
  sepfree cur = true -> Forall (fun c => sepfree c = true) (Path.split_go cur s).
Proof.
  revert cur. induction s as [|a s IH]; intros cur Hcur; cbn [Path.split_go].
  - constructor; [|constructor]. unfold String.rev. by rewrite sepfree_rev_app, Hcur.
  - destruct (Ascii.eqb a Path.SEP) eqn:Ha.
    + constructor; [|by apply IH]. unfold String.rev. by rewrite sepfree_rev_app, Hcur.
    + apply IH. simpl. by rewrite Ha.
Qed.

Lemma split_all_sepfree s : Forall (fun c => sepfree c = true) (Path.split s).
Proof. by apply split_go_all_sepfree. Qed.

Lemma arc_comps_plain name : Forall plain (arc_comps name).
Proof.
  unfold arc_comps. apply Forall_forall. intros c Hc.
  apply list_elem_of_filter in Hc as [(? & ? & ?) Hc].
  pose proof (split_all_sepfree name) as Hs. rewrite Forall_forall in Hs.
  repeat split; auto.
Qed.

Lemma join_sep_cons c cs :
  cs <> [] -> Path.join_sep (c :: cs) = c +:+ "/" +:+ Path.join_sep cs.
Proof. by destruct cs. Qed.

Lemma join_sep_app xs ys :
  xs <> [] -> ys <> [] ->
  Path.join_sep (xs ++ ys) = Path.join_sep xs +:+ "/" +:+ Path.join_sep ys.
Proof.
  intros Hx Hy. induction xs as [|x xs IH]; [done|].
  destruct xs as [|x' xs].
  - simpl. by destruct ys.
  - change ((x :: x' :: xs) ++ ys) with (x :: ((x' :: xs) ++ ys)).
    rewrite !join_sep_cons by done. rewrite IH by done.
    by rewrite !append_assoc.
Qed.

Lemma split_join_sep cs :
  cs <> [] -> Forall (fun c => sepfree c = true) cs -> Path.split (Path.join_sep cs) = cs.
Proof.
  intros Hne Hall. induction Hall as [|c cs Hc Hcs IH]; [done|].
  destruct cs as [|c' cs].
  - simpl. by apply split_sepfree.
  - rewrite join_sep_cons by done. rewrite split_app_sep, split_sepfree by done.
    rewrite IH by done. done.
Qed.

Lemma plain_sepfree cs : Forall plain cs -> Forall (fun c => sepfree c = true) cs.
Proof. intros H. eapply Forall_impl; [exact H|]. by intros c (_ & _ & _ & ?). Qed.

(** The first and the last character of a plain component. *)
Lemma plain_head c : plain c -> exists a c', c = String a c' /\ a <> Path.SEP.
Proof.
  intros (Hne & _ & _ & Hs). destruct c as [|a c']; [done|].
  exists a, c'. split; [done|]. simpl in Hs. apply andb_prop in Hs as [Ha _].
  apply negb_true_iff, Ascii.eqb_neq in Ha. done.
Qed.

Lemma string_last s : s <> "" -> exists s' a, s = s' +:+ String a "".
Proof.
  induction s as [|a s IH]; [done|]. intros _. destruct s as [|b s].
  - exists "", a. done.
  - destruct IH as (s' & z & Hs); [done|]. exists (String a s'), z.
    by rewrite append_cons, <- Hs.
Qed.

Lemma plain_last c : plain c -> exists c' a, c = c' +:+ String a "" /\ a <> Path.SEP.
Proof.
  intros (Hne & _ & _ & Hs). destruct (string_last c Hne) as (c' & a & ->).
  exists c', a. split; [done|]. rewrite sepfree_app in Hs.
  apply andb_prop in Hs as [_ Ha]. simpl in Ha. rewrite andb_true_r in Ha.
  apply negb_true_iff, Ascii.eqb_neq in Ha. done.
Qed.

Lemma join_sep_head c cs :
  plain c -> exists a r, Path.join_sep (c :: cs) = String a r /\ a <> Path.SEP.
Proof.
  intros (a & c' & -> & Ha)%plain_head. destruct cs; simpl; eauto.
Qed.

Lemma join_sep_last cs c :
  plain c -> exists r a, Path.join_sep (cs ++ [c]) = r +:+ String a "" /\ a <> Path.SEP.
Proof.
  intros (c' & a & -> & Ha)%plain_last. destruct cs as [|x cs].
  - simpl. eauto.
  - rewrite join_sep_app by done. simpl.
    exists (Path.join_sep (x :: cs) +:+ "/" +:+ c'), a. split; [|done].
    by rewrite !append_assoc.
Qed.

Lemma startswith_sep_cons a r : a <> Path.SEP -> Path.startswith (String a r) "/" = false.
Proof.
  intros Ha. unfold Path.startswith. cbn [String.prefix].
  destruct (Ascii.ascii_dec "/" a) as [<-|]; [done|done].
Qed.

Lemma endswith_sep_last r a : a <> Path.SEP -> Path.endswith (r +:+ String a "") "/" = false.
Proof.
  intros Ha. unfold Path.endswith, String.rev. rewrite rev_app_app.
  cbn [String.rev_app String.prefix].
  destruct (Ascii.ascii_dec "/" a) as [<-|]; [done|done].
Qed.

Lemma lstrip_sep_cons a r : a <> Path.SEP -> Path.lstrip_sep (String a r) = String a r.
Proof. intros Ha. simpl. apply Ascii.eqb_neq in Ha. by rewrite Ha. Qed.

Lemma rstrip_sep_last r a :
  a <> Path.SEP -> Path.rstrip_sep (r +:+ String a "") = r +:+ String a "".
Proof.
  intros Ha. unfold Path.rstrip_sep. unfold String.rev at 2. rewrite rev_app_app.
  cbn [String.rev_app]. rewrite lstrip_sep_cons by done.
  change (String a (String.rev_app r "")) with (String.rev_app (String a "") (String.rev_app r "")).
  rewrite <- rev_app_app. apply string_rev_involutive.
Qed.

Lemma rstrip_sep_last_sep r a :
  a <> Path.SEP -> Path.rstrip_sep ((r +:+ String a "") +:+ "/") = r +:+ String a "".
Proof.
  intros Ha. unfold Path.rstrip_sep. unfold String.rev at 2. rewrite rev_app_app.
  cbn [String.rev_app Path.lstrip_sep]. rewrite Ascii.eqb_refl.
  fold (String.rev (r +:+ String a "")).
  fold (Path.rstrip_sep (r +:+ String a "")). by apply rstrip_sep_last.
Qed.

Lemma abs_path_cons cs : abs_path cs = String "/" (Path.join_sep cs).
Proof. done. Qed.

Lemma abs_path_snoc xs c :
  abs_path (xs ++ [c]) = (if bool_decide (xs = []) then "" else abs_path xs) +:+ "/" +:+ c.
Proof.
  unfold abs_path. case_bool_decide as Hx.
  - subst xs. done.
  - rewrite join_sep_app by done. simpl. by rewrite !append_assoc.
Qed.

Lemma abs_path_app xs ys :
  xs <> [] -> ys <> [] -> abs_path (xs ++ ys) = abs_path xs +:+ "/" +:+ Path.join_sep ys.
Proof.
  intros Hx Hy. unfold abs_path. rewrite join_sep_app by done. by rewrite !append_assoc.
Qed.

Lemma abs_path_last xs c :
  plain c -> exists r a, abs_path (xs ++ [c]) = r +:+ String a "" /\ a <> Path.SEP.
Proof.
  intros Hc. destruct (join_sep_last xs c Hc) as (r & a & Hr & Ha).
  exists ("/" +:+ r), a. split; [|done]. unfold abs_path. rewrite Hr. by rewrite append_assoc.
Qed.

Lemma nonempty_snoc {A : Type} (l : list A) : l <> [] -> exists xs x, l = xs ++ [x].
Proof. destruct l as [|x l _] using rev_ind; [done|]. eauto. Qed.

Lemma fold_norm_plain k cs acc :
  Forall plain cs -> fold_left (Path.norm_step k) cs acc = rev cs ++ acc.
Proof.
  intros H. revert acc. induction H as [|c cs (Hc1 & Hc2 & Hc3 & _) _ IH]; intros acc; [done|].
  simpl. rewrite IH. unfold Path.norm_step.
  rewrite !bool_decide_eq_false_2 by done. simpl.
  by rewrite <- app_assoc.
Qed.

Lemma split_abs_path cs :
  Forall plain cs ->
  Path.split (abs_path cs) = "" :: (if bool_decide (cs = []) then [""] else cs).
Proof.
  intros H. unfold abs_path.
  change ("/" +:+ Path.join_sep cs) with ("" +:+ "/" +:+ Path.join_sep cs).
  rewrite split_app_sep. change (Path.split "") with [""]. simpl. f_equal.
  case_bool_decide as Hc; [by subst|]. apply split_join_sep; [done|by apply plain_sepfree].
Qed.

Lemma abs_path_slashes cs :
  Forall plain cs ->
  abs_path cs <> "" /\ Path.startswith (abs_path cs) "/" = true /\
  Path.startswith (abs_path cs) "//" = false.
Proof.
  intros H. rewrite abs_path_cons. split; [done|].
  split; [apply prefix_sep; eauto|].
  unfold Path.startswith. cbn [String.prefix]. destruct (Ascii.ascii_dec "/" "/"); [|done].
  destruct H as [|c cs Hc _]; [done|].
  destruct (join_sep_head c cs Hc) as (a & r & -> & Ha).
  by apply startswith_sep_cons.
Qed.

Lemma normpath_one_slash path :
  path <> "" -> Path.startswith path "/" = true -> Path.startswith path "//" = false ->
  Path.normpath path
  = "/" +:+ Path.join_sep (rev (fold_left (Path.norm_step 1) (Path.split path) [])).
Proof.
  intros Hne H1 H2. unfold Path.normpath. rewrite bool_decide_eq_false_2 by done.
  rewrite H1, H2. reflexivity.
Qed.

(** The absolute path of plain components is a normal path. *)
Lemma normpath_abs cs : Forall plain cs -> Path.normpath (abs_path cs) = abs_path cs.
Proof.
  intros H. destruct (abs_path_slashes cs H) as (Hne & Hs1 & Hs2).
  rewrite normpath_one_slash by done. rewrite split_abs_path by done.
  cbn [fold_left]. change (Path.norm_step 1 [] "") with (@nil string).
  case_bool_decide as Hc.
  - subst cs. done.
  - rewrite fold_norm_plain by done. by rewrite app_nil_r, rev_involutive.
Qed.

(** So is that path with a slash after it. *)
Lemma normpath_abs_sep cs :
  Forall plain cs -> cs <> [] -> Path.normpath (abs_path cs +:+ "/") = abs_path cs.
Proof.
  intros H Hc. destruct (abs_path_slashes cs H) as (Hne & Hs1 & Hs2).
  assert (abs_path cs +:+ "/" = String "/" (Path.join_sep cs +:+ "/")) as He by done.
  rewrite normpath_one_slash.
  - replace (abs_path cs +:+ "/") with (abs_path cs +:+ "/" +:+ "") by done.
    rewrite split_app_sep, split_abs_path by done.
    rewrite bool_decide_eq_false_2 by done. change (Path.split "") with [""].
    cbn [app fold_left]. change (Path.norm_step 1 [] "") with (@nil string).
    rewrite fold_left_app, (fold_norm_plain 1 cs []) by done. cbn [fold_left].
    rewrite app_nil_r.
    change (Path.norm_step 1 (rev cs) "") with (rev cs). by rewrite rev_involutive.
  - by rewrite He.
  - rewrite He. apply prefix_sep. eauto.
  - rewrite He. unfold Path.startswith. cbn [String.prefix].
    destruct (Ascii.ascii_dec "/" "/"); [|done].
    destruct H as [|c cs Hc' _]; [done|].
    destruct (join_sep_head c cs Hc') as (a & r & -> & Ha). rewrite append_cons.
    by apply startswith_sep_cons.
Qed.

Lemma Forall_snoc_plain xs c : Forall plain (xs ++ [c]) -> Forall plain xs /\ plain c.
Proof. rewrite Forall_app, Forall_singleton. done. Qed.

Lemma abs_path_no_trailing_sep cs :
  Forall plain cs -> cs <> [] -> Path.endswith (abs_path cs) "/" = false.
Proof.
  intros H (xs & c & ->)%nonempty_snoc.
  apply Forall_snoc_plain in H as [_ Hc].
  destruct (abs_path_last xs c Hc) as (r & a & -> & Ha). by apply endswith_sep_last.
Qed.

Lemma rstrip_sep_abs cs :
  Forall plain cs -> cs <> [] -> Path.rstrip_sep (abs_path cs) = abs_path cs.
Proof.
  intros H (xs & c & ->)%nonempty_snoc.
  apply Forall_snoc_plain in H as [_ Hc].
  destruct (abs_path_last xs c Hc) as (r & a & -> & Ha). by apply rstrip_sep_last.
Qed.

Lemma join_sep_no_leading_sep cs :
  Forall plain cs -> Path.startswith (Path.join_sep cs) "/" = false.
Proof.
  intros [|c cs' Hc _]; [done|].
  destruct (join_sep_head c cs' Hc) as (a & r & -> & Ha). by apply startswith_sep_cons.
Qed.

Lemma join_abs cs0 cs :
  Forall plain cs0 -> cs0 <> [] -> Forall plain cs -> cs <> [] ->
  Path.join (abs_path cs0) (Path.join_sep cs) = abs_path (cs0 ++ cs).
Proof.
  intros H0 Hne0 H Hne. unfold Path.join.
  rewrite join_sep_no_leading_sep by done.
  rewrite abs_path_no_trailing_sep by done.
  rewrite bool_decide_eq_false_2 by done. simpl.
  by rewrite abs_path_app.
Qed.

Lemma join_abs_nil cs0 :
  Forall plain cs0 -> cs0 <> [] -> Path.join (abs_path cs0) "" = abs_path cs0 +:+ "/".
Proof.
  intros H0 Hne0. unfold Path.join.
  rewrite abs_path_no_trailing_sep by done.
  rewrite bool_decide_eq_false_2 by done. done.
Qed.

(** Where [ZipFile.extract] puts a member, whatever its name is: at the
    plain components of the name, below the target directory. *)
Lemma targetpath_abs cs0 name :
  Forall plain cs0 -> cs0 <> [] ->
  Zipfile.targetpath (abs_path cs0) name = abs_path (cs0 ++ arc_comps name).
Proof.
  intros H0 Hne0. unfold Zipfile.targetpath, Zipfile.arcname. fold (arc_comps name).
  pose proof (arc_comps_plain name) as Ha.
  destruct (decide (arc_comps name = [])) as [->|Hne].
  - simpl. rewrite app_nil_r, join_abs_nil by done. by apply normpath_abs_sep.
  - rewrite join_abs by done. apply normpath_abs. by apply Forall_app.
Qed.

Lemma arc_comps_join_sep cs :
  Forall plain cs -> cs <> [] -> arc_comps (Path.join_sep cs) = cs.
Proof.
  intros H Hne. unfold arc_comps. rewrite split_join_sep by (by try apply plain_sepfree).
  induction H as [|c cs (? & ? & ? & _) Hcs IH]; [done|].
  rewrite filter_cons_True by done. f_equal.
  destruct cs; [done|]. by apply IH.
Qed.

Lemma prefix_app s t : String.prefix s (s +:+ t) = true.
Proof.
  induction s as [|a s IH]; [by destruct t|].
  rewrite append_cons. cbn [String.prefix]. by destruct (Ascii.ascii_dec a a).
Qed.

Lemma under_abs cs0 cs : cs0 <> [] -> under (abs_path cs0) (abs_path (cs0 ++ cs)).
Proof.
  intros Hne0. destruct (decide (cs = [])) as [->|Hne].
  - left. by rewrite app_nil_r.
  - right. rewrite abs_path_app by done. unfold Path.startswith.
    rewrite <- append_assoc. apply prefix_app.
Qed.

Lemma substring_0_app s t : String.substring 0 (String.length s) (s +:+ t) = s.
Proof. induction s as [|a s IH]; [by destruct t|]. rewrite append_cons. simpl. by rewrite IH. Qed.

Lemma rfind_sep_snoc P c :
  sepfree c = true -> Path.rfind (P +:+ "/" +:+ c) Path.SEP = Z.of_nat (String.length P).
Proof.
  intros Hc. unfold Path.rfind. rewrite rfind_from_app.
  change ("/" +:+ c) with (String "/" c). cbn [Path.rfind_from].
  change (Ascii.eqb "/" Path.SEP) with true. cbv iota.
  rewrite sepfree_rfind by done. lia.
Qed.

Lemma basename_sep_snoc P c : sepfree c = true -> Path.basename (P +:+ "/" +:+ c) = c.
Proof.
  intros Hc. unfold Path.basename, Path.drop_str. rewrite rfind_sep_snoc by done.
  rewrite <- append_assoc.
  replace (Z.to_nat (Z.of_nat (String.length P) + 1))
    with (String.length (P +:+ "/") + 0)%nat by (rewrite length_append; simpl; lia).
  rewrite substring_app_r, (length_append (P +:+ "/")).
  replace (String.length (P +:+ "/") + String.length c - (String.length (P +:+ "/") + 0))%nat
    with (String.length c) by lia.
  apply substring_0_length.
Qed.

Lemma take_sep_snoc P c :
  sepfree c = true ->
  Path.take_str (Path.rfind (P +:+ "/" +:+ c) Path.SEP + 1) (P +:+ "/" +:+ c) = P +:+ "/".
Proof.
  intros Hc. unfold Path.take_str. rewrite rfind_sep_snoc by done.
  rewrite <- append_assoc.
  replace (Z.to_nat (Z.of_nat (String.length P) + 1))
    with (String.length (P +:+ "/")) by (rewrite length_append; simpl; lia).
  apply substring_0_app.
Qed.

Lemma dirname_abs_snoc xs c :
  Forall plain xs -> plain c -> Path.dirname (abs_path (xs ++ [c])) = abs_path xs.
Proof.
  intros Hxs Hc. pose proof Hc as (_ & _ & _ & Hsf).
  rewrite abs_path_snoc. unfold Path.dirname. rewrite take_sep_snoc by done.
  destruct (decide (xs = [])) as [->|Hx].
  - done.
  - rewrite (bool_decide_eq_false_2 (xs = [])) by done.
    destruct (nonempty_snoc xs Hx) as (ys & y & ->).
    apply Forall_snoc_plain in Hxs as [Hys Hy].
    destruct (abs_path_last ys y Hy) as (r & a & Hr & Ha).
    rewrite bool_decide_eq_true_2.
    2:{ rewrite abs_path_cons. by rewrite append_cons. }
    rewrite bool_decide_eq_false_2.
    2:{ rewrite abs_path_cons, append_cons. cbn [Path.lstrip_sep].
        change (Ascii.eqb "/" Path.SEP) with true. cbv iota.
        assert (Forall plain (ys ++ [y])) as Hall
            by (apply Forall_app; split; [done|by constructor]).
        destruct (ys ++ [y]) as [|z zs] eqn:Hz; [by destruct ys|].
        apply Forall_cons in Hall as [Hz1 _].
        destruct (join_sep_head z zs Hz1) as (b & q & -> & Hb).
        rewrite append_cons, lstrip_sep_cons by done. done. }
    simpl. rewrite Hr. by apply rstrip_sep_last_sep.
Qed.

Lemma basename_abs_snoc xs c : plain c -> Path.basename (abs_path (xs ++ [c])) = c.
Proof.
  intros (_ & _ & _ & Hsf). rewrite abs_path_snoc. by apply basename_sep_snoc.
Qed.

(** In a scratch directory given by plain components, an entry named by
    plain components is read back from the file it was extracted to. *)
Lemma zip_reads_back_plain cs0 cs :
  Forall plain cs0 -> cs0 <> [] -> Forall plain cs -> cs <> [] ->
  zip_reads_back (abs_path cs0) (Path.join_sep cs).
Proof.
  intros H0 Hne0 H Hne. unfold zip_reads_back.
  rewrite targetpath_abs, arc_comps_join_sep, join_abs by done.
  assert (Forall plain (cs0 ++ cs)) as Hall by (by apply Forall_app).
  split; [by rewrite !normpath_abs|]. split.
  - apply abs_path_no_trailing_sep; [done|]. by destruct cs0.
  - by rewrite abs_path_cons.
Qed.

(** * What stays within the scratch directory *)

Lemma fs_confined_refl D w : fs_confined D w w.
Proof. by split. Qed.

Lemma fs_confined_trans D w1 w2 w3 :
  fs_confined D w1 w2 -> fs_confined D w2 w3 -> fs_confined D w1 w3.
Proof.
  intros [H1 K1] [H2 K2]. split.
  - intros k Hk. by rewrite H2, H1.
  - intros k i Hi Hb. apply K2; [|done]. by apply K1.
Qed.

Lemma isdir_confined D w w' p :
  fs_confined D w w' -> OS.isdir w p = true -> OS.isdir w' p = true.
Proof.
  intros [_ K]. unfold OS.isdir, OS.node_at, OS.lookup_key.
  case_bool_decide; [done|].
  destruct (OS.implicit_dir (Path.normpath p)); [done|].
  destruct (w_fs w !! Path.normpath p) as [i|] eqn:Hi; [|done].
  destruct (i_body i) eqn:Hb.
  - destruct (Path.endswith p "/"); simpl; rewrite ?Hb; done.
  - intros _. rewrite (K _ _ Hi Hb), Hb. simpl. by rewrite Hb.
  - destruct (Path.endswith p "/"); simpl; rewrite ?Hb; done.
Qed.

Lemma scratch_ready_confined D w w' :
  fs_confined D w w' -> scratch_ready w D -> scratch_ready w' D.
Proof. intros Hc [H1 H2]. split; by eapply isdir_confined. Qed.

Lemma isdir_exists w p : OS.isdir w p = true -> OS.exists_ w p = true.
Proof.
  unfold OS.isdir, OS.exists_. destruct (OS.node_at w p); [|done].
  intros _. apply bool_decide_eq_true. eauto.
Qed.

Lemma fs_confined_bind_at {A B : Type} D (m : M A) (f : A -> M B) w :
  fs_confined D w (world_of (m w)) ->
  (forall a w1, m w = Ok a w1 -> fs_confined D w1 (world_of (f a w1))) ->
  fs_confined D w (world_of (bind m f w)).
Proof.
  intros Hm Hf. unfold bind. destruct (m w) as [a w1|e w1]; simpl in *; [|done].
  eapply fs_confined_trans; [exact Hm|]. by apply Hf.
Qed.

Lemma confined_bind {A B : Type} D (m : M A) (f : A -> M B) :
  confined D m -> (forall a, confined D (f a)) -> confined D (bind m f).
Proof.
  intros Hm Hf w Hr. apply fs_confined_bind_at; [by apply Hm|].
  intros a w1 Hw1. apply Hf. eapply scratch_ready_confined; [|exact Hr].
  specialize (Hm w Hr). by rewrite Hw1 in Hm.
Qed.

(** A computation that leaves the file system as it is. *)
Lemma confined_reads {A : Type} D (m : M A) :
  (forall w, w_fs (world_of (m w)) = w_fs w) -> confined D m.
Proof. intros H w _. split; intros; by rewrite H. Qed.

Lemma confined_ret {A : Type} D (a : A) : confined D (ret a).
Proof. by apply confined_reads. Qed.

Lemma confined_raise {A : Type} D e : confined D (@raise A e).
Proof. by apply confined_reads. Qed.

Lemma confined_logging D lvl msg : confined D (logging lvl msg).
Proof. by apply confined_reads. Qed.

Lemma confined_path_isfile D p : confined D (OS.path_isfile p).
Proof. by apply confined_reads. Qed.

Lemma confined_path_isdir D p : confined D (OS.path_isdir p).
Proof. by apply confined_reads. Qed.

Lemma confined_path_exists D p : confined D (OS.path_exists p).
Proof. by apply confined_reads. Qed.

Lemma confined_zip_open_rc D f : confined D (Zipfile.open_rc f).
Proof. apply confined_reads. intros w. unfold Zipfile.open_rc. by repeat case_match. Qed.

Lemma confined_zip_open_r D f : confined D (Zipfile.open_r f).
Proof. apply confined_reads. intros w. by rewrite zip_open_r_world. Qed.

Lemma confined_if {A : Type} D (b : bool) (m1 m2 : M A) :
  confined D m1 -> confined D m2 -> confined D (if b then m1 else m2).
Proof. by destruct b. Qed.

Lemma confined_mkdir D p mode : under D (Path.normpath p) -> confined D (OS.mkdir p mode).
Proof.
  intros Hu w _. unfold OS.mkdir.
  destruct (OS.exists_ w p) eqn:Hex; [apply fs_confined_refl|].
  destruct (negb (OS.parent_ok w (Path.normpath p))); [apply fs_confined_refl|].
  case_bool_decide as Hp; [apply fs_confined_refl|]. simpl.
  split; intros k.
  - intros Hk. apply lookup_insert_ne. by intros <-.
  - intros i Hi Hb. simpl. rewrite lookup_insert_ne; [done|]. intros <-.
    apply bool_decide_eq_false in Hex. apply Hex.
    unfold OS.node_at, OS.lookup_key. rewrite bool_decide_eq_false_2 by done.
    destruct (OS.implicit_dir (Path.normpath p)); [simpl; eauto|].
    rewrite Hi, Hb. eauto.
Qed.

Lemma confined_write_file D p d :
  under D (Path.normpath p) -> confined D (OS.write_file p d).
Proof.
  intros Hu w _. unfold OS.write_file.
  destruct (bool_decide (p = "") || Path.endswith p "/"); [apply fs_confined_refl|].
  unfold OS.lookup_key.
  destruct (OS.implicit_dir (Path.normpath p)) eqn:Him; [apply fs_confined_refl|].
  destruct (w_fs w !! Path.normpath p) as [i|] eqn:Hi.
  - destruct (i_body i) eqn:Hb; try apply fs_confined_refl. simpl.
    split; intros k.
    + intros Hk. apply lookup_insert_ne. by intros <-.
    + intros i0 Hi0 Hb0. simpl. rewrite lookup_insert_ne; [done|]. intros <-. congruence.
  - destruct (OS.is_dir_key w (Path.normpath p) || negb (OS.parent_ok w (Path.normpath p)));
      [apply fs_confined_refl|]. simpl.
    split; intros k.
    + intros Hk. apply lookup_insert_ne. by intros <-.
    + intros i0 Hi0 Hb0. simpl. rewrite lookup_insert_ne; [done|]. intros <-. congruence.
Qed.

(** [makedirs] of a path below the scratch directory makes directories
    below the scratch directory only. *)
Lemma confined_makedirs_go cs0 fuel cs :
  Forall plain cs0 -> cs0 <> [] -> Forall plain cs -> cs <> [] ->
  confined (abs_path cs0) (OS.makedirs_go fuel (abs_path (cs0 ++ cs))).
Proof.
  intros H0 Hne0. revert cs. induction fuel as [|fuel IH]; intros cs Hcs Hne.
  - simpl. apply confined_mkdir. rewrite normpath_abs by (by apply Forall_app).
    by apply under_abs.
  - intros w Hr. rewrite makedirs_go_S. cbv zeta.
    destruct (nonempty_snoc cs Hne) as (ys & c & ->).
    apply Forall_snoc_plain in Hcs as [Hys Hc].
    assert (Forall plain (cs0 ++ ys)) as Hall by (by apply Forall_app).
    assert (confined (abs_path cs0) (OS.mkdir (abs_path (cs0 ++ ys ++ [c])) 511)) as Hmk.
    { apply confined_mkdir. rewrite normpath_abs; [by apply under_abs|].
      apply Forall_app. split; [done|]. apply Forall_app. split; [done|by constructor]. }
    rewrite rstrip_sep_abs;
      [|apply Forall_app; split; [done|]; apply Forall_app; split; [done|by constructor]
       |by destruct cs0].
    rewrite app_assoc, dirname_abs_snoc, basename_abs_snoc by done.
    rewrite <- app_assoc.
    destruct (bool_decide (abs_path (cs0 ++ ys) <> "") && bool_decide (c <> "")
              && negb (OS.exists_ w (abs_path (cs0 ++ ys)))) eqn:Hcond; [|by apply Hmk].
    apply andb_prop in Hcond as [_ Hex%negb_true_iff].
    destruct (decide (ys = [])) as [->|Hys'].
    { rewrite app_nil_r in Hex. destruct Hr as [Hr _]. apply isdir_exists in Hr. congruence. }
    specialize (IH ys Hys Hys' w Hr).
    unfold try_catch.
    destruct (OS.makedirs_go fuel (abs_path (cs0 ++ ys)) w) as [a w1|e w1]; simpl in IH.
    + eapply fs_confined_trans; [exact IH|].
      assert (scratch_ready w1 (abs_path cs0)) as Hr1
          by (eapply scratch_ready_confined; [exact IH|exact Hr]).
      case_bool_decide; [apply fs_confined_refl|]. by apply Hmk.
    + destruct (OS.exists_ w1 (abs_path (cs0 ++ ys))); [|done].
      eapply fs_confined_trans; [exact IH|].
      assert (scratch_ready w1 (abs_path cs0)) as Hr1
          by (eapply scratch_ready_confined; [exact IH|exact Hr]).
      case_bool_decide; [apply fs_confined_refl|]. by apply Hmk.
Qed.

(** [ZipFile.extract] into the scratch directory writes below the
    scratch directory, whatever the name of the member. *)
Lemma confined_zip_extract cs0 item :
  Forall plain cs0 -> cs0 <> [] ->
  confined (abs_path cs0) (Zipfile.extract item (abs_path cs0)).
Proof.
  intros H0 Hne0 w Hr. unfold Zipfile.extract. rewrite targetpath_abs by done.
  pose proof (arc_comps_plain (zi_filename item.1)) as Ha.
  set (arc := arc_comps (zi_filename item.1)) in *.
  assert (Forall plain (cs0 ++ arc)) as Hall by (by apply Forall_app).
  assert (under (abs_path cs0) (Path.normpath (abs_path (cs0 ++ arc)))) as Hu
      by (rewrite normpath_abs by done; by apply under_abs).
  unfold bind at 1, OS.path_exists at 1.
  apply fs_confined_bind_at.
  - (* the directories above the target *)
    destruct (bool_decide (Path.dirname (abs_path (cs0 ++ arc)) <> "")
              && negb (OS.exists_ w (Path.dirname (abs_path (cs0 ++ arc))))) eqn:Hcond;
      [|apply fs_confined_refl].
    apply andb_prop in Hcond as [_ Hex%negb_true_iff].
    destruct (decide (arc = [])) as [Harc|Harc].
    { rewrite Harc, app_nil_r in Hex. destruct Hr as [_ Hr]. apply isdir_exists in Hr.
      congruence. }
    destruct (nonempty_snoc arc Harc) as (ys & c & Hys). rewrite Hys in *.
    apply Forall_snoc_plain in Ha as [Hys1 Hc].
    rewrite app_assoc in Hex |- *.
    rewrite dirname_abs_snoc in Hex |- * by (by try apply Forall_app).
    destruct (decide (ys = [])) as [->|Hys'].
    { rewrite app_nil_r in Hex. destruct Hr as [Hr _]. apply isdir_exists in Hr. congruence. }
    unfold OS.makedirs. by apply confined_makedirs_go.
  - intros [] w1 Hw1.
    assert (scratch_ready w1 (abs_path cs0)) as Hr1.
    { eapply scratch_ready_confined; [|exact Hr].
      destruct (bool_decide (Path.dirname (abs_path (cs0 ++ arc)) <> "")
                && negb (OS.exists_ w (Path.dirname (abs_path (cs0 ++ arc))))) eqn:Hcond.
      - destruct (decide (arc = [])) as [Harc|Harc].
        { exfalso. apply andb_prop in Hcond as [_ Hex%negb_true_iff].
          rewrite Harc, app_nil_r in Hex. destruct Hr as [_ Hr]. apply isdir_exists in Hr.
          congruence. }
        destruct (nonempty_snoc arc Harc) as (ys & c & Hys). rewrite Hys in *.
        apply Forall_snoc_plain in Ha as [Hys1 Hc].
        rewrite app_assoc in Hcond, Hw1.
        rewrite dirname_abs_snoc in Hcond, Hw1 by (by try apply Forall_app).
        destruct (decide (ys = [])) as [->|Hys'].
        { exfalso. apply andb_prop in Hcond as [_ Hex%negb_true_iff].
          rewrite app_nil_r in Hex. destruct Hr as [Hr _]. apply isdir_exists in Hr.
          congruence. }
        pose proof (confined_makedirs_go cs0 (String.length (abs_path (cs0 ++ ys))) ys
                      H0 Hne0 Hys1 Hys' w Hr) as Hm.
        unfold OS.makedirs in Hw1. by rewrite Hw1 in Hm.
      - injection Hw1 as <-. apply fs_confined_refl. }
    revert w1 Hr1 Hw1.
    assert (confined (abs_path cs0)
              (if Path.endswith (zi_filename item.1) "/"
               then let* isd := OS.path_isdir (abs_path (cs0 ++ arc)) in
                    if isd then ret tt else OS.mkdir (abs_path (cs0 ++ arc)) 511
               else OS.write_file (abs_path (cs0 ++ arc)) item.2)) as Hc2.
    { destruct (Path.endswith (zi_filename item.1) "/").
      - apply confined_bind; [apply confined_path_isdir|].
        intros isd. apply confined_if; [apply confined_ret|by apply confined_mkdir].
      - by apply confined_write_file. }
    intros w1 Hr1 _. by apply Hc2.
Qed.

Lemma node_at_confined D w w' p :
  fs_confined D w w' -> ~ under D (Path.normpath p) -> OS.node_at w' p = OS.node_at w p.
Proof.
  intros [H _] Hu. unfold OS.node_at, OS.lookup_key. by rewrite H.
Qed.

Lemma confined_for_each_return {A S R : Type} D (body : S -> A -> M (flow S R)) l s :
  (forall s x, confined D (body s x)) -> confined D (for_each_return body l s).
Proof.
  intros Hb. revert s. induction l as [|x l IH]; intros s; simpl.
  - apply confined_ret.
  - apply confined_bind; [apply Hb|]. intros [s'|r]; [apply IH|apply confined_ret].
Qed.

Lemma confined_for_each {A S : Type} D (body : S -> A -> M S) l s :
  (forall s x, confined D (body s x)) -> confined D (for_each body l s).
Proof.
  intros Hb. revert s. induction l as [|x l IH]; intros s; simpl.
  - apply confined_ret.
  - apply confined_bind; [apply Hb|]. intros s'. apply IH.
Qed.

Section Confinement.

Variable create_class_file : string -> bool -> bool -> content -> option child.
Variable cfile_is_clean : child -> content -> reply bool.
Variable cfile_get_meta : child -> content -> reply (gmap string pyval).
Variable py_str : gmap string pyval -> string.

Lemma confined_create_class_file_at D p bak a2a :
  confined D (create_class_file_at create_class_file p bak a2a).
Proof.
  apply confined_reads. intros w. unfold create_class_file_at. by repeat case_match.
Qed.

Lemma confined_child_is_clean D c p : confined D (child_is_clean cfile_is_clean c p).
Proof. apply confined_reads. intros w. unfold child_is_clean. by repeat case_match. Qed.

Lemma confined_child_get_meta D c p : confined D (child_get_meta cfile_get_meta c p).
Proof. apply confined_reads. intros w. unfold child_get_meta. by repeat case_match. Qed.

Ltac confined_steps :=
  repeat first
    [ apply confined_ret | apply confined_raise | apply confined_logging
    | apply confined_path_isfile | apply confined_path_isdir | apply confined_path_exists
    | apply confined_create_class_file_at | apply confined_child_is_clean
    | apply confined_child_get_meta | apply confined_zip_open_rc | apply confined_zip_open_r
    | apply confined_if
    | apply confined_bind; [|intros ?]
    | match goal with |- confined _ (match ?x with Some _ => _ | None => _ end) =>
        destruct x end
    | match goal with |- confined _ (match ?x with Return _ => _ | Next _ => _ end) =>
        destruct x end ].

Lemma confined_zip_is_clean_item cs0 self lu rl item :
  tempdir self = abs_path cs0 -> Forall plain cs0 -> cs0 <> [] ->
  confined (abs_path cs0)
    (zip_is_clean_item create_class_file cfile_is_clean self lu rl item).
Proof.
  intros Ht H0 Hne0. unfold zip_is_clean_item. rewrite Ht.
  apply confined_bind; [by apply confined_zip_extract|]. intros _. confined_steps.
Qed.

Lemma confined_zip_get_meta_item cs0 self metadata item :
  tempdir self = abs_path cs0 -> Forall plain cs0 -> cs0 <> [] ->
  confined (abs_path cs0)
    (zip_get_meta_item create_class_file cfile_get_meta py_str self metadata item).
Proof.
  intros Ht H0 Hne0. unfold zip_get_meta_item. rewrite Ht.
  apply confined_bind; [by apply confined_zip_extract|]. intros _. confined_steps.
Qed.

Lemma confined_ZipStripper_is_clean cs0 self lu :
  tempdir self = abs_path cs0 -> Forall plain cs0 -> cs0 <> [] ->
  confined (abs_path cs0) (ZipStripper_is_clean create_class_file cfile_is_clean self lu).
Proof.
  intros Ht H0 Hne0. unfold ZipStripper_is_clean.
  apply confined_bind; [apply confined_zip_open_rc|]. intros zipin.
  apply confined_if; [confined_steps|].
  apply confined_bind.
  - apply confined_for_each_return. intros s x. by apply confined_zip_is_clean_item.
  - intros f. confined_steps.
Qed.

Lemma confined_ZipStripper_get_meta cs0 self :
  tempdir self = abs_path cs0 -> Forall plain cs0 -> cs0 <> [] ->
  confined (abs_path cs0) (ZipStripper_get_meta create_class_file cfile_get_meta py_str self).
Proof.
  intros Ht H0 Hne0. unfold ZipStripper_get_meta.
  apply confined_bind; [apply confined_zip_open_rc|]. intros zipin.
  apply confined_for_each. intros s x. by apply confined_zip_get_meta_item.
Qed.


(** X14. The checks of the two office formats are the check of the ZIP
    archive and a look at the names of its entries. With the scratch
    directory as above and the document outside of it: when the check of
    the format returns, so did [ZipStripper.is_clean], in the same world;
    the check returns false where that one did, and otherwise it returns
    whether the document has no entry [meta.xml], for an OpenDocument, or no
    entry whose name starts with [docProps/], for an Office OpenXML
    document. *)
Theorem office_is_clean_is_zip_check_and_names cs0 self w b w' :
  tempdir self = abs_path cs0 -> Forall plain cs0 -> cs0 <> [] ->
  scratch_ready w (tempdir self) ->
  ~ under (tempdir self) (Path.normpath (filename self)) ->
  (OpenDocumentStripper_is_clean create_class_file cfile_is_clean self w = Ok b w' ->
   exists c l r,
     data_at w (filename self) = Some (ZipData c l) /\
     ZipStripper_is_clean create_class_file cfile_is_clean self false w = Ok r w' /\
     b = match r with
         | Clean false => false
         | _ => bool_decide ("meta.xml" ∉ Zipfile.namelist l)
         end) /\
  (OpenXmlStripper_is_clean create_class_file cfile_is_clean self w = Ok b w' ->
   exists c l r,
     data_at w (filename self) = Some (ZipData c l) /\
     ZipStripper_is_clean create_class_file cfile_is_clean self false w = Ok r w' /\
     b = match r with
         | Clean false => false
         | _ => negb (existsb (fun item => Path.startswith item "docProps/")
                        (Zipfile.namelist l))
         end).
Proof.
  intros Ht H0 Hne0 Hr Hout.
  assert (forall r w1,
             ZipStripper_is_clean create_class_file cfile_is_clean self false w = Ok r w1 ->
             exists c l, data_at w (filename self) = Some (ZipData c l) /\
                         data_at w1 (filename self) = data_at w (filename self)) as Hsuper.
  { intros r w1 Hz.
    pose proof (confined_ZipStripper_is_clean cs0 self false Ht H0 Hne0 w) as Hc.
    rewrite Ht in Hr. specialize (Hc Hr). rewrite Hz in Hc. simpl in Hc.
    unfold ZipStripper_is_clean in Hz.
    apply bind_Ok in Hz as ([c l] & w2 & [Hd ->]%zip_open_rc_data & _).
    exists c, l. split; [done|].
    unfold data_at. rewrite <- Ht in Hc. by rewrite (node_at_confined _ _ _ _ Hc Hout). }
  split.
  - intros H. unfold OpenDocumentStripper_is_clean in H.
    apply bind_Ok in H as (r & w1 & Hz & H).
    destruct (Hsuper _ _ Hz) as (c & l & Hd & Hsame).
    exists c, l, r. split; [done|].
    assert ((let* zipin := Zipfile.open_r (filename self) in
             match Zipfile.getinfo zipin "meta.xml" with
             | Some _ => ret false
             | None => ret true
             end) w1 = Ok b w' ->
            w' = w1 /\ b = bool_decide ("meta.xml" ∉ Zipfile.namelist l)) as Hnames.
    { intros Hk. apply bind_Ok in Hk as (l' & w2 & [[c' Hd'] ->]%zip_open_r_data & Hk).
      rewrite Hsame, Hd in Hd'. injection Hd' as <- <-.
      assert (Zipfile.getinfo l "meta.xml" = None <-> "meta.xml" ∉ Zipfile.namelist l) as Hg.
      { unfold Zipfile.getinfo, Zipfile.namelist. rewrite last_None. split.
        - intros Hf Hin. apply list_elem_of_fmap in Hin as (e & He & Hin).
          assert (e.1 ∈ filter (fun z => zi_filename z = "meta.xml") l.*1) as Hx.
          { apply list_elem_of_filter. split; [done|]. apply list_elem_of_fmap. eauto. }
          rewrite Hf in Hx. by apply elem_of_nil in Hx.
        - intros Hn. apply elem_of_nil_inv. intros z [Hz1 Hz2]%list_elem_of_filter.
          apply list_elem_of_fmap in Hz2 as (e & -> & He). apply Hn.
          apply list_elem_of_fmap. exists e. done. }
      destruct (Zipfile.getinfo l "meta.xml") eqn:Hgi; apply ret_Ok in Hk as [<- <-].
      - split; [done|]. symmetry. apply bool_decide_eq_false. intros Hn.
        apply Hg in Hn. discriminate.
      - split; [done|]. symmetry. apply bool_decide_eq_true. by apply Hg. }
    destruct r as [[]|names].
    + destruct (Hnames H) as [-> ->]. done.
    + apply ret_Ok in H as [<- <-]. done.
    + destruct (Hnames H) as [-> ->]. done.
  - intros H. unfold OpenXmlStripper_is_clean in H.
    apply bind_Ok in H as (r & w1 & Hz & H).
    destruct (Hsuper _ _ Hz) as (c & l & Hd & Hsame).
    exists c, l, r. split; [done|].
    assert ((let* zipin := Zipfile.open_r (filename self) in
             if existsb (fun item => Path.startswith item "docProps/") (Zipfile.namelist zipin)
             then ret false else ret true) w1 = Ok b w' ->
            w' = w1 /\
            b = negb (existsb (fun item => Path.startswith item "docProps/")
                        (Zipfile.namelist l))) as Hnames.
    { intros Hk. apply bind_Ok in Hk as (l' & w2 & [[c' Hd'] ->]%zip_open_r_data & Hk).
      rewrite Hsame, Hd in Hd'. injection Hd' as <- <-.
      destruct (existsb _ _); apply ret_Ok in Hk as [<- <-]; done. }
    destruct r as [[]|names].
    + destruct (Hnames H) as [-> ->]. done.
    + apply ret_Ok in H as [<- <-]. done.
    + destruct (Hnames H) as [-> ->]. done.
Qed.

(** X15. [OpenXmlStripper.get_meta] is the report of the ZIP archive with the
    parts of [docProps] marked. With the scratch directory as above and the
    document outside of it: when it returns, so did [ZipStripper.get_meta],
    in the same world, and the report is that one with every name of the
    document that starts with [docProps/] set to [harmful content], over
    what the stripper of that part reported under the same key. *)
Theorem OpenXmlStripper_get_meta_marks_docProps cs0 self w m w' :
  tempdir self = abs_path cs0 -> Forall plain cs0 -> cs0 <> [] ->
  scratch_ready w (tempdir self) ->
  ~ under (tempdir self) (Path.normpath (filename self)) ->
  OpenXmlStripper_get_meta create_class_file cfile_get_meta py_str self w = Ok m w' ->
  exists c l m0,
    data_at w (filename self) = Some (ZipData c l) /\
    ZipStripper_get_meta create_class_file cfile_get_meta py_str self w = Ok m0 w' /\
    forall k, m !! k = if bool_decide (k ∈ Zipfile.namelist l) && Path.startswith k "docProps/"
                       then Some "harmful content" else m0 !! k.
Proof.
  intros Ht H0 Hne0 Hr Hout H. unfold OpenXmlStripper_get_meta in H.
  apply bind_Ok in H as (m0 & w1 & Hz & H).
  pose proof (confined_ZipStripper_get_meta cs0 self Ht H0 Hne0 w) as Hc.
  rewrite Ht in Hr. specialize (Hc Hr). rewrite Hz in Hc. simpl in Hc.
  assert (exists c l, data_at w (filename self) = Some (ZipData c l)) as (c & l & Hd).
  { unfold ZipStripper_get_meta in Hz.
    apply bind_Ok in Hz as ([c l] & w2 & [Hd ->]%zip_open_rc_data & _). eauto. }
  assert (data_at w1 (filename self) = data_at w (filename self)) as Hsame.
  { unfold data_at. rewrite <- Ht in Hc. by rewrite (node_at_confined _ _ _ _ Hc Hout). }
  apply bind_Ok in H as (l' & w2 & [[c' Hd'] ->]%zip_open_r_data & H).
  rewrite Hsame, Hd in Hd'. injection Hd' as <- <-.
  apply ret_Ok in H as [<- <-].
  exists c, l, m0. split; [done|]. split; [done|].
  intros k. generalize (Zipfile.namelist l) as names. clear.
  intros names. revert m0. induction names as [|n names IH]; intros m0; [done|].
  cbn [fold_left]. rewrite IH.
  destruct (bool_decide (k ∈ names) && Path.startswith k "docProps/") eqn:Hin.
  - apply andb_prop in Hin as [Hin%bool_decide_eq_true Hs].
    rewrite bool_decide_eq_true_2 by (by right). by rewrite Hs.
  - destruct (decide (k = n)) as [->|Hne].
    + rewrite bool_decide_eq_true_2 by left. simpl.
      destruct (Path.startswith n "docProps/"); [by rewrite lookup_insert_eq|done].
    + assert (bool_decide (k ∈ n :: names) = bool_decide (k ∈ names)) as ->.
      { apply bool_decide_ext. rewrite elem_of_cons. split; [intros [?|?]; [done|done]|by right]. }
      rewrite Hin.
      destruct (Path.startswith n "docProps/"); [by rewrite lookup_insert_ne|done].
Qed.

End Confinement.

(** * The parts of a package that have no extension *)

Lemma package_part_ext dir name :
  Path.basename name ∈ ["mimetype"; ".rels"] ->
  (Path.splitext (Path.join dir name)).2 = "".
Proof.
  intros H. rewrite splitext_join_ext, splitext_basename_ext.
  apply elem_of_cons in H as [->|H]; [done|].
  apply elem_of_cons in H as [->|H]; [done|]. by apply elem_of_nil in H.
Qed.

Lemma empty_ext_not_NOMETA : "" ∉ NOMETA.
Proof. intros H. vm_compute in H. discriminate. Qed.

Section PackageParts.

Variable create_class_file : string -> bool -> bool -> content -> option child.
Variable cfile_is_clean : child -> content -> reply bool.

(** A turn of the ZIP rebuild for an entry that a blacklist matches. *)
Lemma zip_item_blacklisted self wl bb eb zipout item w w1 :
  Zipfile.extract item (tempdir self) w = Ok tt w1 ->
  existsb (fun f => Path.startswith (zi_filename item.1) f) bb
  || existsb (fun f => Path.endswith (zi_filename item.1) f) eb = true ->
  zip_item create_class_file self wl bb eb zipout item w = Ok zipout w1.
Proof.
  intros Hext Hbl. unfold zip_item. rewrite (bind_Ok_eq _ _ _ _ _ Hext).
  unfold bind, OS.path_isfile.
  destruct (existsb _ bb); simpl in *; [by rewrite andb_false_r|].
  rewrite Hbl. simpl. by rewrite andb_false_r.
Qed.

(** X16. The rebuild drops what the check accepts. An entry whose base name
    is [mimetype] or [.rels], such as the [mimetype] of an OpenDocument and
    the [_rels/.rels] of an Office OpenXML document, has no extension. When
    no stripper takes it, [add2archive] is unset and its full name is not
    in the whitelist, a turn of the rebuild leaves it out of the output,
    whatever the blacklists are; a turn of [is_clean] for the same entry,
    with a clean envelope, goes on to the next entry. *)
Theorem package_parts_dropped self wl bb eb zipout rl item w w1 d :
  let name := zi_filename item.1 in
  let path := Path.join (tempdir self) name in
  Path.basename name ∈ ["mimetype"; ".rels"] ->
  name ∉ wl -> add2archive self = false ->
  Zipfile.extract item (tempdir self) w = Ok tt w1 ->
  data_at w1 path = Some d ->
  create_class_file path false false d = None ->
  (exists w', zip_item create_class_file self wl bb eb zipout item w = Ok zipout w') /\
  (is_zipfile_clean item.1 = true ->
   exists w', zip_is_clean_item create_class_file cfile_is_clean self false rl item w
              = Ok (Next rl) w').
Proof.
  intros name path Hbase Hwl Ha Hext Hd Hfac.
  pose proof (package_part_ext (tempdir self) name Hbase) as Hx. fold path in Hx.
  pose proof Hd as (i & Hi & Hbi)%data_at_Some.
  assert (OS.isfile w1 path = true) as Hisf by (apply isfile_data_at; eauto).
  split.
  - destruct (existsb (fun f => Path.startswith name f) bb
              || existsb (fun f => Path.endswith name f) eb) eqn:Hbl.
    + exists w1. by apply zip_item_blacklisted.
    + apply orb_false_elim in Hbl as [Hb He].
      assert (~ blacklisted bb eb name) as Hnb by (by apply not_blacklisted_existsb).
      pose proof (zip_item_no_stripper_data create_class_file self wl bb eb zipout item w w1 d)
        as Hl.
      cbv zeta in Hl. rewrite Ha in Hl. destruct (Hl Hext Hd Hnb Hfac) as (w' & Hz).
      exists w'. rewrite Hz. fold name path.
      rewrite Hx, (bool_decide_eq_false_2 _ empty_ext_not_NOMETA).
      by rewrite bool_decide_eq_false_2.
  - intros Hclean. unfold zip_is_clean_item. rewrite (bind_Ok_eq _ _ _ _ _ Hext).
    rewrite Hclean. simpl.
    unfold bind at 1, OS.path_isfile at 1. fold name path. rewrite Hisf.
    rewrite (bind_Ok_eq _ _ _ _ _
               (create_class_file_at_eval create_class_file _ _ _ _ _ _ Hi Hbi)).
    rewrite Ha, Hfac.
    unfold bind at 1, logging at 1.
    rewrite (bool_decide_eq_true_2 _ Hbase). simpl. unfold ret. eauto.
Qed.

(** X17. What the rebuild keeps without a stripper, the check accepts without
    a stripper. With [add2archive] unset and a whitelist that holds at most
    [.rels], as in the rebuilds of the three ZIP strippers, an entry that a
    turn of the rebuild wrote for want of a stripper is one that a turn of
    [is_clean], in whatever scratch directory, lets pass for want of a
    stripper. *)
Theorem kept_without_stripper_is_accepted self wl bb eb zipout item w w1 d out w' :
  let name := zi_filename item.1 in
  let path := Path.join (tempdir self) name in
  (forall n, n ∈ wl -> n = ".rels") -> add2archive self = false ->
  Zipfile.extract item (tempdir self) w = Ok tt w1 ->
  data_at w1 path = Some d -> ~ blacklisted bb eb name ->
  create_class_file path false false d = None ->
  zip_item create_class_file self wl bb eb zipout item w = Ok out w' ->
  out <> zipout ->
  out = zipout ++ [(clean_zinfo name, d)] /\
  forall self' rl v v1 d',
    Zipfile.extract (clean_zinfo name, d) (tempdir self') v = Ok tt v1 ->
    data_at v1 (Path.join (tempdir self') name) = Some d' ->
    create_class_file (Path.join (tempdir self') name) false (add2archive self') d' = None ->
    exists v',
      zip_is_clean_item create_class_file cfile_is_clean self' false rl (clean_zinfo name, d) v
      = Ok (Next rl) v'.
Proof.
  intros name path Hwl Ha Hext Hd Hbl Hfac Hz Hkept.
  pose proof (zip_item_no_stripper_data create_class_file self wl bb eb zipout item w w1 d)
    as Hl.
  cbv zeta in Hl. rewrite Ha in Hl. destruct (Hl Hext Hd Hbl Hfac) as (w'' & Hz').
  rewrite Hz' in Hz. injection Hz as <- <-. fold name path in Hkept |- *.
  destruct (bool_decide (name ∈ wl) || false
            || bool_decide ((Path.splitext path).2 ∈ NOMETA)) eqn:Hk; [|done].
  split; [done|].
  intros self' rl v v1 d' Hext' Hd' Hfac'.
  pose proof Hd' as (i & Hi & Hbi)%data_at_Some.
  assert (OS.isfile v1 (Path.join (tempdir self') name) = true) as Hisf
      by (apply isfile_data_at; eauto).
  unfold zip_is_clean_item. rewrite (bind_Ok_eq _ _ _ _ _ Hext'). simpl.
  unfold bind at 1, OS.path_isfile at 1. rewrite Hisf.
  rewrite (bind_Ok_eq _ _ _ _ _
             (create_class_file_at_eval create_class_file _ _ _ _ _ _ Hi Hbi)).
  rewrite Hfac'. unfold bind at 1, logging at 1.
  rewrite orb_false_r in Hk. apply orb_prop in Hk as [Hk|Hk].
  - apply bool_decide_eq_true in Hk. apply Hwl in Hk. rewrite Hk.
    rewrite bool_decide_eq_true_2 by (right; left).
    simpl. unfold ret. eauto.
  - unfold path in Hk. rewrite splitext_join_ext in Hk.
    rewrite splitext_join_ext, Hk.
    destruct (negb (bool_decide _)); simpl; unfold ret; eauto.
Qed.

End PackageParts.

(** * The rebuild of an ordinary archive *)

Lemma join_sep_no_trailing_sep cs :
  Forall plain cs -> cs <> [] -> Path.endswith (Path.join_sep cs) "/" = false.
Proof.
  intros H (xs & c & ->)%nonempty_snoc. apply Forall_snoc_plain in H as [_ Hc].
  destruct (join_sep_last xs c Hc) as (r & a & -> & Ha). by apply endswith_sep_last.
Qed.

Section OrdinaryArchives.

Variable create_class_file : string -> bool -> bool -> content -> option child.

(** A turn of the rebuild for an ordinary entry appends what
    [zip_entry_rebuilt] says, whatever the world is. *)
Lemma zip_item_ordinary cs0 self wl bb eb zipout item w out w' :
  tempdir self = abs_path cs0 -> Forall plain cs0 -> cs0 <> [] ->
  ordinary_name (zi_filename item.1) ->
  zip_item create_class_file self wl bb eb zipout item w = Ok out w' ->
  out = zipout ++ zip_entry_rebuilt create_class_file self wl bb eb item.
Proof.
  intros Ht H0 Hne0 Hname Hz.
  assert (exists w1, Zipfile.extract item (tempdir self) w = Ok tt w1) as [w1 Hext].
  { unfold zip_item in Hz. apply bind_Ok in Hz as ([] & w1 & Hext & _). eauto. }
  unfold zip_entry_rebuilt.
  destruct (Path.endswith (zi_filename item.1) "/") eqn:Hend.
  { (* a directory entry *)
    simpl. rewrite app_nil_r.
    revert Hz. unfold zip_item. rewrite (bind_Ok_eq _ _ _ _ _ Hext).
    unfold bind, OS.path_isfile.
    rewrite isfile_trailing_sep by (by apply endswith_sep_join). simpl.
    by intros [= <- _]. }
  destruct Hname as [Hname|(cs & Hcs & Hpl & Hname)]; [congruence|].
  destruct (existsb (fun f => Path.startswith (zi_filename item.1) f) bb
            || existsb (fun f => Path.endswith (zi_filename item.1) f) eb) eqn:Hbl.
  { rewrite (zip_item_blacklisted create_class_file self wl bb eb zipout item w w1 Hext Hbl)
      in Hz.
    injection Hz as <- _. simpl.
    destruct (existsb _ bb); simpl in *; [|rewrite Hbl]; by rewrite app_nil_r. }
  apply orb_false_elim in Hbl as [Hb He]. rewrite Hb, He. simpl.
  assert (~ blacklisted bb eb (zi_filename item.1)) as Hnb by (by apply not_blacklisted_existsb).
  assert (zip_reads_back (tempdir self) (zi_filename item.1)) as Hrb
      by (rewrite Ht, Hname; by apply zip_reads_back_plain).
  pose proof (zip_turn_payload create_class_file self wl bb eb zipout item w w1) as Hturn.
  cbv zeta in Hturn. specialize (Hturn Hext Hrb Hnb).
  destruct (create_class_file _ false (add2archive self) item.2) as [c|].
  - destruct (c_run c item.2) as [d'| |e]; destruct Hturn as [w2 Hturn];
      rewrite Hturn in Hz; try discriminate; by injection Hz as <- _.
  - destruct Hturn as [w2 Hturn]. rewrite Hturn in Hz. injection Hz as <- _.
    destruct (_ || _ || _); [done|by rewrite app_nil_r].
Qed.

Lemma for_each_zip_item_ordinary cs0 self wl bb eb l zipout w out w' :
  tempdir self = abs_path cs0 -> Forall plain cs0 -> cs0 <> [] ->
  Forall (fun e => ordinary_name (zi_filename e.1)) l ->
  for_each (zip_item create_class_file self wl bb eb) l zipout w = Ok out w' ->
  out = zipout ++ flat_map (zip_entry_rebuilt create_class_file self wl bb eb) l.
Proof.
  intros Ht H0 Hne0 Hall. revert zipout w.
  induction Hall as [|item l Hitem _ IH]; intros zipout w H; simpl in H.
  - apply ret_Ok in H as [<- _]. simpl. by rewrite app_nil_r.
  - apply bind_Ok in H as (s1 & w1 & Hx & H).
    apply (zip_item_ordinary cs0) in Hx; try done. subst s1.
    apply IH in H. rewrite H. simpl. by rewrite app_assoc.
Qed.

(** X18. The ZIP rebuild of an ordinary archive. With a scratch directory at
    an absolute path of plain components, a rebuild that returns has written
    for every entry of the input, in order, what [zip_entry_rebuilt] says,
    and nothing else, provided the entries of the input are named as
    ordinary entries are. So every entry that is kept carries its own bytes,
    or what its own stripper made of them. *)
Theorem zip_rebuild_ordinary_archive cs0 self wl bb eb w c infolist zipout w1 :
  tempdir self = abs_path cs0 -> Forall plain cs0 -> cs0 <> [] ->
  data_at w (filename self) = Some (ZipData c infolist) ->
  Forall (fun e => ordinary_name (zi_filename e.1)) infolist ->
  zip_rebuild create_class_file self wl bb eb w = Ok zipout w1 ->
  zipout = flat_map (zip_entry_rebuilt create_class_file self wl bb eb) infolist.
Proof.
  intros Ht H0 Hne0 Hd Hall H. unfold zip_rebuild in H.
  apply bind_Ok in H as (infolist' & wa & [[c' Hd'] ->]%zip_open_r_data & H).
  rewrite Hd in Hd'. injection Hd' as <- <-.
  apply bind_Ok in H as ([] & wb & _ & H).
  apply bind_Ok in H as (out & wc & Hloop & H).
  apply bind_Ok in H as ([] & wd & _ & [-> ->]%ret_Ok).
  by apply (for_each_zip_item_ordinary cs0) in Hloop.
Qed.

End OrdinaryArchives.



Section OrdinaryTarArchives.

Variable create_class_file : string -> bool -> bool -> content -> option child.
Variable utf8_decodes : string -> bool.




End OrdinaryTarArchives.

(** * What inspection never removes *)

Lemma fs_keeps_refl w : fs_keeps w w.
Proof. by intros k. Qed.

Lemma fs_keeps_trans w1 w2 w3 : fs_keeps w1 w2 -> fs_keeps w2 w3 -> fs_keeps w1 w3.
Proof. intros H1 H2 k Hk. by apply H2, H1. Qed.

Lemma fs_keeps_insert w k v : fs_keeps w (with_fs w (<[k := v]> (w_fs w))).
Proof. intros k' Hk. simpl. by apply is_Some_insert_mono. Qed.

Lemma keeping_bind {A B : Type} (m : M A) (f : A -> M B) :
  keeping m -> (forall a, keeping (f a)) -> keeping (bind m f).
Proof.
  intros Hm Hf w. unfold bind. specialize (Hm w).
  destruct (m w) as [a w1|e w1]; simpl in *; [|done].
  eapply fs_keeps_trans; [exact Hm|]. apply Hf.
Qed.

Lemma keeping_reads {A : Type} (m : M A) :
  (forall w, w_fs (world_of (m w)) = w_fs w) -> keeping m.
Proof. intros H w k. by rewrite H. Qed.

Lemma keeping_ret {A : Type} (a : A) : keeping (ret a).
Proof. by apply keeping_reads. Qed.

Lemma keeping_raise {A : Type} e : keeping (@raise A e).
Proof. by apply keeping_reads. Qed.

Lemma keeping_logging lvl msg : keeping (logging lvl msg).
Proof. by apply keeping_reads. Qed.

Lemma keeping_path_exists p : keeping (OS.path_exists p).
Proof. by apply keeping_reads. Qed.

Lemma keeping_if {A : Type} (b : bool) (m1 m2 : M A) :
  keeping m1 -> keeping m2 -> keeping (if b then m1 else m2).
Proof. by destruct b. Qed.

Lemma keeping_mkdir p mode : keeping (OS.mkdir p mode).
Proof.
  intros w. unfold OS.mkdir. destruct (_ || _ || _); [apply fs_keeps_refl|].
  apply fs_keeps_insert.
Qed.

Lemma keeping_write_file p d : keeping (OS.write_file p d).
Proof.
  intros w. unfold OS.write_file. destruct (_ || _); [apply fs_keeps_refl|].
  destruct (OS.lookup_key w (Path.normpath p)) as [i|].
  - destruct (i_body i); try apply fs_keeps_refl. apply fs_keeps_insert.
  - destruct (_ || _); [apply fs_keeps_refl|]. apply fs_keeps_insert.
Qed.

Lemma keeping_makedirs_go fuel name : keeping (OS.makedirs_go fuel name).
Proof.
  revert name. induction fuel as [|fuel IH]; intros name; [apply keeping_mkdir|].
  intros w. rewrite makedirs_go_S. cbv zeta.
  destruct (_ && _ && _); [|apply keeping_mkdir].
  unfold try_catch. specialize (IH (Path.dirname (Path.rstrip_sep name)) w).
  destruct (OS.makedirs_go fuel _ w) as [a w1|e w1]; simpl in IH.
  - eapply fs_keeps_trans; [exact IH|].
    case_bool_decide; [apply fs_keeps_refl|apply keeping_mkdir].
  - destruct (OS.exists_ w1 _); [|done].
    eapply fs_keeps_trans; [exact IH|].
    case_bool_decide; [apply fs_keeps_refl|apply keeping_mkdir].
Qed.

Lemma keeping_make_special t p : keeping (Tarfile.make_special t p).
Proof.
  intros w. unfold Tarfile.make_special. destruct (_ || _ || _); [apply fs_keeps_refl|].
  destruct t, (OS.lookup_key w (Path.normpath p)); try apply fs_keeps_refl;
    apply fs_keeps_insert.
Qed.

Lemma keeping_set_attrs ti k : keeping (Tarfile.set_attrs ti k).
Proof.
  intros w. unfold Tarfile.set_attrs. destruct (w_fs w !! k); [|apply fs_keeps_refl].
  apply fs_keeps_insert.
Qed.

(** [TarFile.extract] makes or overwrites entries, and removes none. *)
Lemma keeping_tar_extract item dir : keeping (Tarfile.extract item dir).
Proof.
  unfold Tarfile.extract.
  apply keeping_bind; [apply keeping_path_exists|]. intros ex.
  apply keeping_bind.
  { apply keeping_if; [apply keeping_makedirs_go|apply keeping_ret]. }
  intros _. apply keeping_bind; [|intros _; apply keeping_set_attrs].
  destruct (ti_type item.1); try apply keeping_make_special.
  - apply keeping_write_file.
  - apply keeping_bind; [apply keeping_path_exists|].
    intros ex'. apply keeping_if; [apply keeping_ret|apply keeping_mkdir].
Qed.


Lemma keeping_for_each_return {A S R : Type} (f : S -> A -> M (flow S R)) l s :
  (forall s a, keeping (f s a)) -> keeping (for_each_return f l s).
Proof.
  intros Hf. revert s. induction l as [|a l IH]; intros s; simpl; [apply keeping_ret|].
  apply keeping_bind; [apply Hf|]. intros [s'|r]; [apply IH|apply keeping_ret].
Qed.


Section Keeping.

Variable create_class_file : string -> bool -> bool -> content -> option child.
Variable cfile_is_clean : child -> content -> reply bool.
Variable cfile_get_meta : child -> content -> reply (gmap string pyval).
Variable py_str : gmap string pyval -> string.
Variable utf8_decodes : string -> bool.

Lemma keeping_create_class_file_at p bak a2a :
  keeping (create_class_file_at create_class_file p bak a2a).
Proof.
  apply keeping_reads. intros w. unfold create_class_file_at. by repeat case_match.
Qed.

Lemma keeping_child_is_clean c p : keeping (child_is_clean cfile_is_clean c p).
Proof. apply keeping_reads. intros w. unfold child_is_clean. by repeat case_match. Qed.

Lemma keeping_child_get_meta c p : keeping (child_get_meta cfile_get_meta c p).
Proof. apply keeping_reads. intros w. unfold child_get_meta. by repeat case_match. Qed.

Ltac keeping_steps :=
  repeat first
    [ apply keeping_ret | apply keeping_raise | apply keeping_logging
    | apply keeping_tar_extract | apply keeping_create_class_file_at
    | apply keeping_child_is_clean | apply keeping_child_get_meta
    | apply keeping_if
    | apply keeping_bind; [|intros ?]
    | match goal with |- keeping (match ?x with _ => _ end) => destruct x end ].

Lemma keeping_tar_is_clean_item self lu ret_list item :
  keeping (tar_is_clean_item create_class_file cfile_is_clean utf8_decodes self lu
             ret_list item).
Proof. unfold tar_is_clean_item. keeping_steps. Qed.



End Keeping.

(** * A TAR member named above the scratch directory *)

Lemma prefix_app_same s t u : String.prefix (s +:+ t) (s +:+ u) = String.prefix t u.
Proof.
  induction s as [|a s IH]; [done|]. rewrite !append_cons. cbn [String.prefix].
  by destruct (Ascii.ascii_dec a a).
Qed.

Lemma prefix_sep_in d c : sepfree c = true -> String.prefix (d +:+ "/") c = false.
Proof.
  revert c. induction d as [|b d IH]; intros c Hc.
  - destruct c as [|a c]; [done|]. simpl in Hc. apply andb_prop in Hc as [Ha _].
    change ("" +:+ "/") with (String "/" ""). cbn [String.prefix].
    destruct (Ascii.ascii_dec "/" a) as [<-|]; [done|done].
  - rewrite append_cons. destruct c as [|a c]; [done|]. cbn [String.prefix].
    simpl in Hc. apply andb_prop in Hc as [_ Hc].
    destruct (Ascii.ascii_dec b a); [by apply IH|done].
Qed.

Lemma append_inv_head s t u : s +:+ t = s +:+ u -> t = u.
Proof.
  induction s as [|a s IH]; [done|]. rewrite !append_cons. intros [= H]. by apply IH.
Qed.

(** Two directories with the same parent: neither is under the other. *)
Lemma not_under_sibling xs d c :
  plain c -> c <> d -> ~ under (abs_path (xs ++ [d])) (abs_path (xs ++ [c])).
Proof.
  intros (_ & _ & _ & Hc) Hne. rewrite !abs_path_snoc.
  set (P := if bool_decide (xs = []) then "" else abs_path xs).
  intros [He|Hp].
  - apply append_inv_head in He. by injection He.
  - unfold Path.startswith in Hp. rewrite !append_assoc in Hp.
    rewrite prefix_app_same in Hp.
    change ("/" +:+ d +:+ "/") with (String "/" (d +:+ "/")) in Hp.
    change ("/" +:+ c) with (String "/" c) in Hp. cbn [String.prefix] in Hp.
    destruct (Ascii.ascii_dec "/" "/"); [|done].
    by rewrite prefix_sep_in in Hp.
Qed.

Lemma snoc_nonempty {A : Type} (xs : list A) d : xs ++ [d] <> [].
Proof. intros H. by apply app_eq_nil in H as [_ ?]. Qed.

Lemma split_abs_sepfree cs :
  cs <> [] -> Forall (fun c => sepfree c = true) cs -> Path.split (abs_path cs) = "" :: cs.
Proof.
  intros Hne H. unfold abs_path.
  change ("/" +:+ Path.join_sep cs) with ("" +:+ "/" +:+ Path.join_sep cs).
  rewrite split_app_sep. change (Path.split "") with [""]. simpl. f_equal.
  by apply split_join_sep.
Qed.

Lemma abs_path_slashes_head c cs :
  plain c ->
  abs_path (c :: cs) <> "" /\ Path.startswith (abs_path (c :: cs)) "/" = true /\
  Path.startswith (abs_path (c :: cs)) "//" = false.
Proof.
  intros Hc. rewrite abs_path_cons. split; [done|].
  split; [apply prefix_sep; eauto|].
  unfold Path.startswith. cbn [String.prefix]. destruct (Ascii.ascii_dec "/" "/"); [|done].
  destruct (join_sep_head c cs Hc) as (a & r & -> & Ha).
  by apply startswith_sep_cons.
Qed.

(** Where a member named [../c] lands when it is joined to a directory. *)
Lemma join_abs_parent xs d c :
  Forall plain xs -> plain d ->
  Path.join (abs_path (xs ++ [d])) ("../" +:+ c) = abs_path ((xs ++ [d]) ++ [".."; c]).
Proof.
  intros Hxs Hd.
  assert (Forall plain (xs ++ [d])) as Hall by (apply Forall_app; split; [done|by constructor]).
  unfold Path.join.
  change ("../" +:+ c) with (String "." (String "." (String "/" c))).
  rewrite startswith_sep_cons by done.
  rewrite bool_decide_eq_false_2 by (by rewrite abs_path_cons).
  rewrite abs_path_no_trailing_sep; [|exact Hall|apply snoc_nonempty]. simpl.
  rewrite (abs_path_app (xs ++ [d]) [".."; c]); [done|apply snoc_nonempty|done].
Qed.

Lemma rstrip_sep_abs_last xs c :
  plain c -> Path.rstrip_sep (abs_path (xs ++ [c])) = abs_path (xs ++ [c]).
Proof.
  intros Hc. destruct (abs_path_last xs c Hc) as (r & a & -> & Ha). by apply rstrip_sep_last.
Qed.

Lemma normpath_abs_parent xs d c :
  Forall plain xs -> plain d -> plain c ->
  Path.normpath (abs_path ((xs ++ [d]) ++ [".."; c])) = abs_path (xs ++ [c]).
Proof.
  intros Hxs Hd Hc.
  assert (Forall plain (xs ++ [d])) as Hall by (apply Forall_app; split; [done|by constructor]).
  assert (exists z zs, (xs ++ [d]) ++ [".."; c] = z :: zs /\ plain z) as (z & zs & Hz & Hpz).
  { destruct xs as [|x xs]; simpl; [by eauto|].
    apply Forall_cons in Hxs as [Hx _]. eauto. }
  destruct (abs_path_slashes_head z zs Hpz) as (Hne & Hs1 & Hs2). rewrite <- Hz in *.
  rewrite normpath_one_slash by done.
  rewrite split_abs_sepfree.
  2:{ by destruct xs. }
  2:{ apply Forall_app. split; [by apply plain_sepfree|].
      destruct Hc as (_ & _ & _ & Hc). constructor; [done|]. constructor; [done|]. constructor. }
  cbn [fold_left]. change (Path.norm_step 1 [] "") with (@nil string).
  rewrite fold_left_app, (fold_norm_plain 1 (xs ++ [d]) []) by done.
  rewrite app_nil_r, rev_app_distr. cbn [rev app fold_left].
  destruct Hd as (Hd1 & Hd2 & Hd3 & _). destruct Hc as (Hc1 & Hc2 & Hc3 & _).
  assert (Path.norm_step 1 (d :: rev xs) ".." = rev xs) as ->.
  { unfold Path.norm_step.
    rewrite (bool_decide_eq_false_2 (".." = "")), (bool_decide_eq_false_2 (".." = ".")),
      (bool_decide_eq_true_2 (".." = "..")), (bool_decide_eq_false_2 (1 = 0)),
      (bool_decide_eq_false_2 (d = "..")) by done.
    done. }
  assert (Path.norm_step 1 (rev xs) c = c :: rev xs) as ->.
  { unfold Path.norm_step.
    by rewrite (bool_decide_eq_false_2 (c = "")), (bool_decide_eq_false_2 (c = ".")),
      (bool_decide_eq_false_2 (c = "..")). }
  cbn [rev]. by rewrite rev_involutive.
Qed.

(** The part of the file system that a computation only reads. *)
Lemma bind_reads {A B : Type} (m : M A) (f : A -> M B) w :
  w_fs (world_of (m w)) = w_fs w ->
  (forall a w1, w_fs (world_of (f a w1)) = w_fs w1) ->
  w_fs (world_of (bind m f w)) = w_fs w.
Proof.
  intros Hm Hf. unfold bind. destruct (m w) as [a w1|e w1]; simpl in *; [|done].
  by rewrite Hf.
Qed.

Section TarEscape.

Variable create_class_file : string -> bool -> bool -> content -> option child.
Variable cfile_is_clean : child -> content -> reply bool.
Variable utf8_decodes : string -> bool.

(** After the extraction, a turn of the loop of [is_clean] only reads. *)
Lemma tar_is_clean_item_after_extract self lu ret_list item w fl w1 :
  negb (is_file_clean item.1) && negb lu = false ->
  tar_is_clean_item create_class_file cfile_is_clean utf8_decodes self lu ret_list item w
  = Ok fl w1 ->
  exists w2, Tarfile.extract item (tempdir self) w = Ok tt w2 /\ w_fs w1 = w_fs w2.
Proof.
  intros Hcond H. unfold tar_is_clean_item in H. rewrite Hcond in H.
  apply bind_Ok in H as ([] & w2 & Hext & H). exists w2. split; [done|].
  destruct (ti_isfile item.1); [|by apply ret_Ok in H as [_ ->]].
  apply bind_Ok in H as (cfile & wa & Hc & H).
  assert (wa = w2) as ->.
  { unfold create_class_file_at in Hc. by repeat case_match; simplify_eq. }
  destruct cfile as [c|].
  - apply bind_Ok in H as (clean & wb & Hcl & H).
    assert (wb = w2) as ->.
    { unfold child_is_clean in Hcl. by repeat case_match; simplify_eq. }
    destruct (negb clean).
    + apply bind_Ok in H as ([] & wc & Hlog & H).
      assert (w_fs wc = w_fs w2) as <-.
      { destruct (utf8_decodes _); [|done]. unfold logging in Hlog. by simplify_eq. }
      by repeat case_match; apply ret_Ok in H as [_ ->].
    + by apply ret_Ok in H as [_ ->].
  - apply bind_Ok in H as ([] & wc & Hlog & H).
    assert (w_fs wc = w_fs w2) as <-.
    { unfold logging in Hlog. by simplify_eq. }
    by repeat case_match; apply ret_Ok in H as [_ ->].
Qed.

(** X21. Inspection of a TAR archive writes outside the scratch directory:
    [TarFile.extract] joins the name of a member to the scratch directory as
    it is, so a regular member named [../c] is written beside the scratch
    directory, not below it. Where [is_clean] (or [list_unsupported])
    returns after it has extracted such a first member, the file system has
    an entry at that path, outside the scratch directory, and when the
    archive has no other member that entry holds the bytes of the member. *)
Theorem TarStripper_is_clean_writes_outside xs d c self lu w comp item rest v w' :
  tempdir self = abs_path (xs ++ [d]) -> Forall plain xs -> plain d -> plain c -> c <> d ->
  data_at w (filename self) = Some (TarData comp (item :: rest)) ->
  ti_isfile item.1 = true -> ti_name item.1 = "../" +:+ c ->
  is_file_clean item.1 = true \/ lu = true ->
  TarStripper_is_clean create_class_file cfile_is_clean utf8_decodes self lu w = Ok v w' ->
  ~ under (tempdir self) (abs_path (xs ++ [c])) /\
  is_Some (w_fs w' !! abs_path (xs ++ [c])) /\
  (rest = [] -> data_at w' (abs_path (xs ++ [c])) = Some item.2).
Proof.
  intros Ht Hxs Hd Hc Hne Hdata Hf Hname Hcond H.
  split; [rewrite Ht; by apply not_under_sibling|].
  assert (negb (is_file_clean item.1) && negb lu = false) as Hcond'.
  { destruct Hcond as [->| ->]; [done|by rewrite andb_false_r]. }
  unfold TarStripper_is_clean in H.
  apply bind_Ok in H as (members & wa & [[comp' Hdata'] ->]%tar_open_r_data & H).
  rewrite Hdata in Hdata'. injection Hdata' as <- <-.
  apply bind_Ok in H as (f & wb & Hloop & H).
  assert (wb = w') as -> by (by repeat case_match; apply ret_Ok in H as [_ ->]).
  clear H. cbn [for_each_return] in Hloop.
  apply bind_Ok in Hloop as (fl & w1 & Hturn & Hloop).
  destruct (tar_is_clean_item_after_extract _ _ _ _ _ _ _ Hcond' Hturn) as (w2 & Hext & Hfs).
  destruct (tar_extract_file _ _ _ _ Hext Hf) as (i & Hi & Hbi & _).
  rewrite Ht, Hname, join_abs_parent in Hi by done.
  assert (plain c) as Hc' by done.
  assert ((xs ++ [d]) ++ [".."; c] = (xs ++ [d; ".."]) ++ [c]) as Hre
      by (by rewrite <- !app_assoc).
  rewrite Hre, rstrip_sep_abs_last in Hi by done. rewrite <- Hre in Hi.
  assert (w_fs w2 !! abs_path (xs ++ [c]) = Some i) as Hkey.
  { revert Hi. unfold OS.node_at, OS.lookup_key.
    rewrite bool_decide_eq_false_2 by (by rewrite abs_path_cons).
    rewrite normpath_abs_parent by done.
    destruct (OS.implicit_dir _).
    - simpl. intros [= <-]. done.
    - destruct (w_fs w2 !! abs_path (xs ++ [c])) as [j|]; [|done].
      intros Hj. f_equal. by repeat case_match; simplify_eq. }
  assert (fs_keeps w1 w') as Hkeep.
  { destruct fl as [s|r].
    - pose proof (keeping_for_each_return
                    (tar_is_clean_item create_class_file cfile_is_clean utf8_decodes self lu)
                    rest s (keeping_tar_is_clean_item _ _ _ self lu) w1) as Hk.
      by rewrite Hloop in Hk.
    - apply ret_Ok in Hloop as [_ ->]. apply fs_keeps_refl. }
  split.
  - apply Hkeep. rewrite Hfs, Hkey. eauto.
  - intros ->. assert (w_fs w' = w_fs w2) as Hsame.
    { rewrite <- Hfs. destruct fl; cbn [for_each_return] in Hloop;
        by apply ret_Ok in Hloop as [_ ->]. }
    assert (Forall plain (xs ++ [c])) as Hall
        by (apply Forall_app; split; [done|by constructor]).
    unfold data_at, OS.node_at, OS.lookup_key.
    rewrite bool_decide_eq_false_2 by (by rewrite abs_path_cons).
    rewrite normpath_abs by done.
    destruct (OS.implicit_dir _) eqn:Him.
    + exfalso. revert Hi. unfold OS.node_at, OS.lookup_key.
      rewrite bool_decide_eq_false_2 by (by rewrite abs_path_cons).
      rewrite normpath_abs_parent, Him by done. simpl. intros [= <-]. done.
    + rewrite Hsame, Hkey, Hbi.
      rewrite abs_path_no_trailing_sep; [by rewrite Hbi|exact Hall|apply snoc_nonempty].
Qed.

End TarEscape.

(** * The theorems at work: concrete archives *)

Ltac by_computation := vm_compute; reflexivity.
Ltac all_by_computation :=
  repeat match goal with |- _ /\ _ => split end; by_computation.

Lemma C1_envelope_normalization_witness :
  ZipStripper_remove_all Demo.factory Demo.album_self None None None Demo.album_world
  = Ok true (world_of (ZipStripper_remove_all Demo.factory Demo.album_self None None None
                         Demo.album_world)) /\
  (exists zipout w1,
      zip_rebuild Demo.factory Demo.album_self [] [] [] Demo.album_world = Ok zipout w1 /\
      data_at w1 (output Demo.album_self) = Some (ZipData "" zipout) /\
      Forall (fun e => zip_envelope_normal e.1 /\ is_zipfile_clean e.1 = true) zipout /\
      (backup Demo.album_self = false ->
       data_at (world_of (ZipStripper_remove_all Demo.factory Demo.album_self None None None
                            Demo.album_world))
         (filename Demo.album_self) = Some (ZipData "" zipout))) /\
  TarStripper_remove_all Demo.factory Demo.utf8_ascii Demo.tar_self None Demo.tar_world
  = Ok true (world_of (TarStripper_remove_all Demo.factory Demo.utf8_ascii Demo.tar_self None
                         Demo.tar_world)) /\
  (exists tarout w1 comp,
      tar_rebuild Demo.factory Demo.utf8_ascii Demo.tar_self [] Demo.tar_world = Ok tarout w1 /\
      data_at w1 (output Demo.tar_self) = Some (TarData comp tarout) /\
      Forall (fun m => tar_envelope_normal m.1 /\ is_file_clean m.1 = true) tarout /\
      (backup Demo.tar_self = false ->
       data_at (world_of (TarStripper_remove_all Demo.factory Demo.utf8_ascii Demo.tar_self None
                            Demo.tar_world))
         (filename Demo.tar_self) = Some (TarData comp tarout))).
Proof.
  assert (ZipStripper_remove_all Demo.factory Demo.album_self None None None Demo.album_world
          = Ok true (world_of (ZipStripper_remove_all Demo.factory Demo.album_self None None None
                                 Demo.album_world))) as Hz by by_computation.
  assert (TarStripper_remove_all Demo.factory Demo.utf8_ascii Demo.tar_self None Demo.tar_world
          = Ok true (world_of (TarStripper_remove_all Demo.factory Demo.utf8_ascii Demo.tar_self
                                 None Demo.tar_world))) as Ht by by_computation.
  split; [exact Hz|]. split.
  - exact (proj1 (C1_envelope_normalization Demo.factory Demo.utf8_ascii) _ _ _ _ _ _ _ Hz).
  - split; [exact Ht|].
    exact (proj2 (C1_envelope_normalization Demo.factory Demo.utf8_ascii) _ _ _ _ _ Ht).
Defined.

Lemma C3_policy_filtering_witness :
  ZipStripper_remove_all Demo.factory Demo.docx_self (Some [".rels"]) (Some ["docProps/"]) None
    Demo.docx_world
  = Ok true (world_of (OpenXmlStripper_remove_all Demo.factory Demo.docx_self Demo.docx_world)) /\
  (exists zipout w1,
      zip_rebuild Demo.factory Demo.docx_self [".rels"] ["docProps/"] [] Demo.docx_world
      = Ok zipout w1 /\
      data_at w1 (output Demo.docx_self) = Some (ZipData "" zipout) /\
      Forall (fun e => ~ blacklisted ["docProps/"] [] (zi_filename e.1)) zipout) /\
  Zipfile.extract Demo.readme_item "/tmp/tmpdir" Demo.album_world
  = Ok tt (world_of (Zipfile.extract Demo.readme_item "/tmp/tmpdir" Demo.album_world)) /\
  OS.isfile (world_of (Zipfile.extract Demo.readme_item "/tmp/tmpdir" Demo.album_world))
    "/tmp/tmpdir/readme.txt" = true /\
  ~ blacklisted [] ["meta.xml"] "readme.txt" /\
  (exists out w',
      zip_item Demo.factory Demo.album_self [] [] ["meta.xml"] [] Demo.readme_item
        Demo.album_world = Ok out w' /\
      ((exists data, out = [] ++ [(clean_zinfo "readme.txt", data)]) <->
       ("readme.txt" ∈ ([] : list string) \/
        (Path.splitext "/tmp/tmpdir/readme.txt").2 ∈ NOMETA \/
        add2archive Demo.album_self = true)) /\
      (out = [] \/ exists data, out = [] ++ [(clean_zinfo "readme.txt", data)])) /\
  data_at Demo.album_world (filename Demo.album_self)
  = Some (ZipData "holidays"
            ([Demo.readme_item; Demo.photos_item; Demo.beach_item]
             ++ (Demo.dirty_zinfo "blob.bin", Raw "0101") :: [])) /\
  ZipStripper_remove_all Demo.factory Demo.album_self None None None Demo.album_world
  = Ok true (world_of (ZipStripper_remove_all Demo.factory Demo.album_self None None None
                         Demo.album_world)) /\
  (exists zipout w1 w0 out_pre w_pre step rest,
      zip_rebuild Demo.factory Demo.album_self [] [] [] Demo.album_world = Ok zipout w1 /\
      data_at w1 (output Demo.album_self) = Some (ZipData "" zipout) /\
      Zipfile.open_w (output Demo.album_self) Demo.album_world = Ok tt w0 /\
      for_each (zip_item Demo.factory Demo.album_self [] [] [])
        [Demo.readme_item; Demo.photos_item; Demo.beach_item] [] w0 = Ok out_pre w_pre /\
      zipout = out_pre ++ step ++ rest /\
      Zipfile.namelist out_pre
        `sublist_of` Zipfile.namelist [Demo.readme_item; Demo.photos_item; Demo.beach_item] /\
      Zipfile.namelist rest `sublist_of` Zipfile.namelist [] /\
      (step = [] \/ exists data, step = [(clean_zinfo "blob.bin", data)]) /\
      (forall w2,
          Zipfile.extract (Demo.dirty_zinfo "blob.bin", Raw "0101") (tempdir Demo.album_self)
            w_pre = Ok tt w2 ->
          OS.isfile w2 (Path.join (tempdir Demo.album_self) "blob.bin") = true ->
          ~ blacklisted [] [] "blob.bin" ->
          create_class_file_at Demo.factory (Path.join (tempdir Demo.album_self) "blob.bin")
            false (add2archive Demo.album_self) w2 = Ok None w2 ->
          ((exists data, step = [(clean_zinfo "blob.bin", data)]) <->
           ("blob.bin" ∈ ([] : list string) \/
            (Path.splitext (Path.join (tempdir Demo.album_self) "blob.bin")).2 ∈ NOMETA \/
            add2archive Demo.album_self = true)))).
Proof.
  assert (ZipStripper_remove_all Demo.factory Demo.docx_self (Some [".rels"])
            (Some ["docProps/"]) None Demo.docx_world
          = Ok true (world_of (OpenXmlStripper_remove_all Demo.factory Demo.docx_self
                                 Demo.docx_world))) as Hz by by_computation.
  assert (Zipfile.extract Demo.readme_item "/tmp/tmpdir" Demo.album_world
          = Ok tt (world_of (Zipfile.extract Demo.readme_item "/tmp/tmpdir" Demo.album_world)))
    as Hx by by_computation.
  assert (OS.isfile (world_of (Zipfile.extract Demo.readme_item "/tmp/tmpdir" Demo.album_world))
            "/tmp/tmpdir/readme.txt" = true) as Hf by by_computation.
  assert (~ blacklisted [] ["meta.xml"] "readme.txt") as Hb
      by (apply not_blacklisted_existsb; split; reflexivity).
  assert (data_at Demo.album_world (filename Demo.album_self)
          = Some (ZipData "holidays"
                    ([Demo.readme_item; Demo.photos_item; Demo.beach_item]
                     ++ (Demo.dirty_zinfo "blob.bin", Raw "0101") :: []))) as Hd
      by by_computation.
  assert (ZipStripper_remove_all Demo.factory Demo.album_self None None None Demo.album_world
          = Ok true (world_of (ZipStripper_remove_all Demo.factory Demo.album_self None None
                                 None Demo.album_world))) as Ha by by_computation.
  split; [exact Hz|]. split.
  - exact (proj1 (C3_policy_filtering Demo.factory) _ _ _ _ _ _ _ Hz).
  - split; [exact Hx|]. split; [exact Hf|]. split; [exact Hb|]. split.
    + apply (proj1 (proj2 (C3_policy_filtering Demo.factory)) Demo.album_self [] []
               ["meta.xml"] [] Demo.readme_item Demo.album_world _ Hx Hf Hb).
      by_computation.
    + split; [exact Hd|]. split; [exact Ha|].
      exact (proj2 (proj2 (C3_policy_filtering Demo.factory)) Demo.album_self None None None
               Demo.album_world "holidays"
               [Demo.readme_item; Demo.photos_item; Demo.beach_item]
               (Demo.dirty_zinfo "blob.bin", Raw "0101") [] true _ Hd Ha).
Defined.

Lemma C10_zip_non_files_dropped_witness :
  Zipfile.extract Demo.photos_item "/tmp/tmpdir" Demo.album_world
  = Ok tt (world_of (Zipfile.extract Demo.photos_item "/tmp/tmpdir" Demo.album_world)) /\
  OS.isfile (world_of (Zipfile.extract Demo.photos_item "/tmp/tmpdir" Demo.album_world))
    "/tmp/tmpdir/photos/" = false /\
  Path.endswith "photos/" "/" = true /\
  (zip_item Demo.factory (Demo.self_of Demo.album_file false true) ["photos/"] [] []
     [(clean_zinfo "readme.txt", Raw "hello")] Demo.photos_item Demo.album_world
   = Ok [(clean_zinfo "readme.txt", Raw "hello")]
        (world_of (Zipfile.extract Demo.photos_item "/tmp/tmpdir" Demo.album_world)) /\
   w_log (world_of (Zipfile.extract Demo.photos_item "/tmp/tmpdir" Demo.album_world))
   = w_log Demo.album_world) /\
  ti_isfile Demo.pipe_member.1 = false /\
  tar_item Demo.factory Demo.utf8_ascii (Demo.self_of Demo.tar_file false true) ["pipe"]
    [] Demo.pipe_member Demo.tar_world
  = Ok [] (world_of (Tarfile.extract Demo.pipe_member "/tmp/tmpdir" Demo.tar_world)).
Proof.
  assert (Zipfile.extract Demo.photos_item "/tmp/tmpdir" Demo.album_world
          = Ok tt (world_of (Zipfile.extract Demo.photos_item "/tmp/tmpdir" Demo.album_world)))
    as Hx by by_computation.
  assert (Path.endswith "photos/" "/" = true) as He by reflexivity.
  pose proof (proj1 (C10_zip_non_files_dropped Demo.factory Demo.utf8_ascii)
                (Demo.self_of Demo.album_file false true) ["photos/"] [] []
                [(clean_zinfo "readme.txt", Raw "hello")] Demo.photos_item Demo.album_world)
    as [Hturn Hdir].
  pose proof (Hdir He (world_of (Zipfile.extract Demo.photos_item "/tmp/tmpdir"
                                   Demo.album_world))) as Hf.
  split; [exact Hx|]. split; [exact Hf|]. split; [exact He|].
  split; [exact (Hturn _ Hx Hf)|]. split; [reflexivity|].
  assert (exists out, tar_item Demo.factory Demo.utf8_ascii
                        (Demo.self_of Demo.tar_file false true) ["pipe"] []
                        Demo.pipe_member Demo.tar_world
                      = Ok out (world_of (Tarfile.extract Demo.pipe_member "/tmp/tmpdir"
                                            Demo.tar_world)))
    as [out Hrun] by (eexists; by_computation).
  pose proof (proj2 (C10_zip_non_files_dropped Demo.factory Demo.utf8_ascii)
                (Demo.self_of Demo.tar_file false true) ["pipe"] [] Demo.pipe_member
                Demo.tar_world out _ eq_refl Hrun) as ->.
  exact Hrun.
Defined.

(** C10 as stated fails where it sets the TAR engine apart: a TAR archive
    of a directory and a fifo is rebuilt without members, so the TAR engine
    does not add its members that are no regular files again either. *)
Lemma C10_counterexample :
  Demo.tar_names Demo.dirs_world Demo.tar_file = Some ["docs"; "pipe"] /\
  Demo.tar_names
    (world_of (TarStripper_remove_all Demo.factory Demo.utf8_ascii Demo.tar_self None
                 Demo.dirs_world))
    Demo.tar_file
  = Some [].
Proof. all_by_computation. Qed.

Lemma C7_tar_non_files_not_readded_witness :
  ti_isfile Demo.docs_member.1 = false /\
  tar_item Demo.factory Demo.utf8_ascii Demo.tar_self [] [] Demo.docs_member Demo.tar_world
  = (Tarfile.extract Demo.docs_member (tempdir Demo.tar_self) >> ret []) Demo.tar_world /\
  Forall (fun item : TarInfo * content => ti_isfile item.1 = false)
    [Demo.docs_member; Demo.pipe_member] /\
  for_each (tar_item Demo.factory Demo.utf8_ascii Demo.tar_self [])
    [Demo.docs_member; Demo.pipe_member] [] Demo.tar_world
  = Ok [] (world_of (for_each (tar_item Demo.factory Demo.utf8_ascii Demo.tar_self [])
                       [Demo.docs_member; Demo.pipe_member] [] Demo.tar_world)).
Proof.
  assert (Forall (fun item : TarInfo * content => ti_isfile item.1 = false)
            [Demo.docs_member; Demo.pipe_member]) as Hall by (repeat constructor).
  assert (exists out, for_each (tar_item Demo.factory Demo.utf8_ascii Demo.tar_self [])
            [Demo.docs_member; Demo.pipe_member] [] Demo.tar_world
          = Ok out (world_of (for_each (tar_item Demo.factory Demo.utf8_ascii Demo.tar_self [])
                                [Demo.docs_member; Demo.pipe_member] [] Demo.tar_world)))
    as [out Hrun] by (eexists; by_computation).
  split; [reflexivity|]. split.
  - exact (proj1 (C7_tar_non_files_not_readded Demo.factory Demo.utf8_ascii)
             Demo.tar_self [] [] Demo.docs_member Demo.tar_world eq_refl).
  - split; [exact Hall|].
    pose proof (proj2 (C7_tar_non_files_not_readded Demo.factory Demo.utf8_ascii)
                  _ _ _ _ _ _ _ Hall Hrun) as ->.
    exact Hrun.
Defined.

Lemma C4_exceptions_propagate_witness :
  Zipfile.open_r (filename Demo.album_self) Demo.corrupt_world
  = Raise BadZipfile Demo.corrupt_world /\
  ZipStripper_remove_all Demo.factory Demo.album_self None None None Demo.corrupt_world
  = Raise BadZipfile Demo.corrupt_world /\
  Tarfile.open_r (filename Demo.album_self) ("r" +:+ compression Demo.album_self)
    Demo.corrupt_world
  = Raise ReadError Demo.corrupt_world /\
  TarStripper_remove_all Demo.factory Demo.utf8_ascii Demo.album_self None Demo.corrupt_world
  = Raise ReadError Demo.corrupt_world.
Proof.
  assert (Zipfile.open_r (filename Demo.album_self) Demo.corrupt_world
          = Raise BadZipfile Demo.corrupt_world) as Hz by by_computation.
  assert (Tarfile.open_r (filename Demo.album_self) ("r" +:+ compression Demo.album_self)
            Demo.corrupt_world
          = Raise ReadError Demo.corrupt_world) as Ht by by_computation.
  pose proof (C4_exceptions_propagate Demo.factory Demo.utf8_ascii) as (_ & _ & Hzip & Htar).
  split; [exact Hz|]. split; [exact (Hzip _ None None None _ _ _ Hz)|].
  split; [exact Ht|]. exact (Htar _ None _ _ _ Ht).
Defined.

(** C4 as stated fails: on a file that is no ZIP archive the exception of
    the library reaches the caller; [remove_all] does not return false. *)
Lemma C4_counterexample :
  ZipStripper_remove_all Demo.factory Demo.album_self None None None Demo.corrupt_world
  = Raise BadZipfile Demo.corrupt_world /\
  ~ (exists w', ZipStripper_remove_all Demo.factory Demo.album_self None None None
                  Demo.corrupt_world = Ok false w').
Proof.
  assert (ZipStripper_remove_all Demo.factory Demo.album_self None None None
            Demo.corrupt_world = Raise BadZipfile Demo.corrupt_world) as H by by_computation.
  split; [exact H|]. intros [w' Hw]. rewrite H in Hw. discriminate.
Qed.

(** C7 as stated fails: of a TAR archive with a text, a directory, a fifo
    and a photo, the rebuilt archive holds the two regular files only. *)
Lemma C7_counterexample :
  Demo.tar_names Demo.tar_world Demo.tar_file
  = Some ["notes.txt"; "docs"; "pipe"; "beach.jpg"] /\
  Demo.tar_names
    (world_of (TarStripper_remove_all Demo.factory Demo.utf8_ascii Demo.tar_self None
                 Demo.tar_world))
    Demo.tar_file
  = Some ["notes.txt"; "beach.jpg"].
Proof. all_by_computation. Qed.

Lemma C5_terminal_zip_recurses_witness :
  Zipfile.extract Demo.embedded_item (tempdir Demo.docx_self) Demo.docx_world
  = Ok tt (world_of (Zipfile.extract Demo.embedded_item (tempdir Demo.docx_self)
                       Demo.docx_world)) /\
  data_at (world_of (Zipfile.extract Demo.embedded_item (tempdir Demo.docx_self)
                       Demo.docx_world))
    "/tmp/tmpdir/word/embeddings/data.zip" = Some Demo.embedded_item.2 /\
  ~ blacklisted ["docProps/"] [] "word/embeddings/data.zip" /\
  Demo.factory "/tmp/tmpdir/word/embeddings/data.zip" false false Demo.embedded_item.2
  = Some (Demo.zip_child false) /\
  is_GenericArchiveStripper (c_class (Demo.zip_child false)) = true /\
  exists w',
    zip_item Demo.factory Demo.docx_self [".rels"] ["docProps/"] [] [] Demo.embedded_item
      Demo.docx_world
    = Ok ([] ++ [(clean_zinfo "word/embeddings/data.zip",
                  ZipData "" [(clean_zinfo "sheet.txt", Raw "1;2;3")])]) w'.
Proof.
  assert (Zipfile.extract Demo.embedded_item (tempdir Demo.docx_self) Demo.docx_world
          = Ok tt (world_of (Zipfile.extract Demo.embedded_item (tempdir Demo.docx_self)
                               Demo.docx_world))) as Hx by by_computation.
  assert (data_at (world_of (Zipfile.extract Demo.embedded_item (tempdir Demo.docx_self)
                               Demo.docx_world))
            "/tmp/tmpdir/word/embeddings/data.zip" = Some Demo.embedded_item.2)
    as Hd by by_computation.
  assert (~ blacklisted ["docProps/"] [] "word/embeddings/data.zip") as Hb
      by (apply not_blacklisted_existsb; split; reflexivity).
  assert (Demo.factory "/tmp/tmpdir/word/embeddings/data.zip" false false Demo.embedded_item.2
          = Some (Demo.zip_child false)) as Hc by reflexivity.
  assert (c_run (Demo.zip_child false) Demo.embedded_item.2
          = Sanitized (ZipData "" [(clean_zinfo "sheet.txt", Raw "1;2;3")]))
    as Hrun by by_computation.
  pose proof (proj2 (C5_terminal_zip_recurses Demo.factory) Demo.docx_self [".rels"]
                ["docProps/"] [] [] Demo.embedded_item Demo.docx_world _ _ _
                Hx Hd Hb Hc eq_refl) as H.
  rewrite Hrun in H.
  repeat (split; [assumption || reflexivity|]). exact H.
Defined.

(** C5 as stated fails: of an Office OpenXML document with an embedded
    ZIP archive and [add2archive] unset, the engine hands the embedded
    archive to a [ZipStripper], which rebuilds it, and keeps the entry; the
    terminal ZIP of the specification treats it as without a stripper and
    drops it, [.zip] being no [NOMETA] extension. *)
Lemma C5_counterexample :
  data_at (world_of (Demo.docx_session Demo.docx_file false false "/tmp/tmp1" "/tmp/tmp2"
                       (Demo.machine Demo.docx_file Demo.docx_embedded)))
    Demo.docx_file
  = Some (ZipData ""
            [(clean_zinfo "word/document.xml", Raw "<w:document/>");
             (clean_zinfo "word/embeddings/data.zip",
                ZipData "" [(clean_zinfo "sheet.txt", Raw "1;2;3")])]) /\
  data_at (world_of (Demo.spec_docx_session Demo.docx_file false false "/tmp/tmp1" "/tmp/tmp2"
                       (Demo.machine Demo.docx_file Demo.docx_embedded)))
    Demo.docx_file
  = Some (ZipData "" [(clean_zinfo "word/document.xml", Raw "<w:document/>")]).
Proof. all_by_computation. Qed.

Lemma C9_mode_restored_when_child_returns_witness :
  (let w1 := world_of (Zipfile.extract Demo.beach_item "/tmp/tmpdir" Demo.album_world) in
   let path := "/tmp/tmpdir/photos/beach.jpg" in
   let i := Demo.inode_at w1 path in
   Zipfile.extract Demo.beach_item "/tmp/tmpdir" Demo.album_world = Ok tt w1 /\
   OS.node_at w1 path = Some i /\ i_body i = Reg Demo.beach_item.2 /\
   ~ blacklisted [] [] "photos/beach.jpg" /\
   Demo.factory path false false Demo.beach_item.2 = Some Demo.jpeg_child /\
   (forall e, c_run Demo.jpeg_child Demo.beach_item.2 <> Crashed e) /\
   mode_at (elevated w1 path i) path = Some (Z.lor (st_mode i) OS.S_IWUSR) /\
   (exists b w3, child_remove_all Demo.jpeg_child path (elevated w1 path i) = Ok b w3) /\
   mode_at (world_of (zip_item Demo.factory Demo.album_self [] [] [] [] Demo.beach_item
                        Demo.album_world)) path = Some (st_mode i)) /\
  (let w1 := world_of (Tarfile.extract Demo.beach_member "/tmp/tmpdir" Demo.tar_world) in
   let path := "/tmp/tmpdir/beach.jpg" in
   let i := Demo.inode_at w1 path in
   Tarfile.extract Demo.beach_member "/tmp/tmpdir" Demo.tar_world = Ok tt w1 /\
   ti_isfile Demo.beach_member.1 = true /\
   OS.node_at w1 path = Some i /\ i_body i = Reg Demo.beach_member.2 /\
   Demo.factory path false false Demo.beach_member.2 = Some Demo.jpeg_child /\
   (forall e, c_run Demo.jpeg_child Demo.beach_member.2 <> Crashed e) /\
   st_mode i = 292 /\
   mode_at (elevated w1 path i) path = Some 420 /\
   (exists b w3, child_remove_all Demo.jpeg_child path (elevated w1 path i) = Ok b w3) /\
   mode_at (world_of (tar_item Demo.factory Demo.utf8_ascii Demo.tar_self [] []
                        Demo.beach_member Demo.tar_world)) path = Some 292).
Proof.
  split.
  - intros w1 path i.
    assert (Zipfile.extract Demo.beach_item "/tmp/tmpdir" Demo.album_world = Ok tt w1)
      as Hx by by_computation.
    assert (OS.node_at w1 path = Some i) as Hn by by_computation.
    assert (i_body i = Reg Demo.beach_item.2) as Hb by by_computation.
    assert (~ blacklisted [] [] "photos/beach.jpg") as Hbl
        by (apply not_blacklisted_existsb; split; reflexivity).
    assert (Demo.factory path false false Demo.beach_item.2 = Some Demo.jpeg_child)
      as Hc by reflexivity.
    assert (forall e, c_run Demo.jpeg_child Demo.beach_item.2 <> Crashed e) as Hr by done.
    destruct (proj1 (C9_mode_restored_when_child_returns Demo.factory Demo.utf8_ascii)
                Demo.album_self [] [] [] [] Demo.beach_item Demo.album_world w1 i _ _
                Hx Hn Hb Hbl Hc) as (He & Hret & _).
    destruct (Hret Hr) as [Hchild Hmode].
    repeat (split; [assumption|]). exact Hmode.
  - intros w1 path i.
    assert (Tarfile.extract Demo.beach_member "/tmp/tmpdir" Demo.tar_world = Ok tt w1)
      as Hx by by_computation.
    assert (OS.node_at w1 path = Some i) as Hn by by_computation.
    assert (i_body i = Reg Demo.beach_member.2) as Hb by by_computation.
    assert (Demo.factory path false false Demo.beach_member.2 = Some Demo.jpeg_child)
      as Hc by reflexivity.
    assert (forall e, c_run Demo.jpeg_child Demo.beach_member.2 <> Crashed e) as Hr by done.
    assert (st_mode i = 292) as Hm by by_computation.
    destruct (proj2 (C9_mode_restored_when_child_returns Demo.factory Demo.utf8_ascii)
                Demo.tar_self [] [] Demo.beach_member Demo.tar_world w1 i _ _
                Hx eq_refl Hn Hb Hc) as (He & Hret & _).
    destruct (Hret Hr) as [Hchild Hmode].
    rewrite Hm in He, Hmode.
    repeat (split; [assumption || reflexivity|]). exact Hmode.
Defined.

(** C9 as stated fails: a TAR archive holds a read-only member (mode
    0444) that is named as a ZIP archive and is none. Its child stripper
    raises [BadZipfile]; [remove_all] raises it in turn, and the extracted
    file is left with the owner-write bit set (mode 0644). *)
Lemma C9_counterexample :
  TarStripper_remove_all Demo.factory Demo.utf8_ascii Demo.tar_self None Demo.nest_world
  = Raise BadZipfile
      (world_of (TarStripper_remove_all Demo.factory Demo.utf8_ascii Demo.tar_self None
                   Demo.nest_world)) /\
  mode_at (world_of (Tarfile.extract (Demo.dirty_tinfo "inner.zip" REGTYPE 292, Raw "garbage")
                       "/tmp/tmpdir" Demo.nest_world))
    "/tmp/tmpdir/inner.zip" = Some 292 /\
  mode_at (world_of (TarStripper_remove_all Demo.factory Demo.utf8_ascii Demo.tar_self None
                       Demo.nest_world))
    "/tmp/tmpdir/inner.zip" = Some 420.
Proof. all_by_computation. Qed.

(** Ordinary member names are read back where they were extracted; a
    name with a leading slash or with [..] in it is not. *)
Example reads_back_names :
  zip_reads_back "/tmp/tmpdir" "photos/beach.jpg" /\
  ~ zip_reads_back "/tmp/tmpdir" "/etc/hostname" /\
  ~ zip_reads_back "/tmp/tmpdir" "x/../docProps/core.xml" /\
  tar_reads_back "/tmp/tmpdir" "beach.jpg" "/tmp/tmpout".
Proof.
  split; [|split; [|split]].
  - split; [reflexivity|]. split; [reflexivity|discriminate].
  - intros [H _]. vm_compute in H. discriminate.
  - intros [H _]. vm_compute in H. discriminate.
  - split; [reflexivity|]. vm_compute. discriminate.
Qed.

(** The photo of the album is written with the bytes its stripper makes
    of it, and the read-only photo of the TAR archive likewise, at the mode
    it came with. *)
Example turn_payload_photos :
  (exists w',
      zip_item Demo.factory Demo.album_self [] [] [] [] Demo.beach_item Demo.album_world
      = Ok ([] ++ [(clean_zinfo "photos/beach.jpg", Raw "pixels")]) w') /\
  (exists out w',
      tar_item Demo.factory Demo.utf8_ascii Demo.tar_self [] [] Demo.beach_member Demo.tar_world
      = Ok out w' /\
      exists t, out = [] ++ [(_remove_tar_added t, Raw "pixels")] /\
                ti_name t = "beach.jpg" /\ ti_mode t = 292 /\ ti_type t = REGTYPE).
Proof.
  destruct reads_back_names as (Hz & _ & _ & Ht). split.
  - assert (Zipfile.extract Demo.beach_item "/tmp/tmpdir" Demo.album_world
            = Ok tt (world_of (Zipfile.extract Demo.beach_item "/tmp/tmpdir" Demo.album_world)))
      as Hx by by_computation.
    assert (~ blacklisted [] [] "photos/beach.jpg") as Hb
        by (apply not_blacklisted_existsb; split; reflexivity).
    exact (zip_turn_payload Demo.factory Demo.album_self [] [] [] [] Demo.beach_item
             Demo.album_world _ Hx Hz Hb).
  - assert (Tarfile.extract Demo.beach_member "/tmp/tmpdir" Demo.tar_world
            = Ok tt (world_of (Tarfile.extract Demo.beach_member "/tmp/tmpdir" Demo.tar_world)))
      as Hx by by_computation.
    exact (tar_turn_payload Demo.factory Demo.utf8_ascii Demo.tar_self [] [] Demo.beach_member
             Demo.tar_world _ Hx eq_refl Ht eq_refl).
Qed.

(** On the album and on the TAR archive a second run, by a stripper of
    its own, leaves the file as the first run left it. *)
Example second_run_on_ordinary_archives :
  data_at (world_of ((Demo.zip_session Demo.album_file false false "/tmp/tmp1" "/tmp/tmp2" >>
                      Demo.zip_session Demo.album_file false false "/tmp/tmp3" "/tmp/tmp4")
                       (Demo.machine Demo.album_file Demo.album)))
    Demo.album_file
  = data_at (world_of (Demo.zip_session Demo.album_file false false "/tmp/tmp1" "/tmp/tmp2"
                         (Demo.machine Demo.album_file Demo.album)))
      Demo.album_file /\
  data_at (world_of ((Demo.tar_session Demo.tar_file false false "/tmp/tmp1" "/tmp/tmp2" >>
                      Demo.tar_session Demo.tar_file false false "/tmp/tmp3" "/tmp/tmp4")
                       (Demo.machine Demo.tar_file Demo.backup_tar)))
    Demo.tar_file
  = data_at (world_of (Demo.tar_session Demo.tar_file false false "/tmp/tmp1" "/tmp/tmp2"
                         (Demo.machine Demo.tar_file Demo.backup_tar)))
      Demo.tar_file.
Proof. all_by_computation. Qed.

(** C2, at two archives with member names that are no clean relative
    paths. [ZipFile.extract] writes a member under the scratch directory,
    at its name made relative; the engine reads back the path it joins
    itself from the scratch directory and the raw name, which is another
    file. For the member [/etc/hostname], kept because [add2archive] is set,
    it writes the bytes of the machine's own [/etc/hostname]; and for the
    member [x/../docProps/core.xml], kept for its [NOMETA] extension, the
    bytes of the member [docProps/core.xml], which the blacklist excludes. *)
Theorem C2_payload_read_from_another_file :
  data_at (world_of (Demo.zip_session Demo.album_file false true "/tmp/tmp1" "/tmp/tmp2"
                       (Demo.machine Demo.album_file Demo.zip_absolute)))
    Demo.album_file
  = Some (ZipData "" [(clean_zinfo "/etc/hostname", Raw "alice-laptop")]) /\
  Zipfile.targetpath "/tmp/tmp2" "/etc/hostname" = "/tmp/tmp2/etc/hostname" /\
  Path.join "/tmp/tmp2" "/etc/hostname" = "/etc/hostname" /\
  data_at (world_of (Demo.docx_session Demo.docx_file false false "/tmp/tmp1" "/tmp/tmp2"
                       (Demo.machine Demo.docx_file Demo.docx_dotdot)))
    Demo.docx_file
  = Some (ZipData "" [(clean_zinfo "x/../docProps/core.xml", Raw "<creator>alice</creator>")]) /\
  Zipfile.targetpath "/tmp/tmp2" "x/../docProps/core.xml" = "/tmp/tmp2/x/docProps/core.xml" /\
  Path.normpath (Path.join "/tmp/tmp2" "x/../docProps/core.xml") = "/tmp/tmp2/docProps/core.xml".
Proof. all_by_computation. Qed.

(** C6, at a stripper with [backup] set. The destination of the backup is
    joined as a path below the source file, not the source path with
    [.bak] appended. A regular file has nothing below it, so the move
    raises: [remove_all] does not succeed, the source stays as it was, no
    [.bak] file appears and the rebuilt archive stays in the output file. *)
Theorem C6_backup_path_below_the_file :
  Path.join (filename (Demo.self_of Demo.album_file true false)) ".bak"
  = "/home/alice/album.zip/.bak" /\
  filename (Demo.self_of Demo.album_file true false) +:+ ".bak" = "/home/alice/album.zip.bak" /\
  ZipStripper_remove_all Demo.factory (Demo.self_of Demo.album_file true false) None None None
    Demo.album_world
  = Raise IOError
      (world_of (ZipStripper_remove_all Demo.factory (Demo.self_of Demo.album_file true false)
                   None None None Demo.album_world)) /\
  data_at (world_of (ZipStripper_remove_all Demo.factory
                       (Demo.self_of Demo.album_file true false) None None None
                       Demo.album_world))
    Demo.album_file = Some Demo.album /\
  OS.exists_ (world_of (ZipStripper_remove_all Demo.factory
                          (Demo.self_of Demo.album_file true false) None None None
                          Demo.album_world))
    "/home/alice/album.zip.bak" = false /\
  Demo.zip_names (world_of (ZipStripper_remove_all Demo.factory
                              (Demo.self_of Demo.album_file true false) None None None
                              Demo.album_world))
    "/tmp/tmpout" = Some ["readme.txt"; "photos/beach.jpg"].
Proof. all_by_computation. Qed.

(** C8, at an Office OpenXML document with the members
    [docProps/core.xml] and [x/../docProps/core.xml], cleaned twice, each
    time by a stripper of its own. The first run keeps the second member,
    with the bytes it read from the scratch copy of the first; in the second
    run no such copy is there, the member is not found as a file and is
    dropped: the file is not what the first run left. *)
Theorem C8_second_run_changes_the_file :
  data_at (world_of (Demo.docx_session Demo.docx_file false false "/tmp/tmp1" "/tmp/tmp2"
                       (Demo.machine Demo.docx_file Demo.docx_dotdot)))
    Demo.docx_file
  = Some (ZipData "" [(clean_zinfo "x/../docProps/core.xml", Raw "<creator>alice</creator>")]) /\
  data_at (world_of ((Demo.docx_session Demo.docx_file false false "/tmp/tmp1" "/tmp/tmp2" >>
                      Demo.docx_session Demo.docx_file false false "/tmp/tmp3" "/tmp/tmp4")
                       (Demo.machine Demo.docx_file Demo.docx_dotdot)))
    Demo.docx_file
  = Some (ZipData "" []) /\
  (Demo.docx_session Demo.docx_file false false "/tmp/tmp1" "/tmp/tmp2" >>
   Demo.docx_session Demo.docx_file false false "/tmp/tmp3" "/tmp/tmp4")
    (Demo.machine Demo.docx_file Demo.docx_dotdot)
  = Ok true (world_of ((Demo.docx_session Demo.docx_file false false "/tmp/tmp1" "/tmp/tmp2" >>
                        Demo.docx_session Demo.docx_file false false "/tmp/tmp3" "/tmp/tmp4")
                         (Demo.machine Demo.docx_file Demo.docx_dotdot))).
Proof. all_by_computation. Qed.

(** * The further theorems at work *)

Ltac by_decision :=
  match goal with |- ?P => apply (bool_decide_unpack P); vm_compute; exact I end.

(** A computation that returns, with its result and the world it leaves. *)
Lemma returns_Ok {A : Type} (d : A) (r : result A) :
  Demo.returns r = true -> r = Ok (Demo.returned d r) (world_of r).
Proof. destruct r as [a w|e w]; [reflexivity|discriminate]. Qed.

Lemma ZipStripper_is_clean_envelopes_witness :
  (data_at Demo.album_world (filename Demo.album_self) = Some Demo.album /\
   ZipStripper_is_clean Demo.factory Demo.is_clean_of Demo.album_self false Demo.album_world
   = Ok (Clean false)
       (with_log Demo.album_world
          (w_log Demo.album_world
           ++ [(DEBUG, filename Demo.album_self +:+ " has a comment")]))) /\
  ZipStripper_is_clean Demo.factory Demo.is_clean_of Demo.album_self false
    Demo.clean_album_world
  = Ok (Clean true)
      (world_of (ZipStripper_is_clean Demo.factory Demo.is_clean_of Demo.album_self false
                   Demo.clean_album_world)) /\
  exists l, data_at Demo.clean_album_world (filename Demo.album_self) = Some (ZipData "" l) /\
            Forall (fun e => is_zipfile_clean e.1 = true) l.
Proof.
  assert (data_at Demo.album_world (filename Demo.album_self) = Some Demo.album) as Hd
      by by_computation.
  assert (ZipStripper_is_clean Demo.factory Demo.is_clean_of Demo.album_self false
            Demo.clean_album_world
          = Ok (Clean true)
              (world_of (ZipStripper_is_clean Demo.factory Demo.is_clean_of Demo.album_self
                           false Demo.clean_album_world))) as Hc by by_computation.
  split; [split; [exact Hd|]|split; [exact Hc|]].
  - apply (proj1 (ZipStripper_is_clean_envelopes Demo.factory Demo.is_clean_of Demo.album_self
                    Demo.album_world) _ _ Hd).
    discriminate.
  - exact (proj2 (ZipStripper_is_clean_envelopes Demo.factory Demo.is_clean_of Demo.album_self
                    Demo.clean_album_world) _ Hc).
Defined.

Lemma ZipStripper_list_unsupported_names_witness :
  ZipStripper_list_unsupported Demo.factory Demo.is_clean_of Demo.album_self Demo.album_world
  = Ok (Unsupported ["blob.bin"])
      (world_of (ZipStripper_list_unsupported Demo.factory Demo.is_clean_of Demo.album_self
                   Demo.album_world)) /\
  exists c l items,
    data_at Demo.album_world (filename Demo.album_self) = Some (ZipData c l) /\
    Unsupported ["blob.bin"] = Unsupported (Zipfile.namelist items) /\
    items `sublist_of` l /\
    Forall (fun e => (Path.basename (zi_filename e.1) ∉ ["mimetype"; ".rels"]) /\
                     ((Path.splitext (Path.join (tempdir Demo.album_self) (zi_filename e.1))).2
                      ∉ NOMETA))
      items.
Proof.
  assert (ZipStripper_list_unsupported Demo.factory Demo.is_clean_of Demo.album_self
            Demo.album_world
          = Ok (Unsupported ["blob.bin"])
              (world_of (ZipStripper_list_unsupported Demo.factory Demo.is_clean_of
                           Demo.album_self Demo.album_world))) as H by by_computation.
  split; [exact H|].
  exact (ZipStripper_list_unsupported_names Demo.factory Demo.is_clean_of _ _ _ _ H).
Defined.

Lemma TarStripper_is_clean_envelopes_witness :
  is_file_clean Demo.beach_member.1 = false /\
  tar_is_clean_item Demo.factory Demo.is_clean_of Demo.utf8_ascii Demo.tar_self false []
    Demo.beach_member Demo.tar_world
  = Ok (Return (Clean false))
      (with_log Demo.tar_world
         (w_log Demo.tar_world
          ++ [(DEBUG, ti_name Demo.beach_member.1 +:+ " from " +:+ filename Demo.tar_self
                      +:+ " has compromising tarinfo")])) /\
  TarStripper_is_clean Demo.factory Demo.is_clean_of Demo.utf8_ascii Demo.tar_self false
    Demo.clean_tar_world
  = Ok (Clean true)
      (world_of (TarStripper_is_clean Demo.factory Demo.is_clean_of Demo.utf8_ascii
                   Demo.tar_self false Demo.clean_tar_world)) /\
  exists c l, data_at Demo.clean_tar_world (filename Demo.tar_self) = Some (TarData c l) /\
              Forall (fun m => is_file_clean m.1 = true) l.
Proof.
  assert (is_file_clean Demo.beach_member.1 = false) as Hf by reflexivity.
  assert (TarStripper_is_clean Demo.factory Demo.is_clean_of Demo.utf8_ascii Demo.tar_self
            false Demo.clean_tar_world
          = Ok (Clean true)
              (world_of (TarStripper_is_clean Demo.factory Demo.is_clean_of Demo.utf8_ascii
                           Demo.tar_self false Demo.clean_tar_world))) as Hc by by_computation.
  split; [exact Hf|]. split; [|split; [exact Hc|]].
  - exact (proj1 (TarStripper_is_clean_envelopes Demo.factory Demo.is_clean_of Demo.utf8_ascii
                    Demo.tar_self Demo.tar_world) [] Demo.beach_member Hf).
  - exact (proj2 (TarStripper_is_clean_envelopes Demo.factory Demo.is_clean_of Demo.utf8_ascii
                    Demo.tar_self Demo.clean_tar_world) _ Hc).
Defined.

Lemma TarStripper_list_unsupported_names_witness :
  TarStripper_list_unsupported Demo.factory Demo.is_clean_of Demo.utf8_ascii Demo.tar_self
    Demo.climbing_world
  = Ok (Unsupported ["blob.bin"])
      (world_of (TarStripper_list_unsupported Demo.factory Demo.is_clean_of Demo.utf8_ascii
                   Demo.tar_self Demo.climbing_world)) /\
  exists c l items,
    data_at Demo.climbing_world (filename Demo.tar_self) = Some (TarData c l) /\
    Unsupported ["blob.bin"] = Unsupported ((fun m => ti_name m.1) <$> items) /\
    items `sublist_of` l /\
    Forall (fun m => ti_isfile m.1 = true) items.
Proof.
  assert (TarStripper_list_unsupported Demo.factory Demo.is_clean_of Demo.utf8_ascii
            Demo.tar_self Demo.climbing_world
          = Ok (Unsupported ["blob.bin"])
              (world_of (TarStripper_list_unsupported Demo.factory Demo.is_clean_of
                           Demo.utf8_ascii Demo.tar_self Demo.climbing_world))) as H
      by by_computation.
  split; [exact H|].
  exact (TarStripper_list_unsupported_names Demo.factory Demo.is_clean_of Demo.utf8_ascii
           _ _ _ _ H).
Defined.

Lemma ZipStripper_get_meta_envelopes_witness :
  ZipStripper_get_meta Demo.factory Demo.get_meta_of Demo.str_keys Demo.album_self
    Demo.album_world
  = Ok (Demo.returned ∅ (ZipStripper_get_meta Demo.factory Demo.get_meta_of Demo.str_keys
                           Demo.album_self Demo.album_world))
      (world_of (ZipStripper_get_meta Demo.factory Demo.get_meta_of Demo.str_keys
                   Demo.album_self Demo.album_world)) /\
  exists c l,
    data_at Demo.album_world (filename Demo.album_self) = Some (ZipData c l) /\
    (c <> "" ->
     is_Some (Demo.returned ∅ (ZipStripper_get_meta Demo.factory Demo.get_meta_of
                                 Demo.str_keys Demo.album_self Demo.album_world)
              !! "comment")) /\
    Forall (fun e => is_zipfile_clean e.1 = false ->
                     is_Some (Demo.returned ∅ (ZipStripper_get_meta Demo.factory
                                                 Demo.get_meta_of Demo.str_keys
                                                 Demo.album_self Demo.album_world)
                              !! (zi_filename e.1 +:+ "'s zipinfo"))) l /\
    (Demo.returned ∅ (ZipStripper_get_meta Demo.factory Demo.get_meta_of Demo.str_keys
                        Demo.album_self Demo.album_world) = ∅ ->
     c = "" /\ Forall (fun e => is_zipfile_clean e.1 = true) l).
Proof.
  assert (ZipStripper_get_meta Demo.factory Demo.get_meta_of Demo.str_keys Demo.album_self
            Demo.album_world
          = Ok (Demo.returned ∅ (ZipStripper_get_meta Demo.factory Demo.get_meta_of
                                   Demo.str_keys Demo.album_self Demo.album_world))
              (world_of (ZipStripper_get_meta Demo.factory Demo.get_meta_of Demo.str_keys
                           Demo.album_self Demo.album_world))) as H
      by (apply returns_Ok; by_computation).
  split; [exact H|].
  exact (ZipStripper_get_meta_envelopes Demo.factory Demo.get_meta_of Demo.str_keys _ _ _ _ H).
Defined.

Lemma TarStripper_get_meta_reports_witness :
  TarStripper_get_meta Demo.factory Demo.get_meta_of Demo.str_keys Demo.tar_self
    Demo.tar_world
  = Ok (Demo.returned ∅ (TarStripper_get_meta Demo.factory Demo.get_meta_of Demo.str_keys
                           Demo.tar_self Demo.tar_world))
      (world_of (TarStripper_get_meta Demo.factory Demo.get_meta_of Demo.str_keys
                   Demo.tar_self Demo.tar_world)) /\
  exists c l,
    data_at Demo.tar_world (filename Demo.tar_self) = Some (TarData c l) /\
    forall k,
      is_Some (Demo.returned ∅ (TarStripper_get_meta Demo.factory Demo.get_meta_of
                                  Demo.str_keys Demo.tar_self Demo.tar_world) !! k) <->
      exists e, e ∈ l /\ ti_name e.1 = k /\
                ti_isfile e.1 = true /\ is_file_clean e.1 = false.
Proof.
  assert (TarStripper_get_meta Demo.factory Demo.get_meta_of Demo.str_keys Demo.tar_self
            Demo.tar_world
          = Ok (Demo.returned ∅ (TarStripper_get_meta Demo.factory Demo.get_meta_of
                                   Demo.str_keys Demo.tar_self Demo.tar_world))
              (world_of (TarStripper_get_meta Demo.factory Demo.get_meta_of Demo.str_keys
                           Demo.tar_self Demo.tar_world))) as H
      by (apply returns_Ok; by_computation).
  split; [exact H|].
  exact (TarStripper_get_meta_reports Demo.factory Demo.get_meta_of Demo.str_keys _ _ _ _ H).
Defined.

Lemma do_backup_replaces_source_witness :
  (backup Demo.album_self = false /\
   OS.node_at Demo.album_world (filename Demo.album_self)
   = Some (Demo.file_inode Demo.album 420) /\
   OS.node_at Demo.album_world (output Demo.album_self)
   = Some (Demo.inode_at Demo.album_world "/tmp/tmpout") /\
   i_body (Demo.inode_at Demo.album_world "/tmp/tmpout") = Reg (Raw "") /\
   Path.normpath (output Demo.album_self) <> Path.normpath (filename Demo.album_self) /\
   OS.parent_ok Demo.album_world (Path.normpath (filename Demo.album_self)) = true) /\
  exists w',
    do_backup Demo.album_self Demo.album_world = Ok tt w' /\
    OS.node_at w' (filename Demo.album_self)
    = Some (Demo.inode_at Demo.album_world "/tmp/tmpout") /\
    OS.node_at w' (output Demo.album_self) = None /\
    w_log w' = w_log Demo.album_world /\
    forall k, k <> Path.normpath (filename Demo.album_self) ->
              k <> Path.normpath (output Demo.album_self) ->
              w_fs w' !! k = w_fs Demo.album_world !! k.
Proof.
  assert (backup Demo.album_self = false) as Hb by reflexivity.
  assert (OS.node_at Demo.album_world (filename Demo.album_self)
          = Some (Demo.file_inode Demo.album 420)) as Hi by by_computation.
  assert (OS.node_at Demo.album_world (output Demo.album_self)
          = Some (Demo.inode_at Demo.album_world "/tmp/tmpout")) as Hj by by_computation.
  assert (i_body (Demo.inode_at Demo.album_world "/tmp/tmpout") = Reg (Raw "")) as Hbj
      by by_computation.
  assert (Path.normpath (output Demo.album_self) <> Path.normpath (filename Demo.album_self))
    as Hne by by_decision.
  assert (OS.parent_ok Demo.album_world (Path.normpath (filename Demo.album_self)) = true)
    as Hp by by_computation.
  split; [exact (conj Hb (conj Hi (conj Hj (conj Hbj (conj Hne Hp)))))|].
  exact (do_backup_replaces_source Demo.album_self Demo.album_world _ _ Demo.album (Raw "")
           Hb Hi eq_refl Hj Hbj Hne Hp).
Defined.

Lemma GenericParser_del_output_witness :
  (GenericParser_del Demo.album_self Demo.album_world
   = Ok tt (world_of (GenericParser_del Demo.album_self Demo.album_world)) /\
   OS.exists_ Demo.album_world (output Demo.album_self) = true /\
   OS.exists_ (world_of (GenericParser_del Demo.album_self Demo.album_world))
     (output Demo.album_self) = false /\
   forall p, Path.normpath p <> Path.normpath (output Demo.album_self) ->
             OS.node_at (world_of (GenericParser_del Demo.album_self Demo.album_world)) p
             = OS.node_at Demo.album_world p) /\
  (backup Demo.album_self = false /\
   data_at Demo.album_world (output Demo.album_self) = Some (Raw "") /\
   do_backup Demo.album_self Demo.album_world
   = Ok tt (world_of (do_backup Demo.album_self Demo.album_world)) /\
   GenericParser_del Demo.album_self (world_of (do_backup Demo.album_self Demo.album_world))
   = Ok tt (world_of (do_backup Demo.album_self Demo.album_world))).
Proof.
  assert (GenericParser_del Demo.album_self Demo.album_world
          = Ok tt (world_of (GenericParser_del Demo.album_self Demo.album_world))) as Hd
      by by_computation.
  assert (data_at Demo.album_world (output Demo.album_self) = Some (Raw "")) as Ho
      by by_computation.
  assert (do_backup Demo.album_self Demo.album_world
          = Ok tt (world_of (do_backup Demo.album_self Demo.album_world))) as Hm
      by by_computation.
  split.
  - split; [exact Hd|]. split; [by_computation|].
    exact (proj1 (GenericParser_del_output Demo.album_self Demo.album_world) _ Hd).
  - split; [reflexivity|]. split; [exact Ho|]. split; [exact Hm|].
    exact (proj2 (GenericParser_del_output Demo.album_self
                    (world_of (do_backup Demo.album_self Demo.album_world)))
             Demo.album_world (Raw "") eq_refl Ho Hm).
Defined.

Lemma GenericArchiveStripper_del_leaves_output_witness :
  (GenericArchiveStripper_init Demo.album_file false false "/tmp/tmpout" "/tmp/tmpdir"
     (Demo.machine Demo.album_file Demo.album)
   = Ok Demo.album_self Demo.album_world /\
   ~ under (Path.normpath "/tmp/tmpdir") (Path.normpath "/tmp/tmpout")) /\
  exists w2,
    GenericArchiveStripper_del Demo.album_self Demo.album_world = Ok tt w2 /\
    OS.isdir w2 (tempdir Demo.album_self) = false /\
    data_at w2 (output Demo.album_self) = Some (Raw "") /\
    mode_at w2 (output Demo.album_self) = Some 384.
Proof.
  assert (GenericArchiveStripper_init Demo.album_file false false "/tmp/tmpout" "/tmp/tmpdir"
            (Demo.machine Demo.album_file Demo.album)
          = Ok Demo.album_self Demo.album_world) as Hi by by_computation.
  assert (~ under (Path.normpath "/tmp/tmpdir") (Path.normpath "/tmp/tmpout")) as Hu
      by by_decision.
  split; [exact (conj Hi Hu)|].
  exact (GenericArchiveStripper_del_leaves_output _ _ _ _ _ _ _ _ Hi Hu).
Defined.

Lemma tar_rebuild_compression_witness :
  (GzipStripper_init Demo.tar_file false false "/tmp/tmpout" "/tmp/tmpdir"
     (Demo.machine Demo.tar_file Demo.backup_tar)
   = Ok (Demo.returned Demo.tar_self
           (GzipStripper_init Demo.tar_file false false "/tmp/tmpout" "/tmp/tmpdir"
              (Demo.machine Demo.tar_file Demo.backup_tar)))
       (world_of (GzipStripper_init Demo.tar_file false false "/tmp/tmpout" "/tmp/tmpdir"
                    (Demo.machine Demo.tar_file Demo.backup_tar))) /\
   compression (Demo.returned Demo.tar_self
                  (GzipStripper_init Demo.tar_file false false "/tmp/tmpout" "/tmp/tmpdir"
                     (Demo.machine Demo.tar_file Demo.backup_tar))) = ":gz") /\
  tar_rebuild Demo.factory Demo.utf8_ascii Demo.tar_self [] Demo.tar_world
  = Ok (Demo.returned [] (tar_rebuild Demo.factory Demo.utf8_ascii Demo.tar_self []
                            Demo.tar_world))
      (world_of (tar_rebuild Demo.factory Demo.utf8_ascii Demo.tar_self [] Demo.tar_world)) /\
  exists cin members cout,
    data_at Demo.tar_world (filename Demo.tar_self) = Some (TarData cin members) /\
    data_at (world_of (tar_rebuild Demo.factory Demo.utf8_ascii Demo.tar_self []
                         Demo.tar_world))
      (output Demo.tar_self)
    = Some (TarData cout
              (Demo.returned [] (tar_rebuild Demo.factory Demo.utf8_ascii Demo.tar_self []
                                   Demo.tar_world))) /\
    (compression Demo.tar_self = "" /\ cout = TarPlain \/
     compression Demo.tar_self = ":" /\ cin = TarPlain /\ cout = TarPlain \/
     compression Demo.tar_self = ":gz" /\ cin = TarGz /\ cout = TarGz \/
     compression Demo.tar_self = ":bz2" /\ cin = TarBz2 /\ cout = TarBz2).
Proof.
  assert (GzipStripper_init Demo.tar_file false false "/tmp/tmpout" "/tmp/tmpdir"
            (Demo.machine Demo.tar_file Demo.backup_tar)
          = Ok (Demo.returned Demo.tar_self
                  (GzipStripper_init Demo.tar_file false false "/tmp/tmpout" "/tmp/tmpdir"
                     (Demo.machine Demo.tar_file Demo.backup_tar)))
              (world_of (GzipStripper_init Demo.tar_file false false "/tmp/tmpout"
                           "/tmp/tmpdir" (Demo.machine Demo.tar_file Demo.backup_tar))))
    as Hg
      by (apply returns_Ok; by_computation).
  assert (tar_rebuild Demo.factory Demo.utf8_ascii Demo.tar_self [] Demo.tar_world
          = Ok (Demo.returned [] (tar_rebuild Demo.factory Demo.utf8_ascii Demo.tar_self []
                                    Demo.tar_world))
              (world_of (tar_rebuild Demo.factory Demo.utf8_ascii Demo.tar_self []
                           Demo.tar_world))) as Hr
      by (apply returns_Ok; by_computation).
  split; [split; [exact Hg|]|split; [exact Hr|]].
  - exact (proj1 (proj2 (proj1 (tar_rebuild_compression Demo.factory Demo.utf8_ascii)
                           _ _ _ _ _ _ _ _)) Hg).
  - exact (proj2 (tar_rebuild_compression Demo.factory Demo.utf8_ascii) _ _ _ _ _ Hr).
Defined.

Lemma zip_rebuild_keeps_order_witness :
  zip_rebuild Demo.factory Demo.album_self [] [] [] Demo.album_world
  = Ok [(clean_zinfo "readme.txt", Raw "hello"); (clean_zinfo "photos/beach.jpg", Raw "pixels")]
      (world_of (zip_rebuild Demo.factory Demo.album_self [] [] [] Demo.album_world)) /\
  exists c infolist items,
    data_at Demo.album_world (filename Demo.album_self) = Some (ZipData c infolist) /\
    items `sublist_of` infolist /\
    [(clean_zinfo "readme.txt", Raw "hello");
     (clean_zinfo "photos/beach.jpg", Raw "pixels")].*1
    = (fun e => clean_zinfo (zi_filename e.1)) <$> items /\
    Zipfile.namelist [(clean_zinfo "readme.txt", Raw "hello");
                      (clean_zinfo "photos/beach.jpg", Raw "pixels")]
    = Zipfile.namelist items.
Proof.
  assert (zip_rebuild Demo.factory Demo.album_self [] [] [] Demo.album_world
          = Ok [(clean_zinfo "readme.txt", Raw "hello");
                (clean_zinfo "photos/beach.jpg", Raw "pixels")]
              (world_of (zip_rebuild Demo.factory Demo.album_self [] [] [] Demo.album_world)))
    as H by by_computation.
  split; [exact H|].
  exact (zip_rebuild_keeps_order Demo.factory _ _ _ _ _ _ _ H).
Defined.

Lemma office_remove_all_format_check_witness :
  (OpenDocumentStripper_remove_all Demo.factory Demo.odt_self Demo.odt_world
   = Ok true (world_of (OpenDocumentStripper_remove_all Demo.factory Demo.odt_self
                          Demo.odt_world)) /\
   exists l,
     data_at (world_of (OpenDocumentStripper_remove_all Demo.factory Demo.odt_self
                          Demo.odt_world))
       (filename Demo.odt_self) = Some (ZipData "" l) /\
     Forall (fun e => is_zipfile_clean e.1 = true) l /\
     Zipfile.getinfo l "meta.xml" = None) /\
  (OpenXmlStripper_remove_all Demo.factory Demo.docx_self Demo.docx_plain_world
   = Ok true (world_of (OpenXmlStripper_remove_all Demo.factory Demo.docx_self
                          Demo.docx_plain_world)) /\
   exists l,
     data_at (world_of (OpenXmlStripper_remove_all Demo.factory Demo.docx_self
                          Demo.docx_plain_world))
       (filename Demo.docx_self) = Some (ZipData "" l) /\
     Forall (fun e => is_zipfile_clean e.1 = true) l /\
     existsb (fun item => Path.startswith item "docProps/") (Zipfile.namelist l) = false).
Proof.
  assert (OpenDocumentStripper_remove_all Demo.factory Demo.odt_self Demo.odt_world
          = Ok true (world_of (OpenDocumentStripper_remove_all Demo.factory Demo.odt_self
                                 Demo.odt_world))) as Ho by by_computation.
  assert (OpenXmlStripper_remove_all Demo.factory Demo.docx_self Demo.docx_plain_world
          = Ok true (world_of (OpenXmlStripper_remove_all Demo.factory Demo.docx_self
                                 Demo.docx_plain_world))) as Hx by by_computation.
  split; [split; [exact Ho|]|split; [exact Hx|]].
  - exact (proj1 (office_remove_all_format_check Demo.factory) _ _ _ _ Ho eq_refl).
  - exact (proj2 (office_remove_all_format_check Demo.factory) _ _ _ _ Hx eq_refl).
Defined.


Lemma office_is_clean_is_zip_check_and_names_witness :
  (OpenDocumentStripper_is_clean Demo.factory Demo.is_clean_of Demo.odt_self Demo.odt_world
   = Ok false (world_of (OpenDocumentStripper_is_clean Demo.factory Demo.is_clean_of
                           Demo.odt_self Demo.odt_world)) /\
   exists c l r,
     data_at Demo.odt_world (filename Demo.odt_self) = Some (ZipData c l) /\
     ZipStripper_is_clean Demo.factory Demo.is_clean_of Demo.odt_self false Demo.odt_world
     = Ok r (world_of (OpenDocumentStripper_is_clean Demo.factory Demo.is_clean_of
                         Demo.odt_self Demo.odt_world)) /\
     false = match r with
             | Clean false => false
             | _ => bool_decide ("meta.xml" ∉ Zipfile.namelist l)
             end) /\
  (OpenXmlStripper_is_clean Demo.factory Demo.is_clean_of Demo.album_self
     Demo.clean_album_world
   = Ok true (world_of (OpenXmlStripper_is_clean Demo.factory Demo.is_clean_of Demo.album_self
                          Demo.clean_album_world)) /\
   exists c l r,
     data_at Demo.clean_album_world (filename Demo.album_self) = Some (ZipData c l) /\
     ZipStripper_is_clean Demo.factory Demo.is_clean_of Demo.album_self false
       Demo.clean_album_world
     = Ok r (world_of (OpenXmlStripper_is_clean Demo.factory Demo.is_clean_of Demo.album_self
                         Demo.clean_album_world)) /\
     true = match r with
            | Clean false => false
            | _ => negb (existsb (fun item => Path.startswith item "docProps/")
                           (Zipfile.namelist l))
            end).
Proof.
  assert (Forall plain ["tmp"; "tmpdir"]) as Hp by by_decision.
  assert (scratch_ready Demo.odt_world (tempdir Demo.odt_self)) as Hr1
      by (split; by_computation).
  assert (scratch_ready Demo.clean_album_world (tempdir Demo.album_self)) as Hr2
      by (split; by_computation).
  assert (~ under (tempdir Demo.odt_self) (Path.normpath (filename Demo.odt_self))) as Hu1
      by by_decision.
  assert (~ under (tempdir Demo.album_self) (Path.normpath (filename Demo.album_self))) as Hu2
      by by_decision.
  assert (OpenDocumentStripper_is_clean Demo.factory Demo.is_clean_of Demo.odt_self
            Demo.odt_world
          = Ok false (world_of (OpenDocumentStripper_is_clean Demo.factory Demo.is_clean_of
                                  Demo.odt_self Demo.odt_world))) as Ho by by_computation.
  assert (OpenXmlStripper_is_clean Demo.factory Demo.is_clean_of Demo.album_self
            Demo.clean_album_world
          = Ok true (world_of (OpenXmlStripper_is_clean Demo.factory Demo.is_clean_of
                                 Demo.album_self Demo.clean_album_world))) as Hx
      by by_computation.
  split; [split; [exact Ho|]|split; [exact Hx|]].
  - refine (proj1 (office_is_clean_is_zip_check_and_names Demo.factory Demo.is_clean_of
                     ["tmp"; "tmpdir"] Demo.odt_self Demo.odt_world _ _ eq_refl Hp _ Hr1 Hu1)
              Ho).
    discriminate.
  - refine (proj2 (office_is_clean_is_zip_check_and_names Demo.factory Demo.is_clean_of
                     ["tmp"; "tmpdir"] Demo.album_self Demo.clean_album_world _ _ eq_refl Hp _
                     Hr2 Hu2) Hx).
    discriminate.
Defined.

Lemma package_parts_dropped_witness :
  (Path.basename "mimetype" ∈ ["mimetype"; ".rels"] /\
   Zipfile.extract Demo.mimetype_item (tempdir Demo.odt_self) Demo.odt_world
   = Ok tt (world_of (Zipfile.extract Demo.mimetype_item (tempdir Demo.odt_self)
                        Demo.odt_world)) /\
   data_at (world_of (Zipfile.extract Demo.mimetype_item (tempdir Demo.odt_self)
                        Demo.odt_world))
     (Path.join (tempdir Demo.odt_self) "mimetype") = Some Demo.mimetype_item.2 /\
   Demo.factory (Path.join (tempdir Demo.odt_self) "mimetype") false false
     Demo.mimetype_item.2 = None) /\
  (exists w', zip_item Demo.factory Demo.odt_self [] [] ["meta.xml"] [] Demo.mimetype_item
                Demo.odt_world = Ok [] w') /\
  (is_zipfile_clean (clean_zinfo "mimetype") = true /\
   exists w', zip_is_clean_item Demo.factory Demo.is_clean_of Demo.odt_self false []
                (clean_zinfo "mimetype", Demo.mimetype_item.2) Demo.odt_world
              = Ok (Next []) w').
Proof.
  assert (Path.basename "mimetype" ∈ ["mimetype"; ".rels"]) as Hb by by_decision.
  assert ("mimetype" ∉ ([] : list string)) as Hw by by_decision.
  assert (Zipfile.extract Demo.mimetype_item (tempdir Demo.odt_self) Demo.odt_world
          = Ok tt (world_of (Zipfile.extract Demo.mimetype_item (tempdir Demo.odt_self)
                               Demo.odt_world))) as Hx by by_computation.
  assert (data_at (world_of (Zipfile.extract Demo.mimetype_item (tempdir Demo.odt_self)
                               Demo.odt_world))
            (Path.join (tempdir Demo.odt_self) "mimetype") = Some Demo.mimetype_item.2) as Hd
      by by_computation.
  assert (Demo.factory (Path.join (tempdir Demo.odt_self) "mimetype") false false
            Demo.mimetype_item.2 = None) as Hn by by_computation.
  split; [exact (conj Hb (conj Hx (conj Hd Hn)))|]. split.
  - exact (proj1 (package_parts_dropped Demo.factory Demo.is_clean_of Demo.odt_self []
                    [] ["meta.xml"] [] [] Demo.mimetype_item Demo.odt_world _ _
                    Hb Hw eq_refl Hx Hd Hn)).
  - split; [reflexivity|].
    exact (proj2 (package_parts_dropped Demo.factory Demo.is_clean_of Demo.odt_self []
                    [] ["meta.xml"] [] [] (clean_zinfo "mimetype", Demo.mimetype_item.2)
                    Demo.odt_world _ _ Hb Hw eq_refl Hx Hd Hn) eq_refl).
Defined.

Lemma kept_without_stripper_is_accepted_witness :
  (Zipfile.extract Demo.readme_item (tempdir Demo.album_self) Demo.album_world
   = Ok tt (world_of (Zipfile.extract Demo.readme_item (tempdir Demo.album_self)
                        Demo.album_world)) /\
   data_at (world_of (Zipfile.extract Demo.readme_item (tempdir Demo.album_self)
                        Demo.album_world))
     (Path.join (tempdir Demo.album_self) "readme.txt") = Some (Raw "hello") /\
   ~ blacklisted [] [] "readme.txt" /\
   Demo.factory (Path.join (tempdir Demo.album_self) "readme.txt") false false (Raw "hello")
   = None /\
   zip_item Demo.factory Demo.album_self [".rels"] [] [] [] Demo.readme_item Demo.album_world
   = Ok [(clean_zinfo "readme.txt", Raw "hello")]
       (world_of (zip_item Demo.factory Demo.album_self [".rels"] [] [] [] Demo.readme_item
                    Demo.album_world))) /\
  [(clean_zinfo "readme.txt", Raw "hello")] = [] ++ [(clean_zinfo "readme.txt", Raw "hello")] /\
  (Zipfile.extract (clean_zinfo "readme.txt", Raw "hello") (tempdir Demo.album_self)
     Demo.clean_album_world
   = Ok tt (world_of (Zipfile.extract Demo.readme_item (tempdir Demo.album_self)
                        Demo.clean_album_world)) /\
   exists v',
     zip_is_clean_item Demo.factory Demo.is_clean_of Demo.album_self false []
       (clean_zinfo "readme.txt", Raw "hello") Demo.clean_album_world
     = Ok (Next []) v').
Proof.
  assert (forall n, n ∈ [".rels"] -> n = ".rels") as Hwl.
  { intros n Hn. apply list_elem_of_singleton in Hn. exact Hn. }
  assert (Zipfile.extract Demo.readme_item (tempdir Demo.album_self) Demo.album_world
          = Ok tt (world_of (Zipfile.extract Demo.readme_item (tempdir Demo.album_self)
                               Demo.album_world))) as Hx by by_computation.
  assert (data_at (world_of (Zipfile.extract Demo.readme_item (tempdir Demo.album_self)
                               Demo.album_world))
            (Path.join (tempdir Demo.album_self) "readme.txt") = Some (Raw "hello")) as Hd
      by by_computation.
  assert (~ blacklisted [] [] "readme.txt") as Hb
      by (apply not_blacklisted_existsb; split; reflexivity).
  assert (Demo.factory (Path.join (tempdir Demo.album_self) "readme.txt") false false
            (Raw "hello") = None) as Hn by by_computation.
  assert (zip_item Demo.factory Demo.album_self [".rels"] [] [] [] Demo.readme_item
            Demo.album_world
          = Ok [(clean_zinfo "readme.txt", Raw "hello")]
              (world_of (zip_item Demo.factory Demo.album_self [".rels"] [] [] []
                           Demo.readme_item Demo.album_world))) as Hz by by_computation.
  assert (Zipfile.extract (clean_zinfo "readme.txt", Raw "hello") (tempdir Demo.album_self)
            Demo.clean_album_world
          = Ok tt (world_of (Zipfile.extract Demo.readme_item (tempdir Demo.album_self)
                               Demo.clean_album_world))) as Hx' by by_computation.
  assert (data_at (world_of (Zipfile.extract Demo.readme_item (tempdir Demo.album_self)
                               Demo.clean_album_world))
            (Path.join (tempdir Demo.album_self) "readme.txt") = Some (Raw "hello")) as Hd'
      by by_computation.
  assert ([(clean_zinfo "readme.txt", Raw "hello")] <> ([] : list (ZipInfo * content))) as Hne
      by discriminate.
  split; [exact (conj Hx (conj Hd (conj Hb (conj Hn Hz))))|].
  destruct (kept_without_stripper_is_accepted Demo.factory Demo.is_clean_of Demo.album_self
              [".rels"] [] [] [] Demo.readme_item Demo.album_world _ _ _ _
              Hwl eq_refl Hx Hd Hb Hn Hz Hne) as [Hout Hcheck].
  split; [exact Hout|]. split; [exact Hx'|].
  exact (Hcheck Demo.album_self [] Demo.clean_album_world _ _ Hx' Hd' Hn).
Defined.

Lemma zip_rebuild_ordinary_archive_witness :
  (tempdir Demo.album_self = abs_path ["tmp"; "tmpdir"] /\
   Forall plain ["tmp"; "tmpdir"] /\
   data_at Demo.album_world (filename Demo.album_self) = Some Demo.album /\
   Forall (fun e : ZipInfo * content => ordinary_name (zi_filename e.1))
     [Demo.readme_item; Demo.photos_item; Demo.beach_item;
      (Demo.dirty_zinfo "blob.bin", Raw "0101")] /\
   zip_rebuild Demo.factory Demo.album_self [] [] [] Demo.album_world
   = Ok [(clean_zinfo "readme.txt", Raw "hello");
         (clean_zinfo "photos/beach.jpg", Raw "pixels")]
       (world_of (zip_rebuild Demo.factory Demo.album_self [] [] [] Demo.album_world))) /\
  [(clean_zinfo "readme.txt", Raw "hello"); (clean_zinfo "photos/beach.jpg", Raw "pixels")]
  = flat_map (zip_entry_rebuilt Demo.factory Demo.album_self [] [] [])
      [Demo.readme_item; Demo.photos_item; Demo.beach_item;
       (Demo.dirty_zinfo "blob.bin", Raw "0101")].
Proof.
  assert (tempdir Demo.album_self = abs_path ["tmp"; "tmpdir"]) as Ht by reflexivity.
  assert (Forall plain ["tmp"; "tmpdir"]) as Hp by by_decision.
  assert (data_at Demo.album_world (filename Demo.album_self) = Some Demo.album) as Hd
      by by_computation.
  assert (Forall (fun e : ZipInfo * content => ordinary_name (zi_filename e.1))
            [Demo.readme_item; Demo.photos_item; Demo.beach_item;
             (Demo.dirty_zinfo "blob.bin", Raw "0101")]) as Hall.
  { constructor; [|constructor; [|constructor; [|constructor; [|constructor]]]].
    - right. exists ["readme.txt"]. split; [discriminate|]. split; [by_decision|reflexivity].
    - left. reflexivity.
    - right. exists ["photos"; "beach.jpg"].
      split; [discriminate|]. split; [by_decision|reflexivity].
    - right. exists ["blob.bin"]. split; [discriminate|]. split; [by_decision|reflexivity]. }
  assert (zip_rebuild Demo.factory Demo.album_self [] [] [] Demo.album_world
          = Ok [(clean_zinfo "readme.txt", Raw "hello");
                (clean_zinfo "photos/beach.jpg", Raw "pixels")]
              (world_of (zip_rebuild Demo.factory Demo.album_self [] [] [] Demo.album_world)))
    as Hz by by_computation.
  split; [exact (conj Ht (conj Hp (conj Hd (conj Hall Hz))))|].
  assert (["tmp"; "tmpdir"] <> ([] : list string)) as Hne by discriminate.
  exact (zip_rebuild_ordinary_archive Demo.factory ["tmp"; "tmpdir"] Demo.album_self [] [] []
           Demo.album_world "holidays" _ _ _ Ht Hp Hne Hd Hall Hz).
Defined.


Lemma TarStripper_is_clean_writes_outside_witness :
  (tempdir Demo.tar_self = abs_path (["tmp"] ++ ["tmpdir"]) /\
   plain "tmpdir" /\ plain "planted.txt" /\
   data_at Demo.climbing_world (filename Demo.tar_self)
   = Some (TarData TarPlain (Demo.planted_member :: [Demo.blob_member])) /\
   ti_name Demo.planted_member.1 = "../" +:+ "planted.txt" /\
   OS.exists_ Demo.climbing_world "/tmp/planted.txt" = false /\
   TarStripper_is_clean Demo.factory Demo.is_clean_of Demo.utf8_ascii Demo.tar_self true
     Demo.climbing_world
   = Ok (Unsupported ["blob.bin"])
       (world_of (TarStripper_is_clean Demo.factory Demo.is_clean_of Demo.utf8_ascii
                    Demo.tar_self true Demo.climbing_world))) /\
  ~ under (tempdir Demo.tar_self) (abs_path (["tmp"] ++ ["planted.txt"])) /\
  is_Some (w_fs (world_of (TarStripper_is_clean Demo.factory Demo.is_clean_of Demo.utf8_ascii
                             Demo.tar_self true Demo.climbing_world))
           !! abs_path (["tmp"] ++ ["planted.txt"])) /\
  ([Demo.blob_member] = [] ->
   data_at (world_of (TarStripper_is_clean Demo.factory Demo.is_clean_of Demo.utf8_ascii
                        Demo.tar_self true Demo.climbing_world))
     (abs_path (["tmp"] ++ ["planted.txt"])) = Some Demo.planted_member.2).
Proof.
  assert (tempdir Demo.tar_self = abs_path (["tmp"] ++ ["tmpdir"])) as Ht by reflexivity.
  assert (Forall plain ["tmp"]) as Hxs by by_decision.
  assert (plain "tmpdir") as Hd by by_decision.
  assert (plain "planted.txt") as Hc by by_decision.
  assert ("planted.txt" <> "tmpdir") as Hne by discriminate.
  assert (data_at Demo.climbing_world (filename Demo.tar_self)
          = Some (TarData TarPlain (Demo.planted_member :: [Demo.blob_member]))) as Hdata
      by by_computation.
  assert (ti_name Demo.planted_member.1 = "../" +:+ "planted.txt") as Hn by reflexivity.
  assert (OS.exists_ Demo.climbing_world "/tmp/planted.txt" = false) as Hex by by_computation.
  assert (TarStripper_is_clean Demo.factory Demo.is_clean_of Demo.utf8_ascii Demo.tar_self true
            Demo.climbing_world
          = Ok (Unsupported ["blob.bin"])
              (world_of (TarStripper_is_clean Demo.factory Demo.is_clean_of Demo.utf8_ascii
                           Demo.tar_self true Demo.climbing_world))) as H by by_computation.
  split; [exact (conj Ht (conj Hd (conj Hc (conj Hdata (conj Hn (conj Hex H))))))|].
  exact (TarStripper_is_clean_writes_outside Demo.factory Demo.is_clean_of Demo.utf8_ascii
           ["tmp"] "tmpdir" "planted.txt" Demo.tar_self true Demo.climbing_world TarPlain
           Demo.planted_member [Demo.blob_member] _ _
           Ht Hxs Hd Hc Hne Hdata eq_refl Hn (or_intror eq_refl) H).
Defined.


Lemma OpenXmlStripper_get_meta_marks_docProps_witness :
  (tempdir Demo.docx_self = abs_path ["tmp"; "tmpdir"] /\
   Forall plain ["tmp"; "tmpdir"] /\
   scratch_ready Demo.docx_plain_world (tempdir Demo.docx_self) /\
   ~ under (tempdir Demo.docx_self) (Path.normpath (filename Demo.docx_self)) /\
   OpenXmlStripper_get_meta Demo.factory Demo.get_meta_of Demo.str_keys Demo.docx_self
     Demo.docx_plain_world
   = Ok (Demo.returned ∅ (OpenXmlStripper_get_meta Demo.factory Demo.get_meta_of
                            Demo.str_keys Demo.docx_self Demo.docx_plain_world))
       (world_of (OpenXmlStripper_get_meta Demo.factory Demo.get_meta_of Demo.str_keys
                    Demo.docx_self Demo.docx_plain_world)) /\
   Demo.returned ∅ (OpenXmlStripper_get_meta Demo.factory Demo.get_meta_of Demo.str_keys
                      Demo.docx_self Demo.docx_plain_world) !! "docProps/core.xml"
   = Some "harmful content") /\
  exists c l m0,
    data_at Demo.docx_plain_world (filename Demo.docx_self) = Some (ZipData c l) /\
    ZipStripper_get_meta Demo.factory Demo.get_meta_of Demo.str_keys Demo.docx_self
      Demo.docx_plain_world
    = Ok m0 (world_of (OpenXmlStripper_get_meta Demo.factory Demo.get_meta_of Demo.str_keys
                         Demo.docx_self Demo.docx_plain_world)) /\
    forall k,
      Demo.returned ∅ (OpenXmlStripper_get_meta Demo.factory Demo.get_meta_of Demo.str_keys
                         Demo.docx_self Demo.docx_plain_world) !! k
      = if bool_decide (k ∈ Zipfile.namelist l) && Path.startswith k "docProps/"
        then Some "harmful content" else m0 !! k.
Proof.
  assert (tempdir Demo.docx_self = abs_path ["tmp"; "tmpdir"]) as Ht by reflexivity.
  assert (Forall plain ["tmp"; "tmpdir"]) as Hp by by_decision.
  assert (["tmp"; "tmpdir"] <> ([] : list string)) as Hne by discriminate.
  assert (scratch_ready Demo.docx_plain_world (tempdir Demo.docx_self)) as Hr
      by (split; by_computation).
  assert (~ under (tempdir Demo.docx_self) (Path.normpath (filename Demo.docx_self))) as Hu
      by by_decision.
  assert (OpenXmlStripper_get_meta Demo.factory Demo.get_meta_of Demo.str_keys Demo.docx_self
            Demo.docx_plain_world
          = Ok (Demo.returned ∅ (OpenXmlStripper_get_meta Demo.factory Demo.get_meta_of
                                   Demo.str_keys Demo.docx_self Demo.docx_plain_world))
              (world_of (OpenXmlStripper_get_meta Demo.factory Demo.get_meta_of Demo.str_keys
                           Demo.docx_self Demo.docx_plain_world))) as H
      by (apply returns_Ok; by_computation).
  assert (Demo.returned ∅ (OpenXmlStripper_get_meta Demo.factory Demo.get_meta_of
                             Demo.str_keys Demo.docx_self Demo.docx_plain_world)
          !! "docProps/core.xml" = Some "harmful content") as Hk by by_computation.
  split; [exact (conj Ht (conj Hp (conj Hr (conj Hu (conj H Hk)))))|].
  exact (OpenXmlStripper_get_meta_marks_docProps Demo.factory Demo.get_meta_of Demo.str_keys
           ["tmp"; "tmpdir"] Demo.docx_self Demo.docx_plain_world _ _ Ht Hp Hne Hr Hu H).
Defined.
